(** * Digital twin of the Rossi job shop: the simulation core

    A shallow embedding of [simulazione_core.py] and of the parts of
    [configurazione.py] it reads.  One logical process (one work order going
    through [elabora_ordine]) is followed through the production system; the
    event kernel it runs on is an external library, so what the kernel decides
    (how long a resource request waits in its queue) enters as a parameter.

    Conventions.
    - Simulated time and durations are Python floats in the source; here they
      are exact rationals ([Q]), compared with [==].
    - Python [int] values are [Z].
    - A generator that can raise, block on an empty store or loop is a
      function from the system state to an outcome ([Esito]); [while True]
      loops carry an iteration budget. *)

From Stdlib Require Import ZArith QArith Qround Lia Lqa String List.
From stdpp Require Import gmap strings pretty.

Local Open Scope Q_scope.
Local Open Scope string_scope.

(** ** Python numerics *)

Module Py.

(** [int(x)] on a float: truncation towards zero. *)
Definition int (x : Q) : Z := Z.quot (Qnum x) (Zpos (Qden x)).

(** [round(x)] on a float: to the nearest integer, halves to the even one. *)
Definition round (x : Q) : Z :=
  let f := Qfloor x in
  let r := x - inject_Z f in
  if Qle_bool r (1#2)
  then (if Qle_bool (1#2) r then (if Z.even f then f else (f + 1)%Z) else f)
  else (f + 1)%Z.

(** [x % m] on floats, for a positive modulus: the result has the sign of [m]. *)
Definition fmod (x m : Q) : Q := x - m * inject_Z (Qfloor (x / m)).

(** A float used as a condition: false exactly for zero. *)
Definition truthy (x : Q) : bool := negb (Qeq_bool x 0).

(** [a < b], [a <= b] as booleans. *)
Definition ltb (a b : Q) : bool := negb (Qle_bool b a).
Definition leb (a b : Q) : bool := Qle_bool a b.

(** [max(a, b)], [min(a, b)]: the first argument unless the second is
    strictly beyond it. *)
Definition max (a b : Q) : Q := if ltb a b then b else a.
Definition min (a b : Q) : Q := if ltb b a then b else a.

End Py.

(** ** configurazione.py *)

Definition MINUTI_GIORNALIERI : Z := 1440.

Inductive TipoProdotto := FL_01 | PN_03 | IN_07 | RD_01.

Inductive TipoMacchinario :=
| TRONCATRICE | TRAPANO | TORNIO | FRESA | RETTIFICA | FORNO
| BANCO_ASSEMBLAGGIO | BANCO_COLLAUDO | BANCO_CONTROLLO.

Inductive TipoOperatore := GENERICO | SPECIALIZZATO.

Inductive PoliticaSchedulazione := FIFO | SPT | EDD.

(** The members are [str] enums: a member is its value wherever it is used
    as a key or compared with an identifier. *)
Definition valore_prodotto (p : TipoProdotto) : string :=
  match p with
  | FL_01 => "FL-01" | PN_03 => "PN-03" | IN_07 => "IN-07" | RD_01 => "RD-01"
  end.

Definition nome_prodotto (p : TipoProdotto) : string :=
  match p with
  | FL_01 => "FL_01" | PN_03 => "PN_03" | IN_07 => "IN_07" | RD_01 => "RD_01"
  end.

Definition valore_macchinario (m : TipoMacchinario) : string :=
  match m with
  | TRONCATRICE => "Troncatrice" | TRAPANO => "Trapano" | TORNIO => "Tornio"
  | FRESA => "Fresa" | RETTIFICA => "Rettifica" | FORNO => "Forno"
  | BANCO_ASSEMBLAGGIO => "Banco Assemblaggio"
  | BANCO_COLLAUDO => "Banco Collaudo"
  | BANCO_CONTROLLO => "Banco Controllo"
  end.

Definition valore_operatore (o : TipoOperatore) : string :=
  match o with
  | GENERICO => "Operatore Generico"
  | SPECIALIZZATO => "Tecnico Specializzato"
  end.

Definition tutti_prodotti : list TipoProdotto := [FL_01; PN_03; IN_07; RD_01].

Definition tutti_macchinari : list TipoMacchinario :=
  [TRONCATRICE; TRAPANO; TORNIO; FRESA; RETTIFICA; FORNO;
   BANCO_ASSEMBLAGGIO; BANCO_COLLAUDO; BANCO_CONTROLLO].

#[global] Instance TipoProdotto_eq_dec : EqDecision TipoProdotto.
Proof. solve_decision. Defined.
#[global] Instance TipoMacchinario_eq_dec : EqDecision TipoMacchinario.
Proof. solve_decision. Defined.
#[global] Instance TipoOperatore_eq_dec : EqDecision TipoOperatore.
Proof. solve_decision. Defined.
#[global] Instance PoliticaSchedulazione_eq_dec : EqDecision PoliticaSchedulazione.
Proof. solve_decision. Defined.

(** A risorsa is named by a machine type or by an operator type. *)
Inductive NomeRisorsa :=
| Macchina (m : TipoMacchinario)
| Addetto (o : TipoOperatore).

(** [ConfigurazioneSimulazione]: the fields the core reads.  A [Dict] keyed by
    product is keyed by the product code (a string); [Optional] is [option]. *)
Record ConfigurazioneSimulazione := {
  tempi_lavorazione : TipoMacchinario -> option (gmap string Q);
  capacita : NomeRisorsa -> option Z;
  probabilita_rifacimento : Q;
  richiede_specialista : bool;
  limiti_produzione_giornaliera : option (gmap string Z);
  limite_produzione_totale_giornaliera : option Z;
  fattore_variabilita_processo : Q;
  tempo_setup_minuti : Q;
  probabilita_guasto : Q;
  minuti_riparazione_min : Z;
  minuti_riparazione_max : Z;
  orario_inizio_turno : Z;
  orario_fine_turno : Z;
  distinta_base : option (gmap string (gmap string Z));
  livelli_scorta_minima : option (gmap string Z);
  lotto_riordino_standard : option (gmap string Z)
}.

(** [GestoreConfigurazione._crea_configurazione_base]. *)
Definition tempi_base (m : TipoMacchinario) : option (gmap string Q) :=
  Some match m with
       | TRONCATRICE => {[ "FL-01" := 10; "PN-03" := 15; "IN-07" := 30 ]}
       | TRAPANO => {[ "FL-01" := 10 ]}
       | TORNIO => {[ "PN-03" := 30 ]}
       | FRESA => {[ "IN-07" := 45 ]}
       | RETTIFICA => {[ "PN-03" := 20; "IN-07" := 20 ]}
       | FORNO => {[ "IN-07" := 12 ]}
       | BANCO_ASSEMBLAGGIO => {[ "RD-01" := 60 ]}
       | BANCO_COLLAUDO => {[ "RD-01" := 30 ]}
       | BANCO_CONTROLLO => {[ "FL-01" := 10; "PN-03" := 10; "IN-07" := 10 ]}
       end.

Definition capacita_base (r : NomeRisorsa) : option Z :=
  Some match r with
       | Macchina TRONCATRICE => 3 | Macchina TORNIO => 3 | Macchina FRESA => 2
       | Macchina TRAPANO => 2 | Macchina RETTIFICA => 2 | Macchina FORNO => 1
       | Macchina BANCO_ASSEMBLAGGIO => 2 | Macchina BANCO_COLLAUDO => 2
       | Macchina BANCO_CONTROLLO => 2
       | Addetto GENERICO => 6 | Addetto SPECIALIZZATO => 3
       end%Z.

Definition distinta_base_base : gmap string (gmap string Z) :=
  {[ "RD-01" := {[ "FL-01" := 1%Z; "PN-03" := 2%Z ]} ]}.

Definition crea_configurazione_base : ConfigurazioneSimulazione :=
  {| tempi_lavorazione := tempi_base;
     capacita := capacita_base;
     probabilita_rifacimento := 5 # 100;
     richiede_specialista := true;
     limiti_produzione_giornaliera := None;
     limite_produzione_totale_giornaliera := None;
     fattore_variabilita_processo := 0;
     tempo_setup_minuti := 15;
     probabilita_guasto := 1 # 100;
     minuti_riparazione_min := 60;
     minuti_riparazione_max := 180;
     orario_inizio_turno := 8;
     orario_fine_turno := 17;
     distinta_base := Some distinta_base_base;
     livelli_scorta_minima := None;
     lotto_riordino_standard := None |}.

(** ** simulazione_core.py: data *)

(** A Python object reference to a work order. *)
Definition Rif := nat.

Record Prodotto := {
  prodotto_id : string;
  prodotto_nome : string
}.

(** One entry of [OrdineDiLavoro.log_lavorazioni]. *)
Record Lavorazione := {
  lav_fase : TipoMacchinario;
  lav_durata : Q;
  lav_operatore : option TipoOperatore;
  lav_inizio : Q;
  lav_fine : Q
}.

Record OrdineDiLavoro := {
  ordine_id : string;
  prodotto : Prodotto;
  tempo_creazione : Q;
  scadenza : Q;
  tempo_completamento : option Q;
  cronologia_fasi : list TipoMacchinario;
  log_lavorazioni : list Lavorazione;
  consumato : bool;
  componenti_consumati : list Rif
}.

(** [OrdineDiLavoro.tempo_attraversamento]: the lead time, guarded by the
    truth value of the completion time ([None] and [0.0] are both false). *)
Definition tempo_attraversamento (o : OrdineDiLavoro) : option Q :=
  match tempo_completamento o with
  | Some t => if Py.truthy t then Some (t - tempo_creazione o) else None
  | None => None
  end.

Definition con_tempo_completamento (t : option Q) (o : OrdineDiLavoro) :=
  {| ordine_id := ordine_id o; prodotto := prodotto o;
     tempo_creazione := tempo_creazione o; scadenza := scadenza o;
     tempo_completamento := t;
     cronologia_fasi := cronologia_fasi o;
     log_lavorazioni := log_lavorazioni o;
     consumato := consumato o;
     componenti_consumati := componenti_consumati o |}.

(** [OrdineDiLavoro.traccia_fase]. *)
Definition traccia_fase (fase : TipoMacchinario) (o : OrdineDiLavoro) :=
  {| ordine_id := ordine_id o; prodotto := prodotto o;
     tempo_creazione := tempo_creazione o; scadenza := scadenza o;
     tempo_completamento := tempo_completamento o;
     cronologia_fasi := cronologia_fasi o ++ [fase];
     log_lavorazioni := log_lavorazioni o;
     consumato := consumato o;
     componenti_consumati := componenti_consumati o |}.

Definition aggiungi_lavorazione (l : Lavorazione) (o : OrdineDiLavoro) :=
  {| ordine_id := ordine_id o; prodotto := prodotto o;
     tempo_creazione := tempo_creazione o; scadenza := scadenza o;
     tempo_completamento := tempo_completamento o;
     cronologia_fasi := cronologia_fasi o;
     log_lavorazioni := log_lavorazioni o ++ [l];
     consumato := consumato o;
     componenti_consumati := componenti_consumati o |}.

Definition aggiungi_componente (c : Rif) (o : OrdineDiLavoro) :=
  {| ordine_id := ordine_id o; prodotto := prodotto o;
     tempo_creazione := tempo_creazione o; scadenza := scadenza o;
     tempo_completamento := tempo_completamento o;
     cronologia_fasi := cronologia_fasi o;
     log_lavorazioni := log_lavorazioni o;
     consumato := consumato o;
     componenti_consumati := componenti_consumati o ++ [c] |}.

(** One entry of [RisorsaProduttiva.log_eventi]. *)
Record EventoLog := {
  ev_tipo : string;
  ev_inizio : Q;
  ev_fine : Q;
  ev_ordine : option string;
  ev_descrizione : string
}.

(** [RisorsaProduttiva] (and its subclasses [Macchinario], [Operatore], which
    add nothing the core reads).  [risorsa_capacity] is the capacity of the
    kernel resource; [ultimo_prodotto] is the attribute [esegui_operazione]
    attaches, absent ([None]) until the first operation. *)
Record RisorsaProduttiva := {
  nome : NomeRisorsa;
  risorsa_capacity : Z;
  tempo_occupato_totale : Q;
  tempo_lavorazione : Q;
  tempo_setup : Q;
  tempo_guasto : Q;
  log_eventi : list EventoLog;
  ultimo_prodotto : option string
}.

Inductive Eccezione :=
| ValueError (msg : string)
| KeyError (chiave : string).

(** [RisorsaProduttiva.__init__]. *)
Definition RisorsaProduttiva_init (n : NomeRisorsa) (cap : Z)
  : Eccezione + RisorsaProduttiva :=
  if (cap <? 1)%Z
  then inl (ValueError "La capacita della risorsa deve essere positiva")
  else inr {| nome := n; risorsa_capacity := cap;
              tempo_occupato_totale := 0; tempo_lavorazione := 0;
              tempo_setup := 0; tempo_guasto := 0;
              log_eventi := []; ultimo_prodotto := None |}.

(** [RisorsaProduttiva.registra_tempo_utilizzo]. *)
Definition registra_tempo_utilizzo (durata : Q) (tipo : string)
  (r : RisorsaProduttiva) : RisorsaProduttiva :=
  {| nome := nome r; risorsa_capacity := risorsa_capacity r;
     tempo_occupato_totale := tempo_occupato_totale r + durata;
     tempo_lavorazione :=
       if String.eqb tipo "lavorazione" then tempo_lavorazione r + durata
       else tempo_lavorazione r;
     tempo_setup :=
       if String.eqb tipo "lavorazione" then tempo_setup r
       else if String.eqb tipo "setup" then tempo_setup r + durata
       else tempo_setup r;
     tempo_guasto :=
       if String.eqb tipo "lavorazione" then tempo_guasto r
       else if String.eqb tipo "setup" then tempo_guasto r
       else if String.eqb tipo "guasto" then tempo_guasto r + durata
       else tempo_guasto r;
     log_eventi := log_eventi r;
     ultimo_prodotto := ultimo_prodotto r |}.

Definition aggiungi_evento (e : EventoLog) (r : RisorsaProduttiva) :=
  {| nome := nome r; risorsa_capacity := risorsa_capacity r;
     tempo_occupato_totale := tempo_occupato_totale r;
     tempo_lavorazione := tempo_lavorazione r;
     tempo_setup := tempo_setup r;
     tempo_guasto := tempo_guasto r;
     log_eventi := log_eventi r ++ [e];
     ultimo_prodotto := ultimo_prodotto r |}.

Definition con_ultimo_prodotto (p : string) (r : RisorsaProduttiva) :=
  {| nome := nome r; risorsa_capacity := risorsa_capacity r;
     tempo_occupato_totale := tempo_occupato_totale r;
     tempo_lavorazione := tempo_lavorazione r;
     tempo_setup := tempo_setup r;
     tempo_guasto := tempo_guasto r;
     log_eventi := log_eventi r;
     ultimo_prodotto := Some p |}.

(** [RisorsaProduttiva.calcola_tasso_utilizzo].  Division is the one
    operation in it that can raise; it is reached only behind the two
    guards. *)
Inductive Divisione := Quoziente (q : Q) | ZeroDivisionError.

Definition dividi (a b : Q) : Divisione :=
  if Qeq_bool b 0 then ZeroDivisionError else Quoziente (a / b).

Definition calcola_tasso_utilizzo (r : RisorsaProduttiva)
  (orizzonte_temporale : Q) : Divisione :=
  if Qeq_bool orizzonte_temporale 0 then Quoziente 0
  else
    let capacita_totale := risorsa_capacity r in
    if (capacita_totale =? 0)%Z then Quoziente 0
    else
      let disponibilita_teorica := orizzonte_temporale * inject_Z capacita_totale in
      let tempo_produttivo := tempo_lavorazione r + tempo_setup r in
      match dividi tempo_produttivo disponibilita_teorica with
      | Quoziente q => Quoziente (q * 100)
      | ZeroDivisionError => ZeroDivisionError
      end.

(** ** The event kernel, as one process sees it *)

(** What a process hands to the kernel when it suspends or acts on a kernel
    object; [env_traccia] keeps them in order. *)
Inductive Deposito :=
| BufferScorte (p : TipoProdotto)
| MagazzinoIntermedio (p : TipoProdotto).

Inductive Evento :=
| EvTimeout (ritardo : Q)
| EvRequest (r : NomeRisorsa) (priorita : Z)
| EvGranted (r : NomeRisorsa) (attesa : Q)
| EvRelease (r : NomeRisorsa)
| EvPut (d : Deposito) (o : Rif)
| EvGet (d : Deposito) (o : Rif).

(** [simpy.Environment]: the clock, the number of resource requests this
    process has had granted, and the events it has yielded so far. *)
Record Environment := {
  env_now : Q;
  env_richieste : nat;
  env_traccia : list Evento
}.

(** [random.Random]: the variates the generator will hand out, and how many
    have been drawn. *)
Record Random := {
  variati : nat -> Q;
  estratti : nat
}.

(** [GestoreTempo]: [data_inizio] is kept as the minutes elapsed between a
    Monday 00:00 and the epoch of the simulation, which is all that
    [weekday], [hour] and [minute] of [data_inizio + timedelta(minutes=m)]
    depend on. *)
Record GestoreTempo := {
  data_inizio : Q
}.

(** The subclasses of [StrategiaProcessoBase]. *)
Inductive Strategia := StrategiaFL01 | StrategiaPN03 | StrategiaIN07 | StrategiaRD01.

(** [SistemaProduttivo], together with the objects it reaches: the kernel
    environment, the calendar of its [GestoreTurni], and the work orders
    ([oggetti], by reference; [oggetti_creati] is the next free reference). *)
Record SistemaProduttivo := {
  ambiente : Environment;
  gestore_tempo : option GestoreTempo;
  strategie : gmap string Strategia;
  configurazione : ConfigurazioneSimulazione;
  rng : Random;
  politica : PoliticaSchedulazione;
  macchinari : TipoMacchinario -> RisorsaProduttiva;
  operatori : TipoOperatore -> RisorsaProduttiva;
  buffer_scorte : TipoProdotto -> option (list Rif);
  magazzino_intermedio : TipoProdotto -> option (list Rif);
  giorno_corrente : Z;
  produzione_giornaliera_per_prodotto : gmap string Z;
  produzione_giornaliera_totale : Z;
  oggetti : Rif -> OrdineDiLavoro;
  oggetti_creati : nat
}.

Definition con_ambiente (v : Environment) (s : SistemaProduttivo) : SistemaProduttivo :=
  {| ambiente := v;
     gestore_tempo := gestore_tempo s;
     strategie := strategie s;
     configurazione := configurazione s;
     rng := rng s;
     politica := politica s;
     macchinari := macchinari s;
     operatori := operatori s;
     buffer_scorte := buffer_scorte s;
     magazzino_intermedio := magazzino_intermedio s;
     giorno_corrente := giorno_corrente s;
     produzione_giornaliera_per_prodotto := produzione_giornaliera_per_prodotto s;
     produzione_giornaliera_totale := produzione_giornaliera_totale s;
     oggetti := oggetti s;
     oggetti_creati := oggetti_creati s |}.

Definition con_rng (v : Random) (s : SistemaProduttivo) : SistemaProduttivo :=
  {| ambiente := ambiente s;
     gestore_tempo := gestore_tempo s;
     strategie := strategie s;
     configurazione := configurazione s;
     rng := v;
     politica := politica s;
     macchinari := macchinari s;
     operatori := operatori s;
     buffer_scorte := buffer_scorte s;
     magazzino_intermedio := magazzino_intermedio s;
     giorno_corrente := giorno_corrente s;
     produzione_giornaliera_per_prodotto := produzione_giornaliera_per_prodotto s;
     produzione_giornaliera_totale := produzione_giornaliera_totale s;
     oggetti := oggetti s;
     oggetti_creati := oggetti_creati s |}.

Definition con_macchinari (v : TipoMacchinario -> RisorsaProduttiva) (s : SistemaProduttivo) : SistemaProduttivo :=
  {| ambiente := ambiente s;
     gestore_tempo := gestore_tempo s;
     strategie := strategie s;
     configurazione := configurazione s;
     rng := rng s;
     politica := politica s;
     macchinari := v;
     operatori := operatori s;
     buffer_scorte := buffer_scorte s;
     magazzino_intermedio := magazzino_intermedio s;
     giorno_corrente := giorno_corrente s;
     produzione_giornaliera_per_prodotto := produzione_giornaliera_per_prodotto s;
     produzione_giornaliera_totale := produzione_giornaliera_totale s;
     oggetti := oggetti s;
     oggetti_creati := oggetti_creati s |}.

Definition con_operatori (v : TipoOperatore -> RisorsaProduttiva) (s : SistemaProduttivo) : SistemaProduttivo :=
  {| ambiente := ambiente s;
     gestore_tempo := gestore_tempo s;
     strategie := strategie s;
     configurazione := configurazione s;
     rng := rng s;
     politica := politica s;
     macchinari := macchinari s;
     operatori := v;
     buffer_scorte := buffer_scorte s;
     magazzino_intermedio := magazzino_intermedio s;
     giorno_corrente := giorno_corrente s;
     produzione_giornaliera_per_prodotto := produzione_giornaliera_per_prodotto s;
     produzione_giornaliera_totale := produzione_giornaliera_totale s;
     oggetti := oggetti s;
     oggetti_creati := oggetti_creati s |}.

Definition con_buffer_scorte (v : TipoProdotto -> option (list Rif)) (s : SistemaProduttivo) : SistemaProduttivo :=
  {| ambiente := ambiente s;
     gestore_tempo := gestore_tempo s;
     strategie := strategie s;
     configurazione := configurazione s;
     rng := rng s;
     politica := politica s;
     macchinari := macchinari s;
     operatori := operatori s;
     buffer_scorte := v;
     magazzino_intermedio := magazzino_intermedio s;
     giorno_corrente := giorno_corrente s;
     produzione_giornaliera_per_prodotto := produzione_giornaliera_per_prodotto s;
     produzione_giornaliera_totale := produzione_giornaliera_totale s;
     oggetti := oggetti s;
     oggetti_creati := oggetti_creati s |}.

Definition con_magazzino_intermedio (v : TipoProdotto -> option (list Rif)) (s : SistemaProduttivo) : SistemaProduttivo :=
  {| ambiente := ambiente s;
     gestore_tempo := gestore_tempo s;
     strategie := strategie s;
     configurazione := configurazione s;
     rng := rng s;
     politica := politica s;
     macchinari := macchinari s;
     operatori := operatori s;
     buffer_scorte := buffer_scorte s;
     magazzino_intermedio := v;
     giorno_corrente := giorno_corrente s;
     produzione_giornaliera_per_prodotto := produzione_giornaliera_per_prodotto s;
     produzione_giornaliera_totale := produzione_giornaliera_totale s;
     oggetti := oggetti s;
     oggetti_creati := oggetti_creati s |}.

Definition con_giorno_corrente (v : Z) (s : SistemaProduttivo) : SistemaProduttivo :=
  {| ambiente := ambiente s;
     gestore_tempo := gestore_tempo s;
     strategie := strategie s;
     configurazione := configurazione s;
     rng := rng s;
     politica := politica s;
     macchinari := macchinari s;
     operatori := operatori s;
     buffer_scorte := buffer_scorte s;
     magazzino_intermedio := magazzino_intermedio s;
     giorno_corrente := v;
     produzione_giornaliera_per_prodotto := produzione_giornaliera_per_prodotto s;
     produzione_giornaliera_totale := produzione_giornaliera_totale s;
     oggetti := oggetti s;
     oggetti_creati := oggetti_creati s |}.

Definition con_produzione_giornaliera_per_prodotto (v : gmap string Z) (s : SistemaProduttivo) : SistemaProduttivo :=
  {| ambiente := ambiente s;
     gestore_tempo := gestore_tempo s;
     strategie := strategie s;
     configurazione := configurazione s;
     rng := rng s;
     politica := politica s;
     macchinari := macchinari s;
     operatori := operatori s;
     buffer_scorte := buffer_scorte s;
     magazzino_intermedio := magazzino_intermedio s;
     giorno_corrente := giorno_corrente s;
     produzione_giornaliera_per_prodotto := v;
     produzione_giornaliera_totale := produzione_giornaliera_totale s;
     oggetti := oggetti s;
     oggetti_creati := oggetti_creati s |}.

Definition con_produzione_giornaliera_totale (v : Z) (s : SistemaProduttivo) : SistemaProduttivo :=
  {| ambiente := ambiente s;
     gestore_tempo := gestore_tempo s;
     strategie := strategie s;
     configurazione := configurazione s;
     rng := rng s;
     politica := politica s;
     macchinari := macchinari s;
     operatori := operatori s;
     buffer_scorte := buffer_scorte s;
     magazzino_intermedio := magazzino_intermedio s;
     giorno_corrente := giorno_corrente s;
     produzione_giornaliera_per_prodotto := produzione_giornaliera_per_prodotto s;
     produzione_giornaliera_totale := v;
     oggetti := oggetti s;
     oggetti_creati := oggetti_creati s |}.

Definition con_oggetti (v : Rif -> OrdineDiLavoro) (s : SistemaProduttivo) : SistemaProduttivo :=
  {| ambiente := ambiente s;
     gestore_tempo := gestore_tempo s;
     strategie := strategie s;
     configurazione := configurazione s;
     rng := rng s;
     politica := politica s;
     macchinari := macchinari s;
     operatori := operatori s;
     buffer_scorte := buffer_scorte s;
     magazzino_intermedio := magazzino_intermedio s;
     giorno_corrente := giorno_corrente s;
     produzione_giornaliera_per_prodotto := produzione_giornaliera_per_prodotto s;
     produzione_giornaliera_totale := produzione_giornaliera_totale s;
     oggetti := v;
     oggetti_creati := oggetti_creati s |}.

(** How a generator run ends.  [Bloccato]: suspended on a [get] that nothing
    in this process can answer.  [Esaurito]: the iteration budget of a
    [while] loop of the model ran out (the source would go on looping). *)
Inductive Esito (A : Type) :=
| Fatto (a : A) (s : SistemaProduttivo)
| Bloccato (s : SistemaProduttivo)
| Sollevata (e : Eccezione) (s : SistemaProduttivo)
| Esaurito (s : SistemaProduttivo).

Arguments Fatto {A} a s.
Arguments Bloccato {A} s.
Arguments Sollevata {A} e s.
Arguments Esaurito {A} s.

Definition Processo (A : Type) := SistemaProduttivo -> Esito A.

Definition ret {A} (a : A) : Processo A := fun s => Fatto a s.

Definition bind {A B} (m : Processo A) (k : A -> Processo B) : Processo B :=
  fun s =>
    match m s with
    | Fatto a s' => k a s'
    | Bloccato s' => Bloccato s'
    | Sollevata e s' => Sollevata e s'
    | Esaurito s' => Esaurito s'
    end.

Declare Scope processo_scope.
Delimit Scope processo_scope with processo.
Notation "x <- m ;; k" := (bind m (fun x => k))
  (at level 100, m at next level, right associativity) : processo_scope.
Notation "m ;; k" := (bind m (fun _ => k))
  (at level 100, right associativity) : processo_scope.
Local Open Scope processo_scope.

Definition solleva {A} (e : Eccezione) : Processo A := fun s => Sollevata e s.
Definition esaurito {A} : Processo A := fun s => Esaurito s.
Definition blocca {A} : Processo A := fun s => Bloccato s.
Definition leggi {A} (f : SistemaProduttivo -> A) : Processo A :=
  fun s => Fatto (f s) s.
Definition modifica (f : SistemaProduttivo -> SistemaProduttivo) : Processo unit :=
  fun s => Fatto tt (f s).

(** [with ... :] around a body: the exit action runs on normal exit and when
    an exception leaves the body. *)
Definition finalmente {A} (corpo : Processo A)
  (uscita : SistemaProduttivo -> SistemaProduttivo) : Processo A :=
  fun s =>
    match corpo s with
    | Fatto a s' => Fatto a (uscita s')
    | Sollevata e s' => Sollevata e (uscita s')
    | Bloccato s' => Bloccato s'
    | Esaurito s' => Esaurito s'
    end.

Definition annota (e : Evento) (s : SistemaProduttivo) : SistemaProduttivo :=
  con_ambiente
    {| env_now := env_now (ambiente s);
       env_richieste := env_richieste (ambiente s);
       env_traccia := env_traccia (ambiente s) ++ [e] |} s.

Definition avanza_orologio (d : Q) (s : SistemaProduttivo) : SistemaProduttivo :=
  con_ambiente
    {| env_now := env_now (ambiente s) + d;
       env_richieste := env_richieste (ambiente s);
       env_traccia := env_traccia (ambiente s) |} s.

Definition ambiente_now : Processo Q := leggi (fun s => env_now (ambiente s)).

(** [yield ambiente.timeout(d)]: the kernel refuses a negative delay. *)
Definition timeout (d : Q) : Processo unit :=
  if Py.ltb d 0 then solleva (ValueError "Negative delay")
  else modifica (fun s => avanza_orologio d (annota (EvTimeout d) s)).

(** [random.Random]: [random()], [randint(a, b)] and [uniform(a, b)], each
    taking the next variate. *)
Definition estrai (g : Random) : Q * Random :=
  (variati g (estratti g), {| variati := variati g; estratti := S (estratti g) |}).

Definition rng_random : Processo Q :=
  g <- leggi rng ;;
  modifica (con_rng (snd (estrai g))) ;;
  ret (fst (estrai g)).

Definition rng_randint (a b : Z) : Processo Z :=
  if (b <? a)%Z then solleva (ValueError "empty range for randrange()")
  else
    g <- leggi rng ;;
    modifica (con_rng (snd (estrai g))) ;;
    ret (a + Qfloor (fst (estrai g) * inject_Z (b - a + 1)))%Z.

Definition rng_uniform (a b : Q) : Processo Q :=
  g <- leggi rng ;;
  modifica (con_rng (snd (estrai g))) ;;
  ret (a + (b - a) * fst (estrai g)).

(** [simpy.Store]: [put] appends, [get] hands out the oldest item and
    suspends the caller on an empty store. *)
Definition deposito_items (d : Deposito) (s : SistemaProduttivo) : option (list Rif) :=
  match d with
  | BufferScorte p => buffer_scorte s p
  | MagazzinoIntermedio p => magazzino_intermedio s p
  end.

Definition con_deposito_items (d : Deposito) (l : list Rif) (s : SistemaProduttivo) :=
  match d with
  | BufferScorte p =>
      con_buffer_scorte
        (fun q => if decide (q = p) then Some l else buffer_scorte s q) s
  | MagazzinoIntermedio p =>
      con_magazzino_intermedio
        (fun q => if decide (q = p) then Some l else magazzino_intermedio s q) s
  end.

Definition store_put (d : Deposito) (o : Rif) : Processo unit :=
  items <- leggi (deposito_items d) ;;
  match items with
  | Some items =>
      modifica (fun s => annota (EvPut d o) (con_deposito_items d (items ++ [o]) s))
  | None => solleva (KeyError "store")
  end.

Definition store_get (d : Deposito) : Processo Rif :=
  items <- leggi (deposito_items d) ;;
  match items with
  | Some (o :: items) =>
      modifica (fun s => annota (EvGet d o) (con_deposito_items d items s)) ;;
      ret o
  | Some [] => blocca
  | None => solleva (KeyError "store")
  end.

(** Work orders are objects: read and mutated through their reference. *)
Definition ordine_di (o : Rif) : Processo OrdineDiLavoro :=
  leggi (fun s => oggetti s o).

Definition aggiorna_ordine (o : Rif) (f : OrdineDiLavoro -> OrdineDiLavoro)
  : Processo unit :=
  modifica (fun s =>
    con_oggetti (fun r => if decide (r = o) then f (oggetti s o) else oggetti s r) s).

Definition aggiorna_macchina (m : TipoMacchinario)
  (f : RisorsaProduttiva -> RisorsaProduttiva) : Processo unit :=
  modifica (fun s =>
    con_macchinari
      (fun x => if decide (x = m) then f (macchinari s m) else macchinari s x) s).

Definition aggiorna_operatore (t : TipoOperatore)
  (f : RisorsaProduttiva -> RisorsaProduttiva) : Processo unit :=
  modifica (fun s =>
    con_operatori
      (fun x => if decide (x = t) then f (operatori s t) else operatori s x) s).

(** [d[k]] on a nested table of processing times. *)
Definition tempo_di (tempi : TipoMacchinario -> option (gmap string Q))
  (m : TipoMacchinario) (p : string) : Processo Q :=
  match tempi m with
  | None => solleva (KeyError (valore_macchinario m))
  | Some riga =>
      match riga !! p with
      | None => solleva (KeyError p)
      | Some d => ret d
      end
  end.

(** ** GestoreTempo *)

Definition ottieni_data_corrente (g : GestoreTempo) (minuti_simulazione : Q) : Q :=
  data_inizio g + minuti_simulazione.

(** [datetime.weekday()] (0 = Monday), [.hour] and [.minute]. *)
Definition weekday (dt : Q) : Z := (Qfloor (dt / 1440) mod 7)%Z.
Definition hour (dt : Q) : Z := Qfloor (Py.fmod dt 1440 / 60).
Definition minute (dt : Q) : Z := Qfloor (Py.fmod dt 60).

Definition is_fine_settimana (g : GestoreTempo) (minuti_simulazione : Q) : bool :=
  (5 <=? weekday (ottieni_data_corrente g minuti_simulazione))%Z.

Definition ottieni_ora (g : GestoreTempo) (minuti_simulazione : Q) : Z :=
  hour (ottieni_data_corrente g minuti_simulazione).

Section Kernel.

(** The wait the kernel imposes on the [n]-th resource request of the
    process before granting it. *)
Variable attesa_coda : nat -> Q.

(** The iteration budget given to each [while] loop. *)
Variable giri : nat.

(** [risorsa.richiedi_accesso(priorita)] and [yield] on the request. *)
Definition richiedi_accesso (r : NomeRisorsa) (priorita : Z) : Processo unit :=
  modifica (annota (EvRequest r priorita)).

Definition attendi_richiesta (r : NomeRisorsa) : Processo unit :=
  modifica (fun s =>
    let w := attesa_coda (env_richieste (ambiente s)) in
    con_ambiente
      {| env_now := env_now (ambiente s) + w;
         env_richieste := S (env_richieste (ambiente s));
         env_traccia := env_traccia (ambiente s) ++ [EvGranted r w] |} s).

(** ** GestoreTurni *)

Fixpoint attendi_turno_ciclo (n : nat) (configurazione : ConfigurazioneSimulazione)
  : Processo unit :=
  match n with
  | O => esaurito
  | S n' =>
      t <- ambiente_now ;;
      g <- leggi gestore_tempo ;;
      let feriale : Processo unit :=
        t <- ambiente_now ;;
        let minuti_totali_simulazione := Py.round t in
        let minuti_giornalieri := (minuti_totali_simulazione mod MINUTI_GIORNALIERI)%Z in
        let minuti_inizio := (orario_inizio_turno configurazione * 60)%Z in
        let minuti_fine := (orario_fine_turno configurazione * 60)%Z in
        if (minuti_fine <=? minuti_giornalieri)%Z then
          let minuti_a_mezzanotte := (MINUTI_GIORNALIERI - minuti_giornalieri)%Z in
          let tempo_attesa := (minuti_a_mezzanotte + minuti_inizio)%Z in
          let tempo_attesa := if (tempo_attesa <=? 0)%Z then 1%Z else tempo_attesa in
          timeout (inject_Z tempo_attesa) ;;
          attendi_turno_ciclo n' configurazione
        else if (minuti_giornalieri <? minuti_inizio)%Z then
          let tempo_attesa := (minuti_inizio - minuti_giornalieri)%Z in
          let tempo_attesa := if (tempo_attesa <=? 0)%Z then 1%Z else tempo_attesa in
          timeout (inject_Z tempo_attesa) ;;
          attendi_turno_ciclo n' configurazione
        else ret tt in
      match g with
      | Some gt =>
          let dt_corrente := ottieni_data_corrente gt t in
          let giorno_settimana := weekday dt_corrente in
          if (5 <=? giorno_settimana)%Z then
            let giorni_al_lunedi := (7 - giorno_settimana)%Z in
            let minuti_a_mezzanotte :=
              (((24 - hour dt_corrente - 1) * 60) + (60 - minute dt_corrente))%Z in
            let giorni_interi_da_saltare := (giorni_al_lunedi - 1)%Z in
            let minuti_apertura_lunedi := (orario_inizio_turno configurazione * 60)%Z in
            let tempo_attesa_weekend :=
              inject_Z (minuti_a_mezzanotte + (giorni_interi_da_saltare * 24 * 60)
                        + minuti_apertura_lunedi) in
            let tempo_attesa_weekend :=
              if Py.leb tempo_attesa_weekend (1 # 10) then 1 else tempo_attesa_weekend in
            timeout (tempo_attesa_weekend + (1 # 10)) ;;
            attendi_turno_ciclo n' configurazione
          else feriale
      | None => feriale
      end
  end.

(** [GestoreTurni.attendi_turno_lavorativo]. *)
Definition attendi_turno_lavorativo (configurazione : ConfigurazioneSimulazione)
  : Processo unit :=
  attendi_turno_ciclo giri configurazione.

Fixpoint avanza_tempo_ciclo (n : nat) (durata_minuti : Q)
  (configurazione : ConfigurazioneSimulazione) : Processo unit :=
  if Py.ltb (1 # 1000000) durata_minuti then
    match n with
    | O => esaurito
    | S n' =>
        attendi_turno_lavorativo configurazione ;;
        t <- ambiente_now ;;
        let minuti_giornalieri := Py.fmod t (inject_Z MINUTI_GIORNALIERI) in
        let minuti_fine_turno := inject_Z (orario_fine_turno configurazione * 60) in
        let tempo_residuo_turno := minuti_fine_turno - minuti_giornalieri in
        if Py.leb tempo_residuo_turno (1 # 1000000) then
          attendi_turno_lavorativo configurazione ;;
          avanza_tempo_ciclo n' durata_minuti configurazione
        else
          let dt := Py.min durata_minuti tempo_residuo_turno in
          timeout dt ;;
          avanza_tempo_ciclo n' (durata_minuti - dt) configurazione
    end
  else ret tt.

(** [GestoreTurni.avanza_tempo_lavorativo]. *)
Definition avanza_tempo_lavorativo (durata_minuti : Q)
  (configurazione : ConfigurazioneSimulazione) : Processo unit :=
  avanza_tempo_ciclo giri durata_minuti configurazione.

(** ** SistemaProduttivo.esegui_operazione *)

(** The priority of an operation (the [priorita] computed before the machine
    is requested). *)
Definition priorita_operazione (pol : PoliticaSchedulazione)
  (ordine : OrdineDiLavoro) (durata_min : Q) : Z :=
  match pol with
  | FIFO => 0%Z
  | SPT => Py.int durata_min
  | EDD => if Py.truthy (scadenza ordine) then Py.int (scadenza ordine) else 0%Z
  end.

(** The changeover block, run once the machine is granted: from the read of
    [ultimo_prodotto] to its update. *)
Definition fase_setup (ordine : Rif) (nome_macchina : TipoMacchinario)
  : Processo unit :=
  macchina <- leggi (fun s => macchinari s nome_macchina) ;;
  o <- ordine_di ordine ;;
  (match ultimo_prodotto macchina with
   | Some ultimo =>
       if negb (String.eqb ultimo (prodotto_id (prodotto o))) then
         tempo_setup <- leggi (fun s => tempo_setup_minuti (configurazione s)) ;;
         if Py.ltb 0 tempo_setup then
           timeout tempo_setup ;;
           aggiorna_macchina nome_macchina (registra_tempo_utilizzo tempo_setup "setup") ;;
           t <- ambiente_now ;;
           aggiorna_macchina nome_macchina
             (aggiungi_evento {| ev_tipo := "setup";
                                 ev_inizio := t - tempo_setup;
                                 ev_fine := t;
                                 ev_ordine := None;
                                 ev_descrizione := "Setup" |})
         else ret tt
       else ret tt
   | None => ret tt
   end) ;;
  aggiorna_macchina nome_macchina (con_ultimo_prodotto (prodotto_id (prodotto o))).

(** The breakdown block ("LOGICA GUASTI"). *)
Definition fase_guasto (nome_macchina : TipoMacchinario) : Processo unit :=
  u <- rng_random ;;
  cfg <- leggi configurazione ;;
  if Py.ltb u (probabilita_guasto cfg) then
    let min_rip := minuti_riparazione_min cfg in
    let max_rip := minuti_riparazione_max cfg in
    tempo_riparazione <- rng_randint min_rip max_rip ;;
    avanza_tempo_lavorativo (inject_Z tempo_riparazione) cfg ;;
    aggiorna_macchina nome_macchina
      (registra_tempo_utilizzo (inject_Z tempo_riparazione) "guasto") ;;
    t <- ambiente_now ;;
    aggiorna_macchina nome_macchina
      (aggiungi_evento {| ev_tipo := "guasto";
                          ev_inizio := t - inject_Z tempo_riparazione;
                          ev_fine := t;
                          ev_ordine := None;
                          ev_descrizione := "Guasto" |})
  else ret tt.

(** The processing block: with an operator (acquired with the same
    priority) or without.  It answers the effective duration and the
    operator type actually used. *)
Definition fase_lavorazione (nome_macchina : TipoMacchinario) (durata_min : Q)
  (tipo_operatore : option TipoOperatore) (vincolo_specialista : bool)
  (priorita : Z) : Processo (Q * option TipoOperatore) :=
  match tipo_operatore with
  | Some tipo =>
      let tipo :=
        if vincolo_specialista && negb (bool_decide (tipo = SPECIALIZZATO))
        then SPECIALIZZATO else tipo in
      richiedi_accesso (Addetto tipo) priorita ;;
      finalmente
        (attendi_richiesta (Addetto tipo) ;;
         cfg <- leggi configurazione ;;
         attendi_turno_lavorativo cfg ;;
         let variabilita := fattore_variabilita_processo cfg in
         u <- rng_uniform (1 - variabilita) (1 + variabilita) ;;
         let durata_effettiva := Py.max (1 # 1000) (durata_min * u) in
         timeout durata_effettiva ;;
         aggiorna_operatore tipo (registra_tempo_utilizzo durata_effettiva "lavorazione") ;;
         aggiorna_macchina nome_macchina
           (registra_tempo_utilizzo durata_effettiva "lavorazione") ;;
         ret (durata_effettiva, Some tipo))
        (annota (EvRelease (Addetto tipo)))
  | None =>
      cfg <- leggi configurazione ;;
      let variabilita := fattore_variabilita_processo cfg in
      u <- rng_uniform (1 - variabilita) (1 + variabilita) ;;
      let durata_effettiva := Py.max (1 # 1000) (durata_min * u) in
      timeout durata_effettiva ;;
      aggiorna_macchina nome_macchina
        (registra_tempo_utilizzo durata_effettiva "lavorazione") ;;
      ret (durata_effettiva, None)
  end.

(** The closing block: the machine's log entry and the order's records. *)
Definition fase_registrazione (ordine : Rif) (nome_macchina : TipoMacchinario)
  (durata_effettiva : Q) (tipo_operatore : option TipoOperatore) : Processo unit :=
  t <- ambiente_now ;;
  o <- ordine_di ordine ;;
  aggiorna_macchina nome_macchina
    (aggiungi_evento {| ev_tipo := "lavorazione";
                        ev_inizio := t - durata_effettiva;
                        ev_fine := t;
                        ev_ordine := Some (ordine_id o);
                        ev_descrizione := "Lavorazione " ++ ordine_id o |}) ;;
  aggiorna_ordine ordine (traccia_fase nome_macchina) ;;
  aggiorna_ordine ordine
    (aggiungi_lavorazione {| lav_fase := nome_macchina;
                             lav_durata := durata_effettiva;
                             lav_operatore := tipo_operatore;
                             lav_inizio := t - durata_effettiva;
                             lav_fine := t |}).

Definition esegui_operazione (ordine : Rif) (nome_macchina : TipoMacchinario)
  (durata_min : Q) (tipo_operatore : option TipoOperatore)
  (vincolo_specialista : bool) : Processo unit :=
  cfg <- leggi configurazione ;;
  attendi_turno_lavorativo cfg ;;
  pol <- leggi politica ;;
  o <- ordine_di ordine ;;
  let priorita := priorita_operazione pol o durata_min in
  richiedi_accesso (Macchina nome_macchina) priorita ;;
  finalmente
    (attendi_richiesta (Macchina nome_macchina) ;;
     fase_setup ordine nome_macchina ;;
     attendi_turno_lavorativo cfg ;;
     fase_guasto nome_macchina ;;
     r <- fase_lavorazione nome_macchina durata_min tipo_operatore
            vincolo_specialista priorita ;;
     fase_registrazione ordine nome_macchina (fst r) (snd r))
    (annota (EvRelease (Macchina nome_macchina))).

(** ** Routing strategies *)

(** [StrategiaProcessoBase._gestisci_rilavorazione]. *)
Definition gestisci_rilavorazione (ordine : Rif) : Processo unit :=
  tempi <- leggi (fun s => tempi_lavorazione (configurazione s)) ;;
  u <- rng_random ;;
  p <- leggi (fun s => probabilita_rifacimento (configurazione s)) ;;
  if Py.ltb u p then
    o <- ordine_di ordine ;;
    d <- tempo_di tempi RETTIFICA (prodotto_id (prodotto o)) ;;
    esegui_operazione ordine RETTIFICA d (Some GENERICO) false ;;
    o <- ordine_di ordine ;;
    d <- tempo_di tempi BANCO_CONTROLLO (prodotto_id (prodotto o)) ;;
    esegui_operazione ordine BANCO_CONTROLLO d (Some GENERICO) false
  else ret tt.

(** [ordine.tempo_completamento = sistema_produttivo.ambiente.now]. *)
Definition segna_completamento (ordine : Rif) : Processo unit :=
  t <- ambiente_now ;;
  aggiorna_ordine ordine (con_tempo_completamento (Some t)).

(** [if P in depositi: yield depositi[P].put(ordine)]. *)
Definition deposita_se_presente (d : Deposito) (ordine : Rif) : Processo unit :=
  items <- leggi (deposito_items d) ;;
  match items with
  | Some _ => store_put d ordine
  | None => ret tt
  end.

Definition StrategiaFL01_esegui_processo (ordine : Rif) : Processo unit :=
  tempi <- leggi (fun s => tempi_lavorazione (configurazione s)) ;;
  d <- tempo_di tempi TRONCATRICE (valore_prodotto FL_01) ;;
  esegui_operazione ordine TRONCATRICE d (Some GENERICO) false ;;
  d <- tempo_di tempi TRAPANO (valore_prodotto FL_01) ;;
  esegui_operazione ordine TRAPANO d (Some GENERICO) false ;;
  d <- tempo_di tempi BANCO_CONTROLLO (valore_prodotto FL_01) ;;
  esegui_operazione ordine BANCO_CONTROLLO d (Some GENERICO) false ;;
  d <- tempo_di tempi BANCO_CONTROLLO (valore_prodotto FL_01) ;;
  esegui_operazione ordine BANCO_CONTROLLO d (Some GENERICO) false ;;
  deposita_se_presente (BufferScorte FL_01) ordine ;;
  deposita_se_presente (MagazzinoIntermedio FL_01) ordine ;;
  segna_completamento ordine.

Definition StrategiaPN03_esegui_processo (ordine : Rif) : Processo unit :=
  tempi <- leggi (fun s => tempi_lavorazione (configurazione s)) ;;
  d <- tempo_di tempi TRONCATRICE (valore_prodotto PN_03) ;;
  esegui_operazione ordine TRONCATRICE d (Some GENERICO) false ;;
  richiede <- leggi (fun s => richiede_specialista (configurazione s)) ;;
  let tipo_operatore := if richiede then SPECIALIZZATO else GENERICO in
  d <- tempo_di tempi TORNIO (valore_prodotto PN_03) ;;
  esegui_operazione ordine TORNIO d (Some tipo_operatore) richiede ;;
  d <- tempo_di tempi RETTIFICA (valore_prodotto PN_03) ;;
  esegui_operazione ordine RETTIFICA d (Some GENERICO) false ;;
  d <- tempo_di tempi BANCO_CONTROLLO (valore_prodotto PN_03) ;;
  esegui_operazione ordine BANCO_CONTROLLO d (Some GENERICO) false ;;
  gestisci_rilavorazione ordine ;;
  gestisci_rilavorazione ordine ;;
  deposita_se_presente (BufferScorte PN_03) ordine ;;
  segna_completamento ordine.

Definition StrategiaIN07_esegui_processo (ordine : Rif) : Processo unit :=
  tempi <- leggi (fun s => tempi_lavorazione (configurazione s)) ;;
  d <- tempo_di tempi TRONCATRICE (valore_prodotto IN_07) ;;
  esegui_operazione ordine TRONCATRICE d (Some GENERICO) false ;;
  richiede <- leggi (fun s => richiede_specialista (configurazione s)) ;;
  let tipo_operatore := if richiede then SPECIALIZZATO else GENERICO in
  d <- tempo_di tempi FRESA (valore_prodotto IN_07) ;;
  esegui_operazione ordine FRESA d (Some tipo_operatore) richiede ;;
  d <- tempo_di tempi RETTIFICA (valore_prodotto IN_07) ;;
  esegui_operazione ordine RETTIFICA d (Some GENERICO) false ;;
  d <- tempo_di tempi FORNO (valore_prodotto IN_07) ;;
  esegui_operazione ordine FORNO d (Some GENERICO) false ;;
  d <- tempo_di tempi BANCO_CONTROLLO (valore_prodotto IN_07) ;;
  esegui_operazione ordine BANCO_CONTROLLO d (Some GENERICO) false ;;
  gestisci_rilavorazione ordine ;;
  gestisci_rilavorazione ordine ;;
  deposita_se_presente (BufferScorte IN_07) ordine ;;
  deposita_se_presente (MagazzinoIntermedio IN_07) ordine ;;
  segna_completamento ordine.

(** [comp = yield magazzino_intermedio[P].get()] followed by
    [ordine.componenti_consumati.append(comp)]. *)
Definition preleva_componente (p : TipoProdotto) (ordine : Rif) : Processo unit :=
  comp <- store_get (MagazzinoIntermedio p) ;;
  aggiorna_ordine ordine (aggiungi_componente comp).

(** The withdrawal of materials that opens the assembly routing. *)
Definition StrategiaRD01_prelievo (ordine : Rif) : Processo unit :=
  fl <- leggi (fun s => magazzino_intermedio s FL_01) ;;
  (match fl with
   | Some _ => preleva_componente FL_01 ordine
   | None => ret tt
   end) ;;
  ing <- leggi (fun s => magazzino_intermedio s IN_07) ;;
  (match ing with
   | Some _ =>
       preleva_componente IN_07 ordine ;;
       preleva_componente IN_07 ordine
   | None => ret tt
   end).

Definition StrategiaRD01_esegui_processo (ordine : Rif) : Processo unit :=
  tempi <- leggi (fun s => tempi_lavorazione (configurazione s)) ;;
  StrategiaRD01_prelievo ordine ;;
  d <- tempo_di tempi BANCO_ASSEMBLAGGIO (valore_prodotto RD_01) ;;
  esegui_operazione ordine BANCO_ASSEMBLAGGIO d (Some GENERICO) false ;;
  d <- tempo_di tempi BANCO_COLLAUDO (valore_prodotto RD_01) ;;
  esegui_operazione ordine BANCO_COLLAUDO d (Some GENERICO) false ;;
  segna_completamento ordine.

Definition esegui_processo (st : Strategia) (ordine : Rif) : Processo unit :=
  match st with
  | StrategiaFL01 => StrategiaFL01_esegui_processo ordine
  | StrategiaPN03 => StrategiaPN03_esegui_processo ordine
  | StrategiaIN07 => StrategiaIN07_esegui_processo ordine
  | StrategiaRD01 => StrategiaRD01_esegui_processo ordine
  end.

(** ** An assembly that waits for its components

    A [get] on an empty store suspends the assembly; the kernel resumes it
    when another process puts an item there, and hands it that item.  In the
    meantime the other processes have run. *)

(** What the process of [ordine] finds when it is resumed in [s'], having
    been suspended in [s]: the clock has not gone back, and its order is as
    it left it (no other process writes to it). *)
Definition sospensione (ordine : Rif) (s s' : SistemaProduttivo) : Prop :=
  env_now (ambiente s) <= env_now (ambiente s')
  /\ oggetti s' ordine = oggetti s ordine.

(** A withdrawal as the kernel runs it: at once when the store holds an
    item; otherwise the process is suspended, and the withdrawal is done
    when it is resumed with an item in the store. *)
Inductive preleva_con_attesa (p : TipoProdotto) (ordine : Rif)
  : SistemaProduttivo -> SistemaProduttivo -> Prop :=
| preleva_subito (s s' : SistemaProduttivo) :
    preleva_componente p ordine s = Fatto tt s' ->
    preleva_con_attesa p ordine s s'
| preleva_alla_consegna (s sr s' : SistemaProduttivo) :
    preleva_componente p ordine s = Bloccato s ->
    sospensione ordine s sr ->
    preleva_componente p ordine sr = Fatto tt s' ->
    preleva_con_attesa p ordine s s'.

(** The withdrawal of materials of [StrategiaRD01_prelievo], with its
    waits. *)
Definition prelievo_con_attese (ordine : Rif) (s s' : SistemaProduttivo) : Prop :=
  exists s1,
    match magazzino_intermedio s FL_01 with
    | Some _ => preleva_con_attesa FL_01 ordine s s1
    | None => s1 = s
    end
    /\ match magazzino_intermedio s1 IN_07 with
       | Some _ =>
           exists s2,
             preleva_con_attesa IN_07 ordine s1 s2
             /\ preleva_con_attesa IN_07 ordine s2 s'
       | None => s' = s1
       end.

(** What follows the withdrawal in [StrategiaRD01.esegui_processo]: the
    assembly, the test, and the completion time. *)
Definition StrategiaRD01_lavorazioni
  (tempi : TipoMacchinario -> option (gmap string Q)) (ordine : Rif) : Processo unit :=
  d <- tempo_di tempi BANCO_ASSEMBLAGGIO (valore_prodotto RD_01) ;;
  esegui_operazione ordine BANCO_ASSEMBLAGGIO d (Some GENERICO) false ;;
  d <- tempo_di tempi BANCO_COLLAUDO (valore_prodotto RD_01) ;;
  esegui_operazione ordine BANCO_COLLAUDO d (Some GENERICO) false ;;
  segna_completamento ordine.

(** The assembly routing run to its end through the waits of its
    withdrawal; the table of times is the one read on entry. *)
Definition assemblaggio_con_attese (ordine : Rif) (s s' : SistemaProduttivo) : Prop :=
  exists s1,
    prelievo_con_attese ordine s s1
    /\ StrategiaRD01_lavorazioni (tempi_lavorazione (configurazione s)) ordine s1
       = Fatto tt s'.

(** The routing [st] of [ordine], started in [s], has run to its end and
    left [s']: in one stretch, or, for an assembly, through the waits of its
    withdrawal. *)
Definition routing_completato (st : Strategia) (ordine : Rif)
  (s s' : SistemaProduttivo) : Prop :=
  esegui_processo st ordine s = Fatto tt s'
  \/ (st = StrategiaRD01 /\ assemblaggio_con_attese ordine s s').

(** ** SistemaProduttivo.elabora_ordine *)

(** One turn of the daily-cap loop; it answers [true] when the loop is left
    ([break]) and [false] when the process has waited and checks again. *)
Definition limite_giornaliero_giro (id_prodotto : string) : Processo bool :=
  t <- ambiente_now ;;
  let giorno_simulazione := Py.int (t / inject_Z MINUTI_GIORNALIERI) in
  giorno <- leggi giorno_corrente ;;
  (if (giorno <? giorno_simulazione)%Z then
     modifica (fun s =>
       con_giorno_corrente giorno_simulazione
         (con_produzione_giornaliera_per_prodotto ∅
            (con_produzione_giornaliera_totale 0%Z s)))
   else ret tt) ;;
  cfg <- leggi configurazione ;;
  let limiti_prodotti := default ∅ (limiti_produzione_giornaliera cfg) in
  let limite_prodotto := limiti_prodotti !! id_prodotto in
  let limite_totale := limite_produzione_totale_giornaliera cfg in
  per_prodotto <- leggi produzione_giornaliera_per_prodotto ;;
  totale <- leggi produzione_giornaliera_totale ;;
  let prodotti_oggi := default 0%Z (per_prodotto !! id_prodotto) in
  let raggiunto (n : Z) (limite : option Z) :=
    match limite with
    | Some l => (l <=? n)%Z
    | None => false
    end in
  if raggiunto prodotti_oggi limite_prodotto || raggiunto totale limite_totale then
    let minuti_giornalieri := Py.fmod t (inject_Z MINUTI_GIORNALIERI) in
    let tempo_fine_giornata := inject_Z MINUTI_GIORNALIERI - minuti_giornalieri in
    let tempo_apertura_domani := inject_Z (orario_inizio_turno cfg * 60) in
    let tempo_attesa := tempo_fine_giornata + tempo_apertura_domani in
    timeout tempo_attesa ;;
    ret false
  else
    modifica (fun s =>
      con_produzione_giornaliera_per_prodotto
        (<[id_prodotto := (prodotti_oggi + 1)%Z]> per_prodotto)
        (con_produzione_giornaliera_totale (totale + 1)%Z s)) ;;
    ret true.

Fixpoint limite_giornaliero_ciclo (n : nat) (id_prodotto : string) : Processo unit :=
  match n with
  | O => esaurito
  | S n' =>
      uscita <- limite_giornaliero_giro id_prodotto ;;
      if uscita : bool then ret tt else limite_giornaliero_ciclo n' id_prodotto
  end.

(** The dispatch that closes [elabora_ordine]: the routing of the product is
    looked up and run. *)
Definition avvia_strategia (ordine : Rif) (id_prodotto : string) : Processo unit :=
  strategie_ <- leggi strategie ;;
  match strategie_ !! id_prodotto with
  | None => solleva (ValueError ("Routing Sheet non definita per " ++ id_prodotto))
  | Some strategia => esegui_processo strategia ordine
  end.

Definition has_limits (cfg : ConfigurazioneSimulazione) : bool :=
  bool_decide (limiti_produzione_giornaliera cfg <> None)
  || bool_decide (limite_produzione_totale_giornaliera cfg <> None).

Definition elabora_ordine (ordine : Rif) : Processo unit :=
  o <- ordine_di ordine ;;
  let id_prodotto := prodotto_id (prodotto o) in
  cfg <- leggi configurazione ;;
  (if has_limits cfg then limite_giornaliero_ciclo giri id_prodotto else ret tt) ;;
  avvia_strategia ordine id_prodotto.

End Kernel.

(** ** The cycle-time estimators *)

Definition cerca_tempo (tempi : TipoMacchinario -> option (gmap string Q))
  (m : TipoMacchinario) (p : string) : option Q :=
  match tempi m with
  | Some riga => riga !! p
  | None => None
  end.

(** [stima_tempo_ciclo] of each strategy; [None] stands for the [KeyError]
    of a missing entry. *)
Definition stima_tempo_ciclo (st : Strategia)
  (configurazione : ConfigurazioneSimulazione) : option Q :=
  let tempi := tempi_lavorazione configurazione in
  match st with
  | StrategiaFL01 =>
      a ← cerca_tempo tempi TRONCATRICE (valore_prodotto FL_01);
      b ← cerca_tempo tempi TRAPANO (valore_prodotto FL_01);
      c ← cerca_tempo tempi BANCO_CONTROLLO (valore_prodotto FL_01);
      Some (a + b + c)
  | StrategiaPN03 =>
      a ← cerca_tempo tempi TRONCATRICE (valore_prodotto PN_03);
      b ← cerca_tempo tempi TORNIO (valore_prodotto PN_03);
      c ← cerca_tempo tempi RETTIFICA (valore_prodotto PN_03);
      d ← cerca_tempo tempi BANCO_CONTROLLO (valore_prodotto PN_03);
      Some (a + b + c + d)
  | StrategiaIN07 =>
      a ← cerca_tempo tempi TRONCATRICE (valore_prodotto IN_07);
      b ← cerca_tempo tempi FRESA (valore_prodotto IN_07);
      c ← cerca_tempo tempi RETTIFICA (valore_prodotto IN_07);
      d ← cerca_tempo tempi FORNO (valore_prodotto IN_07);
      e ← cerca_tempo tempi BANCO_CONTROLLO (valore_prodotto IN_07);
      Some (a + b + c + d + e)
  | StrategiaRD01 =>
      a ← cerca_tempo tempi BANCO_ASSEMBLAGGIO (valore_prodotto RD_01);
      b ← cerca_tempo tempi BANCO_COLLAUDO (valore_prodotto RD_01);
      Some (a + b)
  end.

(** The total base duration of a list of visited phases for one product:
    what the phases recorded in [cronologia_fasi] cost at nominal times. *)
Fixpoint durata_base_fasi (tempi : TipoMacchinario -> option (gmap string Q))
  (p : string) (fasi : list TipoMacchinario) : option Q :=
  match fasi with
  | [] => Some 0
  | m :: resto =>
      d ← cerca_tempo tempi m p;
      r ← durata_base_fasi tempi p resto;
      Some (d + r)
  end.

(** ** Construction *)

(** The objects created so far: the store of work orders and the next free
    reference. *)
Definition Memoria : Type := (Rif -> OrdineDiLavoro) * nat.

Definition alloca (o : OrdineDiLavoro) (m : Memoria) : Rif * Memoria :=
  (snd m, (fun r => if decide (r = snd m) then o else fst m r, S (snd m))).

(** The [dummy_order] the constructor builds for unit [i] of the initial
    stock of a product. *)
Definition ordine_scorta (tipo_prod : TipoProdotto) (i : nat) : OrdineDiLavoro :=
  {| ordine_id := "STOCK-INIT-" ++ valore_prodotto tipo_prod ++ "-" ++ pretty i;
     prodotto := {| prodotto_id := valore_prodotto tipo_prod;
                    prodotto_nome := nome_prodotto tipo_prod |};
     tempo_creazione := 0;
     scadenza := 0;
     tempo_completamento := Some 0;
     cronologia_fasi := [];
     log_lavorazioni := [];
     consumato := false;
     componenti_consumati := [] |}.

Definition quantita_iniziali : list (TipoProdotto * nat) :=
  [(FL_01, 20%nat); (IN_07, 40%nat)].

(** [for i in range(qta): ... store.put(dummy_order)]. *)
Fixpoint deposita_scorte (tipo_prod : TipoProdotto) (indici : list nat)
  (m : Memoria) (items : list Rif) : Memoria * list Rif :=
  match indici with
  | [] => (m, items)
  | i :: resto =>
      let (r, m') := alloca (ordine_scorta tipo_prod i) m in
      deposita_scorte tipo_prod resto m' (items ++ [r])
  end.

(** [for tipo_prod, qta in quantita_iniziali.items(): ...] over the two
    stores of the intermediate warehouse. *)
Fixpoint scorte_iniziali (q : list (TipoProdotto * nat)) (m : Memoria)
  (mag : TipoProdotto -> option (list Rif))
  : Memoria * (TipoProdotto -> option (list Rif)) :=
  match q with
  | [] => (m, mag)
  | (tipo_prod, qta) :: resto =>
      let (m', items) :=
        deposita_scorte tipo_prod (seq 0 qta) m (default [] (mag tipo_prod)) in
      scorte_iniziali resto m'
        (fun p => if decide (p = tipo_prod) then Some items else mag p)
  end.

Definition ordine_non_creato : OrdineDiLavoro :=
  {| ordine_id := ""; prodotto := {| prodotto_id := ""; prodotto_nome := "" |};
     tempo_creazione := 0; scadenza := 0; tempo_completamento := None;
     cronologia_fasi := []; log_lavorazioni := [];
     consumato := false; componenti_consumati := [] |}.

(** [SistemaProduttivo._inizializza_asset]: every machine type, then every
    operator type; the first capacity below one aborts the construction. *)
Fixpoint prima_capacita_invalida (caps : NomeRisorsa -> option Z)
  (l : list NomeRisorsa) : option Eccezione :=
  match l with
  | [] => None
  | n :: resto =>
      match RisorsaProduttiva_init n (default 1%Z (caps n)) with
      | inl e => Some e
      | inr _ => prima_capacita_invalida caps resto
      end
  end.

Definition risorsa_di (caps : NomeRisorsa -> option Z) (n : NomeRisorsa)
  : RisorsaProduttiva :=
  {| nome := n; risorsa_capacity := default 1%Z (caps n);
     tempo_occupato_totale := 0; tempo_lavorazione := 0;
     tempo_setup := 0; tempo_guasto := 0;
     log_eventi := []; ultimo_prodotto := None |}.

(** [SistemaProduttivo.__init__].  (When reorder points are configured the
    constructor also registers the stock monitor with the kernel; that is a
    process of its own and leaves the constructed state as it is.) *)
Definition SistemaProduttivo_init (amb : Environment) (calendario : option GestoreTempo)
  (strategie_ : gmap string Strategia) (cfg : ConfigurazioneSimulazione)
  (rng_ : Random) (politica_ : PoliticaSchedulazione)
  : Eccezione + SistemaProduttivo :=
  let buffer := fun _ : TipoProdotto => Some ([] : list Rif) in
  let magazzino := fun p : TipoProdotto =>
    match p with
    | FL_01 | IN_07 => Some ([] : list Rif)
    | _ => None
    end in
  let (m, magazzino) :=
    scorte_iniziali quantita_iniziali (fun _ => ordine_non_creato, O) magazzino in
  match prima_capacita_invalida (capacita cfg)
          (map Macchina tutti_macchinari ++ map Addetto [GENERICO; SPECIALIZZATO]) with
  | Some e => inl e
  | None =>
      inr {| ambiente := amb;
             gestore_tempo := calendario;
             strategie := strategie_;
             configurazione := cfg;
             rng := rng_;
             politica := politica_;
             macchinari := fun t => risorsa_di (capacita cfg) (Macchina t);
             operatori := fun t => risorsa_di (capacita cfg) (Addetto t);
             buffer_scorte := buffer;
             magazzino_intermedio := magazzino;
             giorno_corrente := 0;
             produzione_giornaliera_per_prodotto := ∅;
             produzione_giornaliera_totale := 0;
             oggetti := fst m;
             oggetti_creati := snd m |}
  end.

(** [MotoreSimulazione.__init__].  [genera z] is the sequence of variates of
    a generator seeded with [z]; without a seed the generator seeds itself
    from the operating system ([entropia]). *)
Record MotoreSimulazione := {
  motore_ambiente : Environment;
  durata_giorni : Z;
  durata_minuti : Z;
  motore_rng : Random
}.

Definition Random_init (genera : Z -> nat -> Q) (seme : Z) : Random :=
  {| variati := genera seme; estratti := O |}.

Definition MotoreSimulazione_init (genera : Z -> nat -> Q) (entropia : Z)
  (durata_giorni_ : Z) (seme_casuale : option Z) : MotoreSimulazione :=
  {| motore_ambiente := {| env_now := 0; env_richieste := O; env_traccia := [] |};
     durata_giorni := durata_giorni_;
     durata_minuti := (durata_giorni_ * MINUTI_GIORNALIERI)%Z;
     motore_rng :=
       match seme_casuale with
       | Some seme => Random_init genera seme
       | None => Random_init genera entropia
       end |}.

(** The strategy table [main.py] builds. *)
Definition strategie_standard : gmap string Strategia :=
  {[ "FL-01" := StrategiaFL01; "PN-03" := StrategiaPN03;
     "IN-07" := StrategiaIN07; "RD-01" := StrategiaRD01 ]}.

(** ** The kernel's priority resource

    The queue discipline of the kernel resource the machines and operators
    are built on: waiting requests are kept ordered by the key (priority,
    arrival), and a freed unit goes to the head of the queue. *)

Module PriorityResource.

Record Richiesta := {
  ric_priorita : Z;
  ric_arrivo : nat
}.

(** [a] is served no later than [b]. *)
Definition precede (a b : Richiesta) : bool :=
  (ric_priorita a <? ric_priorita b)%Z
  || ((ric_priorita a =? ric_priorita b)%Z && (ric_arrivo a <=? ric_arrivo b)%nat).

(** [request(priority)]: the new request takes its place in the ordered queue. *)
Fixpoint accoda (r : Richiesta) (coda : list Richiesta) : list Richiesta :=
  match coda with
  | [] => [r]
  | x :: resto => if precede x r then x :: accoda r resto else r :: x :: resto
  end.

(** The queue built by a series of requests, in their order of arrival. *)
Definition coda_di (richieste : list Richiesta) : list Richiesta :=
  fold_left (fun coda r => accoda r coda) richieste [].

(** The request a freed unit of capacity is granted to. *)
Definition prossima (coda : list Richiesta) : option Richiesta := head coda.

(** A queue in serving order: each request is served no later than those
    behind it. *)
Inductive Ordinata : list Richiesta -> Prop :=
| ordinata_vuota : Ordinata []
| ordinata_cons (r : Richiesta) (coda : list Richiesta) :
    (forall x, In x coda -> precede r x = true) ->
    Ordinata coda -> Ordinata (r :: coda).

End PriorityResource.

(** ** Statements of the specification, for comparison *)

(** The priority as the specification words it: the base duration itself
    under SPT, the due time itself under EDD. *)
Definition priorita_dichiarata (pol : PoliticaSchedulazione)
  (ordine : OrdineDiLavoro) (durata_min : Q) : Q :=
  match pol with
  | FIFO => 0
  | SPT => durata_min
  | EDD => scadenza ordine
  end.


(** The quantity of a component the configured bill of materials lists for
    an assembly (zero when it is not listed). *)
Definition quantita_distinta (cfg : ConfigurazioneSimulazione)
  (assieme componente : string) : Z :=
  match distinta_base cfg with
  | Some distinta =>
      match distinta !! assieme with
      | Some componenti => default 0%Z (componenti !! componente)
      | None => 0%Z
      end
  | None => 0%Z
  end.

(** ** A plant to run: the base configuration on a Monday-based calendar *)

Definition rng_costante (u : Q) : Random :=
  {| variati := fun _ => u; estratti := O |}.

Definition ambiente_al_minuto (t : Q) : Environment :=
  {| env_now := t; env_richieste := O; env_traccia := [] |}.

Definition calendario_2024 : GestoreTempo := {| data_inizio := 0 |}.

Definition nuovo_ordine (codice : string) (p : string) (creazione scad : Q)
  : OrdineDiLavoro :=
  {| ordine_id := codice;
     prodotto := {| prodotto_id := p; prodotto_nome := "Prodotto " ++ p |};
     tempo_creazione := creazione;
     scadenza := scad;
     tempo_completamento := None;
     cronologia_fasi := [];
     log_lavorazioni := [];
     consumato := false;
     componenti_consumati := [] |}.

(** A caller creating a work order: the object takes the next reference. *)
Definition registra_ordine (o : OrdineDiLavoro) (s : SistemaProduttivo)
  : Rif * SistemaProduttivo :=
  (oggetti_creati s,
   {| ambiente := ambiente s; gestore_tempo := gestore_tempo s;
      strategie := strategie s; configurazione := configurazione s;
      rng := rng s; politica := politica s;
      macchinari := macchinari s; operatori := operatori s;
      buffer_scorte := buffer_scorte s;
      magazzino_intermedio := magazzino_intermedio s;
      giorno_corrente := giorno_corrente s;
      produzione_giornaliera_per_prodotto := produzione_giornaliera_per_prodotto s;
      produzione_giornaliera_totale := produzione_giornaliera_totale s;
      oggetti := fun r => if decide (r = oggetti_creati s) then o else oggetti s r;
      oggetti_creati := S (oggetti_creati s) |}).

Definition sistema_vuoto : SistemaProduttivo :=
  {| ambiente := ambiente_al_minuto 0;
     gestore_tempo := None;
     strategie := ∅;
     configurazione := crea_configurazione_base;
     rng := rng_costante 0;
     politica := FIFO;
     macchinari := fun t => risorsa_di (fun _ => None) (Macchina t);
     operatori := fun t => risorsa_di (fun _ => None) (Addetto t);
     buffer_scorte := fun _ => None;
     magazzino_intermedio := fun _ => None;
     giorno_corrente := 0;
     produzione_giornaliera_per_prodotto := ∅;
     produzione_giornaliera_totale := 0;
     oggetti := fun _ => ordine_non_creato;
     oggetti_creati := O |}.

(** A bare workshop at minute [t] of the clock: no stock anywhere, every
    resource fresh, and one work order for product [p] (reference 0),
    created at that minute and due [d] minutes later. *)
Definition officina (cfg : ConfigurazioneSimulazione)
  (pol : PoliticaSchedulazione) (g : Random) (t : Q) (p : string) (d : Q)
  : SistemaProduttivo :=
  {| ambiente := ambiente_al_minuto t;
     gestore_tempo := Some calendario_2024;
     strategie := strategie_standard;
     configurazione := cfg;
     rng := g;
     politica := pol;
     macchinari := fun x => risorsa_di (capacita cfg) (Macchina x);
     operatori := fun x => risorsa_di (capacita cfg) (Addetto x);
     buffer_scorte := fun _ => Some [];
     magazzino_intermedio :=
       fun x => match x with FL_01 | IN_07 => Some [] | _ => None end;
     giorno_corrente := 0;
     produzione_giornaliera_per_prodotto := ∅;
     produzione_giornaliera_totale := 0;
     oggetti := fun _ => nuovo_ordine "WO-1" p t (t + d);
     oggetti_creati := 1 |}.

(** The plant built from a configuration at minute [t] of the clock, with
    one work order for product [p] created at that minute and due 200
    minutes later (the bare system when construction fails). *)
Definition impianto (cfg : ConfigurazioneSimulazione)
  (pol : PoliticaSchedulazione) (g : Random) (t : Q) (p : string)
  : Rif * SistemaProduttivo :=
  match SistemaProduttivo_init (ambiente_al_minuto t) (Some calendario_2024)
          strategie_standard cfg g pol with
  | inr s => registra_ordine (nuovo_ordine "WO-1" p t (t + 200)) s
  | inl _ => (O, sistema_vuoto)
  end.

(** The kernel that grants every request at once. *)
Definition senza_attesa : nat -> Q := fun _ => 0.

(** A flange order released on Monday at 08:00 in the workshop, and the run
    of its routing. *)
Definition flangia_lunedi : SistemaProduttivo :=
  officina crea_configurazione_base FIFO (rng_costante (1 # 2)) 480 "FL-01" 200.

Definition esito_flangia_lunedi : Esito unit :=
  esegui_processo senza_attesa 10 StrategiaFL01 O flangia_lunedi.

(** What an outcome shows of the run that produced it. *)
Definition stato_finale {A} (e : Esito A) : SistemaProduttivo :=
  match e with
  | Fatto _ s | Bloccato s | Sollevata _ s | Esaurito s => s
  end.

Definition completato {A} (e : Esito A) : bool :=
  match e with
  | Fatto _ _ => true
  | _ => false
  end.

Definition bloccato {A} (e : Esito A) : bool :=
  match e with
  | Bloccato _ => true
  | _ => false
  end.

(** The event logs of all machines and operators, resource by resource. *)
Definition log_per_risorsa (s : SistemaProduttivo) : list (list EventoLog) :=
  map (fun m => log_eventi (macchinari s m)) tutti_macchinari
  ++ map (fun t => log_eventi (operatori s t)) [GENERICO; SPECIALIZZATO].

(** What [calcola_tasso_utilizzo] answers, as the specification states it:
    zero behind either guard, the productive share of the available
    capacity-minutes otherwise. *)
Definition tasso_atteso (r : RisorsaProduttiva) (orizzonte_temporale : Q) : Q :=
  if Qeq_bool orizzonte_temporale 0 || (risorsa_capacity r =? 0)%Z then 0
  else (tempo_lavorazione r + tempo_setup r)
       / (orizzonte_temporale * inject_Z (risorsa_capacity r)) * 100.

(** A unit of initial stock of product [p]: created, due and completed at
    time zero. *)
Definition scorta_di (p : TipoProdotto) (o : OrdineDiLavoro) : Prop :=
  prodotto_id (prodotto o) = valore_prodotto p
  /\ tempo_creazione o = 0
  /\ scadenza o = 0
  /\ tempo_completamento o = Some 0.

(** The base plant as constructed, before any order is released. *)
Definition sistema_base : SistemaProduttivo :=
  match SistemaProduttivo_init (ambiente_al_minuto 0) (Some calendario_2024)
          strategie_standard crea_configurazione_base (rng_costante (1 # 2)) FIFO with
  | inr s => s
  | inl _ => sistema_vuoto
  end.

(** ** Guarantees on runs *)

(** The trace has grown by events that all satisfy [P]. *)
Definition traccia_estesa (P : Evento -> Prop) (s s' : SistemaProduttivo) : Prop :=
  exists l : list Evento,
    env_traccia (ambiente s') = (env_traccia (ambiente s) ++ l)%list /\ Forall P l.

(** The trace has grown, and [e] is among the new events. *)
Definition traccia_contiene (e : Evento) (s s' : SistemaProduttivo) : Prop :=
  exists l : list Evento,
    env_traccia (ambiente s') = (env_traccia (ambiente s) ++ l)%list /\ In e l.

Definition qualunque (e : Evento) : Prop := True.

(** A request, if [e] is one, carries the priority [p]. *)
Definition richiesta_con_priorita (p : Z) (e : Evento) : Prop :=
  match e with
  | EvRequest _ q => q = p
  | _ => True
  end.

(** A field of the system is what it was. *)
Definition conserva {X} (campo : SistemaProduttivo -> X)
  (s s' : SistemaProduttivo) : Prop :=
  campo s' = campo s.

(** A cut on the saw released under SPT on Monday at 08:00, with a base
    duration of ten minutes and a half, and an order due at minute 730.7. *)
Definition taglio_spt : SistemaProduttivo :=
  officina crea_configurazione_base SPT (rng_costante (1 # 2)) 480 "FL-01" (2507 # 10).

Definition esito_taglio_spt : Esito unit :=
  esegui_operazione senza_attesa 10 O TRONCATRICE (21 # 2)
    (Some GENERICO) false taglio_spt.






(** ** The daily caps, as the specification states them *)

(** The simulated day of an instant: the whole days elapsed. *)
Definition giorno_di (t : Q) : Z := Qfloor (t / 1440).

(** A later day than the one the counters belong to has begun. *)
Definition giorno_nuovo (s : SistemaProduttivo) : bool :=
  (giorno_corrente s <? giorno_di (env_now (ambiente s)))%Z.

(** The counts that stand for the current simulated day: those kept, or
    zero when a later day has begun. *)
Definition prodotti_oggi (id_prodotto : string) (s : SistemaProduttivo) : Z :=
  if giorno_nuovo s then 0%Z
  else default 0%Z (produzione_giornaliera_per_prodotto s !! id_prodotto).

Definition totale_oggi (s : SistemaProduttivo) : Z :=
  if giorno_nuovo s then 0%Z else produzione_giornaliera_totale s.

(** The per-product cap or the global cap is already met today. *)
Definition limite_raggiunto (id_prodotto : string) (s : SistemaProduttivo) : bool :=
  match limiti_produzione_giornaliera (configurazione s) with
  | Some limiti =>
      match limiti !! id_prodotto with
      | Some l => (l <=? prodotti_oggi id_prodotto s)%Z
      | None => false
      end
  | None => false
  end
  || match limite_produzione_totale_giornaliera (configurazione s) with
     | Some l => (l <=? totale_oggi s)%Z
     | None => false
     end.


(** The opening of the shift on the day after the current one. *)
Definition apertura_domani (s : SistemaProduttivo) : Q :=
  inject_Z (1440 * (giorno_di (env_now (ambiente s)) + 1)
            + orario_inizio_turno (configurazione s) * 60).

(** An RD-01 order released in the base plant, which has no daily cap. *)
Definition riduttore_lunedi : Rif * SistemaProduttivo :=
  impianto crea_configurazione_base FIFO (rng_costante (1 # 2)) 480 "RD-01".

Definition esito_riduttore_lunedi : Esito unit :=
  elabora_ordine senza_attesa 10 (fst riduttore_lunedi) (snd riduttore_lunedi).

(** The base configuration with daily caps: five flanges a day, eight units
    a day in all. *)
Definition configurazione_con_limiti : ConfigurazioneSimulazione :=
  {| tempi_lavorazione := tempi_base;
     capacita := capacita_base;
     probabilita_rifacimento := 5 # 100;
     richiede_specialista := true;
     limiti_produzione_giornaliera := Some {[ "FL-01" := 5%Z ]};
     limite_produzione_totale_giornaliera := Some 8%Z;
     fattore_variabilita_processo := 0;
     tempo_setup_minuti := 15;
     probabilita_guasto := 1 # 100;
     minuti_riparazione_min := 60;
     minuti_riparazione_max := 180;
     orario_inizio_turno := 8;
     orario_fine_turno := 17;
     distinta_base := Some distinta_base_base;
     livelli_scorta_minima := None;
     lotto_riordino_standard := None |}.


(** ** Guarantees over the ways a run can end *)

Inductive Fine := FineFatto | FineBloccato | FineSollevata | FineEsaurito.

Definition fine_di {A} (e : Esito A) : Fine :=
  match e with
  | Fatto _ _ => FineFatto
  | Bloccato _ => FineBloccato
  | Sollevata _ _ => FineSollevata
  | Esaurito _ => FineEsaurito
  end.

(** [assicura F m R]: whenever a run of [m] from [s] ends in one of the ways
    [F] admits, [R] relates [s] to the state the run leaves. *)
Definition assicura (F : Fine -> bool) {A} (m : Processo A)
  (R : SistemaProduttivo -> SistemaProduttivo -> Prop) : Prop :=
  forall s, F (fine_di (m s)) = true -> R s (stato_finale (m s)).

(** However the run ends. *)
Definition comunque (f : Fine) : bool := true.


(** [e] is a delay: not a request for a resource, nor a put or a get on a
    store. *)
Definition solo_attesa (e : Evento) : Prop :=
  match e with
  | EvTimeout _ => True
  | _ => False
  end.

(** [e] is a delay of at least one minute. *)
Definition attesa_di_un_minuto (e : Evento) : Prop :=
  match e with
  | EvTimeout d => 1 <= d
  | _ => False
  end.

(** The date on the clock is a working day of the calendar, if there is
    one. *)
Definition giorno_feriale (s : SistemaProduttivo) : bool :=
  match gestore_tempo s with
  | Some g => (weekday (ottieni_data_corrente g (env_now (ambiente s))) <? 5)%Z
  | None => true
  end.

(** The instant on the clock lies inside a shift: a working day of the
    calendar, if there is one, and a minute of the day (of the clock rounded
    to the minute) from the opening on and before the closing. *)
Definition in_turno (cfg : ConfigurazioneSimulazione) (s : SistemaProduttivo) : bool :=
  match gestore_tempo s with
  | Some g => (weekday (ottieni_data_corrente g (env_now (ambiente s))) <? 5)%Z
  | None => true
  end
  && (orario_inizio_turno cfg * 60 <=? Py.round (env_now (ambiente s)) mod 1440)%Z
  && (Py.round (env_now (ambiente s)) mod 1440 <? orario_fine_turno cfg * 60)%Z.

(** The workshop on Monday at midnight, and the wait for the shift there. *)
Definition officina_a_mezzanotte : SistemaProduttivo :=
  officina crea_configurazione_base FIFO (rng_costante (1 # 2)) 0 "FL-01" 200.

Definition esito_attesa_turno : Esito unit :=
  attendi_turno_lavorativo 10 crea_configurazione_base officina_a_mezzanotte.

(** Ten working hours consumed from Monday at midnight. *)
Definition esito_dieci_ore : Esito unit :=
  avanza_tempo_lavorativo 10 600 crea_configurazione_base officina_a_mezzanotte.

(** The books of a resource balance: its total busy time is the sum of its
    processing, setup and breakdown times. *)
Definition contabile (r : RisorsaProduttiva) : Prop :=
  tempo_occupato_totale r == tempo_lavorazione r + tempo_setup r + tempo_guasto r.

Definition contabilita (s : SistemaProduttivo) : Prop :=
  (forall m, contabile (macchinari s m)) /\ (forall t, contabile (operatori s t)).

Definition mantiene_contabilita (s s' : SistemaProduttivo) : Prop :=
  contabilita s -> contabilita s'.

#[global] Instance NomeRisorsa_eq_dec : EqDecision NomeRisorsa.
Proof. solve_decision. Defined.

(** The units of risorsa [r] a stretch of trace leaves held: requests less
    releases. *)
Fixpoint saldo (r : NomeRisorsa) (l : list Evento) : Z :=
  match l with
  | [] => 0%Z
  | EvRequest x _ :: resto => ((if decide (x = r) then 1 else 0) + saldo r resto)%Z
  | EvRelease x :: resto => ((if decide (x = r) then -1 else 0) + saldo r resto)%Z
  | _ :: resto => saldo r resto
  end.

(** Whatever the run has requested, it has released. *)
Definition risorse_rese (s s' : SistemaProduttivo) : Prop :=
  exists l : list Evento,
    env_traccia (ambiente s') = (env_traccia (ambiente s) ++ l)%list
    /\ forall r, saldo r l = 0%Z.

(** A breakdown that cannot be rolled: the repair range of the base
    configuration turned upside down, in a plant where every roll breaks
    the machine. *)
Definition configurazione_guasta : ConfigurazioneSimulazione :=
  {| tempi_lavorazione := tempi_base;
     capacita := capacita_base;
     probabilita_rifacimento := 5 # 100;
     richiede_specialista := true;
     limiti_produzione_giornaliera := None;
     limite_produzione_totale_giornaliera := None;
     fattore_variabilita_processo := 0;
     tempo_setup_minuti := 15;
     probabilita_guasto := 1;
     minuti_riparazione_min := 180;
     minuti_riparazione_max := 60;
     orario_inizio_turno := 8;
     orario_fine_turno := 17;
     distinta_base := Some distinta_base_base;
     livelli_scorta_minima := None;
     lotto_riordino_standard := None |}.

Definition officina_guasta : SistemaProduttivo :=
  officina configurazione_guasta FIFO (rng_costante (1 # 2)) 480 "FL-01" 200.

Definition esito_officina_guasta : Esito unit :=
  elabora_ordine senza_attesa 10 O officina_guasta.

(** What an order keeps of the operations done on it: the phases visited
    and the log of the operations. *)
Definition storia (o : OrdineDiLavoro) : list TipoMacchinario * list Lavorazione :=
  (cronologia_fasi o, log_lavorazioni o).

(** The operations a routing always runs, in order. *)
Definition fasi_principali (st : Strategia) : list TipoMacchinario :=
  match st with
  | StrategiaFL01 => [TRONCATRICE; TRAPANO; BANCO_CONTROLLO; BANCO_CONTROLLO]
  | StrategiaPN03 => [TRONCATRICE; TORNIO; RETTIFICA; BANCO_CONTROLLO]
  | StrategiaIN07 => [TRONCATRICE; FRESA; RETTIFICA; FORNO; BANCO_CONTROLLO]
  | StrategiaRD01 => [BANCO_ASSEMBLAGGIO; BANCO_COLLAUDO]
  end.

(** How many times a routing rolls for a rework. *)
Definition rilavorazioni_massime (st : Strategia) : nat :=
  match st with
  | StrategiaPN03 | StrategiaIN07 => 2
  | StrategiaFL01 | StrategiaRD01 => 0
  end.

(** The operations of [n] reworks. *)
Fixpoint rilavorazione (n : nat) : list TipoMacchinario :=
  match n with
  | O => []
  | S n' => RETTIFICA :: BANCO_CONTROLLO :: rilavorazione n'
  end.

(** The run has recorded on order [o] the phases [l] and then those of at
    most [k] reworks, in the history and in the log alike. *)
Definition fasi_registrate (o : Rif) (l : list TipoMacchinario) (k : nat)
  (s s' : SistemaProduttivo) : Prop :=
  exists n, (n <= k)%nat
    /\ cronologia_fasi (oggetti s' o)
       = (cronologia_fasi (oggetti s o) ++ l ++ rilavorazione n)%list
    /\ map lav_fase (log_lavorazioni (oggetti s' o))
       = (map lav_fase (log_lavorazioni (oggetti s o)) ++ l ++ rilavorazione n)%list.

(** A pin order released on Monday at 08:00 in a workshop where every roll
    for a rework succeeds. *)
Definition configurazione_rilavorazione : ConfigurazioneSimulazione :=
  {| tempi_lavorazione := tempi_base;
     capacita := capacita_base;
     probabilita_rifacimento := 1;
     richiede_specialista := true;
     limiti_produzione_giornaliera := None;
     limite_produzione_totale_giornaliera := None;
     fattore_variabilita_processo := 0;
     tempo_setup_minuti := 15;
     probabilita_guasto := 0;
     minuti_riparazione_min := 60;
     minuti_riparazione_max := 180;
     orario_inizio_turno := 8;
     orario_fine_turno := 17;
     distinta_base := Some distinta_base_base;
     livelli_scorta_minima := None;
     lotto_riordino_standard := None |}.

Definition perno_lunedi : SistemaProduttivo :=
  officina configurazione_rilavorazione FIFO (rng_costante (1 # 2)) 480 "PN-03" 2000.

Definition esito_perno_lunedi : Esito unit :=
  esegui_processo senza_attesa 10 StrategiaPN03 O perno_lunedi.

(** What identifies a work order, and the flag that marks it consumed. *)
Definition dati_anagrafici (o : OrdineDiLavoro)
  : string * Prodotto * Q * Q * bool :=
  (ordine_id o, prodotto o, tempo_creazione o, scadenza o, consumato o).

(** The run has written to order [o] alone, and to none of the identifying
    data of any order. *)
Definition solo_ordine (o : Rif) (s s' : SistemaProduttivo) : Prop :=
  forall r,
    dati_anagrafici (oggetti s' r) = dati_anagrafici (oggetti s r)
    /\ (r <> o -> oggetti s' r = oggetti s r).

(** The stores of the plant: the stock buffers and the intermediate
    warehouse. *)
Definition depositi (s : SistemaProduttivo)
  : (TipoProdotto -> option (list Rif)) * (TipoProdotto -> option (list Rif)) :=
  (buffer_scorte s, magazzino_intermedio s).

(** The stores a routing hands its finished order to, in order. *)
Definition destinazioni (st : Strategia) : list Deposito :=
  match st with
  | StrategiaFL01 => [BufferScorte FL_01; MagazzinoIntermedio FL_01]
  | StrategiaPN03 => [BufferScorte PN_03]
  | StrategiaIN07 => [BufferScorte IN_07; MagazzinoIntermedio IN_07]
  | StrategiaRD01 => []
  end.

(** [P in depositi]: the plant has the store. *)
Definition deposito_presente (s : SistemaProduttivo) (d : Deposito) : bool :=
  match deposito_items d s with
  | Some _ => true
  | None => false
  end.

(** The deposits of order [o] by routing [st] in plant [s]: a put for each
    destination the plant has. *)
Definition versamenti (st : Strategia) (o : Rif) (s : SistemaProduttivo)
  : list Evento :=
  map (fun d => EvPut d o) (List.filter (deposito_presente s) (destinazioni st)).

(** [e] is a put on a store or a get from one. *)
Definition movimento_di_deposito (e : Evento) : bool :=
  match e with
  | EvPut _ _ | EvGet _ _ => true
  | _ => false
  end.

Definition senza_movimenti (e : Evento) : Prop := movimento_di_deposito e = false.

(** The run has yielded events that are not on a store, then the deposits
    of order [o] by routing [st], and nothing after them. *)
Definition versato (st : Strategia) (o : Rif) (s s' : SistemaProduttivo) : Prop :=
  exists l,
    env_traccia (ambiente s') = (env_traccia (ambiente s) ++ l ++ versamenti st o s)%list
    /\ Forall senza_movimenti l.

(** An assembly order released on Monday at 08:00 in a workshop whose
    intermediate warehouse holds one flange and one gear. *)
Definition assemblaggio_a_corto : SistemaProduttivo :=
  let s0 := officina crea_configurazione_base FIFO (rng_costante (1 # 2)) 480 "RD-01" 2000 in
  let (f, s1) := registra_ordine (ordine_scorta FL_01 0) s0 in
  let (i, s2) := registra_ordine (ordine_scorta IN_07 0) s1 in
  con_magazzino_intermedio
    (fun q => match q with
              | FL_01 => Some [f]
              | IN_07 => Some [i]
              | _ => None
              end) s2.

(** The assembly of [assemblaggio_a_corto] where its withdrawal leaves it:
    the flange and one gear taken, suspended on the gear store. *)
Definition assemblaggio_sospeso : SistemaProduttivo :=
  stato_finale
    (preleva_componente IN_07 O
       (stato_finale (preleva_componente FL_01 O assemblaggio_a_corto))).

(** The plant that assembly finds at 10:00, when a gear has been delivered
    to the intermediate warehouse and it is resumed. *)
Definition assemblaggio_rifornito : SistemaProduttivo :=
  let (i, s1) := registra_ordine (ordine_scorta IN_07 1) assemblaggio_sospeso in
  con_magazzino_intermedio
    (fun q => match q with
              | IN_07 => Some [i]
              | _ => magazzino_intermedio s1 q
              end)
    (con_ambiente
       {| env_now := 600;
          env_richieste := env_richieste (ambiente s1);
          env_traccia := env_traccia (ambiente s1) |} s1).

(** The rest of the routing, once the second gear is taken there. *)
Definition esito_assemblaggio_rifornito : Esito unit :=
  StrategiaRD01_lavorazioni senza_attesa 10
    (tempi_lavorazione (configurazione assemblaggio_a_corto)) O
    (stato_finale (preleva_componente IN_07 O assemblaggio_rifornito)).

(** An order for a product no routing is defined for, released on Monday at
    10:00 in the capped plant. *)
Definition ordine_senza_strategia : SistemaProduttivo :=
  officina configurazione_con_limiti FIFO (rng_costante (1 # 2)) 600 "XX-99" 200.

(** ** GestoreEconomico *)

(** The object as [GestoreEconomico.__init__] leaves it: the price list
    ([None] when the configuration has none), the penalty per minute of
    delay, the hourly costs ([... or {}]) and the table of nominal times. *)
Record GestoreEconomico := {
  prezzi : option (gmap string Q);
  penale_al_minuto : Q;
  costo_macchinari : TipoMacchinario -> option Q;
  costo_operatori : TipoOperatore -> option Q;
  tempi_nominali : TipoMacchinario -> option (gmap string Q)
}.

(** What a method of the accountant can raise: [.get] on a missing price
    list, and a recursion through the components deeper than the
    interpreter allows. *)
Inductive ErroreEconomico :=
| AttributeError
| RecursionError.

(** [GestoreEconomico.calcola_ricavo_effettivo]. *)
Definition calcola_ricavo_effettivo (g : GestoreEconomico) (id_prodotto : string)
  (tempo_completamento_ : option Q) (scadenza_ : Q) : ErroreEconomico + Q :=
  match tempo_completamento_ with
  | None => inr 0
  | Some t =>
      match prezzi g with
      | None => inl AttributeError
      | Some listino =>
          let prezzo_base := default 0 (listino !! id_prodotto) in
          let ritardo := Py.max 0 (t - scadenza_) in
          let penale := ritardo * penale_al_minuto g in
          inr (Py.max 0 (prezzo_base - penale))
      end
  end.

(** The cost of one logged operation: its hours at the hourly cost of the
    machine and of the operator, if one worked on it. *)
Definition costo_fase_registrata (g : GestoreEconomico) (l : Lavorazione) : Q :=
  let tempo_ore := lav_durata l / 60 in
  let costo_macchina := default 0 (costo_macchinari g (lav_fase l)) in
  let costo_operatore :=
    match lav_operatore l with
    | Some t => default 0 (costo_operatori g t)
    | None => 0
    end in
  tempo_ore * (costo_macchina + costo_operatore).

(** The cost of one phase of the history at its nominal time, for an order
    without a log: grinding and final test are charged a specialist. *)
Definition costo_fase_nominale (g : GestoreEconomico) (tipo_prodotto : string)
  (macchina : TipoMacchinario) : Q :=
  let tempi_macchina := default ∅ (tempi_nominali g macchina) in
  let tempo_minuti := default 0 (tempi_macchina !! tipo_prodotto) in
  let tempo_ore := tempo_minuti / 60 in
  let costo_macchina := default 0 (costo_macchinari g macchina) in
  let tipo_operatore :=
    match macchina with
    | RETTIFICA | BANCO_COLLAUDO => SPECIALIZZATO
    | _ => GENERICO
    end in
  let costo_operatore := default 0 (costo_operatori g tipo_operatore) in
  tempo_ore * (costo_macchina + costo_operatore).

(** The two loops over the operations of an order, from the log when there
    is one and from the history otherwise. *)
Definition costo_lavorazioni (g : GestoreEconomico) (o : OrdineDiLavoro) : Q :=
  match log_lavorazioni o with
  | [] =>
      fold_left (fun costo_totale macchina =>
                   costo_totale + costo_fase_nominale g (prodotto_id (prodotto o)) macchina)
        (cronologia_fasi o) 0
  | _ :: _ =>
      fold_left (fun costo_totale l => costo_totale + costo_fase_registrata g l)
        (log_lavorazioni o) 0
  end.

(** The loop over the consumed components: each adds its price less its
    margin, the margin being [margine componente]. *)
Fixpoint costo_componenti (listino : gmap string Q)
  (margine : Rif -> ErroreEconomico + Q) (memoria : Rif -> OrdineDiLavoro)
  (componenti : list Rif) (costo_totale : Q) : ErroreEconomico + Q :=
  match componenti with
  | [] => inr costo_totale
  | componente :: resto =>
      match margine componente with
      | inl e => inl e
      | inr margine_comp =>
          let prezzo_comp :=
            default 0 (listino !! prodotto_id (prodotto (memoria componente))) in
          let costo_produzione_comp := prezzo_comp - margine_comp in
          costo_componenti listino margine memoria resto
            (costo_totale + costo_produzione_comp)
      end
  end.

(** [GestoreEconomico.calcola_margine_contribuzione], on the order behind a
    reference; [profondita] is the depth of recursion the interpreter
    allows. *)
Fixpoint calcola_margine_contribuzione (profondita : nat) (g : GestoreEconomico)
  (memoria : Rif -> OrdineDiLavoro) (ordine : Rif) : ErroreEconomico + Q :=
  match profondita with
  | O => inl RecursionError
  | S p =>
      let o := memoria ordine in
      match prezzi g with
      | None => inl AttributeError
      | Some listino =>
          let prezzo_vendita := default 0 (listino !! prodotto_id (prodotto o)) in
          match
            costo_componenti listino (calcola_margine_contribuzione p g memoria)
              memoria (componenti_consumati o) (costo_lavorazioni g o)
          with
          | inl e => inl e
          | inr costo_totale => inr (prezzo_vendita - costo_totale)
          end
      end
  end.

(** The direct cost of an order: that of its own operations and of those of
    every component consumed, down the assembly. *)
Fixpoint costo_diretto (profondita : nat) (g : GestoreEconomico)
  (memoria : Rif -> OrdineDiLavoro) (ordine : Rif) : Q :=
  match profondita with
  | O => 0
  | S p =>
      fold_left (fun costo componente => costo + costo_diretto p g memoria componente)
        (componenti_consumati (memoria ordine))
        (costo_lavorazioni g (memoria ordine))
  end.

(** The accountant of the base configuration. *)
Definition listino_base : gmap string Q :=
  {[ "FL-01" := 50; "PN-03" := 80; "IN-07" := 100; "RD-01" := 500 ]}.

Definition gestore_base : GestoreEconomico :=
  {| prezzi := Some listino_base;
     penale_al_minuto := 0;
     costo_macchinari := fun _ => Some 20;
     costo_operatori := fun t => Some match t with GENERICO => 25 | SPECIALIZZATO => 40 end;
     tempi_nominali := tempi_base |}.

(** The accountant of the stochastic configuration, but for the hourly
    costs, which that configuration draws at random. *)
Definition listino_uniforme : gmap string Q :=
  {[ "FL-01" := 150; "PN-03" := 150; "IN-07" := 150; "RD-01" := 150 ]}.

Definition gestore_con_penale : GestoreEconomico :=
  {| prezzi := Some listino_uniforme;
     penale_al_minuto := 3 # 1000;
     costo_macchinari := fun _ => Some 20;
     costo_operatori := fun t => Some match t with GENERICO => 25 | SPECIALIZZATO => 40 end;
     tempi_nominali := tempi_base |}.

(** ** AnalizzatorePrestazioni: the quality rule *)

(** The test [calcola_metriche_prestazionali] applies to each completed
    order to count the defective ones: more than one grinding in the
    history of a pin or a gear, any grinding in that of another product. *)
Definition pezzo_difettoso (o : OrdineDiLavoro) : bool :=
  let fasi := cronologia_fasi o in
  let rettifiche :=
    length (filter (fun m => bool_decide (m = RETTIFICA)) fasi) in
  if String.eqb (prodotto_id (prodotto o)) "PN-03"
     || String.eqb (prodotto_id (prodotto o)) "IN-07"
  then (1 <? rettifiche)%nat
  else (0 <? rettifiche)%nat.

(** [quality]: the share of the completed orders that are not defective. *)
Definition qualita (ordini_completati : list OrdineDiLavoro) : Q :=
  let totale_pezzi := Z.of_nat (length ordini_completati) in
  let pezzi_difettosi := Z.of_nat (length (filter pezzo_difettoso ordini_completati)) in
  if (0 <? totale_pezzi)%Z
  then inject_Z (totale_pezzi - pezzi_difettosi) / inject_Z totale_pezzi
  else 0.

(** ** scenario_service.py: the material balance of a batch *)

(** The product a component name stands for, if any. *)
Definition prodotto_da_valore (v : string) : option TipoProdotto :=
  find (fun p => String.eqb (valore_prodotto p) v) tutti_prodotti.

(** [stock_iniziale]: the items in the component's store of the
    intermediate warehouse, zero when there is no such store. *)
Definition stock_iniziale (s : SistemaProduttivo) (componente : string) : Z :=
  match prodotto_da_valore componente with
  | Some p =>
      match magazzino_intermedio s p with
      | Some items => Z.of_nat (length items)
      | None => 0%Z
      end
  | None => 0%Z
  end.

(** The first loop of [_check_material_balance]: the components the planned
    quantities call for through the bill of materials. *)
Definition fabbisogno_componenti (distinta : gmap string (gmap string Z))
  (quantita_pianificate : gmap string Z) : gmap string Z :=
  map_fold
    (fun prodotto qty_ordine fabbisogno =>
       match distinta !! prodotto with
       | Some componenti_richiesti =>
           map_fold
             (fun componente qty_per_unit fabbisogno =>
                <[componente := (default 0 (fabbisogno !! componente)
                                 + qty_ordine * qty_per_unit)%Z]> fabbisogno)
             fabbisogno componenti_richiesti
       | None => fabbisogno
       end)
    ∅ quantita_pianificate.

(** [GestoreScenario._check_material_balance]: the check raises when a
    component is planned and stocked for less than is called for.  (The
    message names the first component found short; only that the check
    raises is kept here.) *)
Definition check_material_balance (cfg : ConfigurazioneSimulazione)
  (s : SistemaProduttivo) (quantita_pianificate : gmap string Z)
  : Eccezione + unit :=
  let distinta := default ∅ (distinta_base cfg) in
  let fabbisogno_ := fabbisogno_componenti distinta quantita_pianificate in
  if forallb
       (fun voce : string * Z =>
          let qty_pianificata := default 0%Z (quantita_pianificate !! fst voce) in
          let disponibilita_totale := (qty_pianificata + stock_iniziale s (fst voce))%Z in
          negb (disponibilita_totale <? snd voce)%Z)
       (map_to_list fabbisogno_)
  then inr tt
  else inl (ValueError "CRITICAL PLANNING ERROR: Material Shortage Detected").

(** What a plan calls for of component [c]: over the planned products, the
    quantity ordered times the quantity per unit in the bill of materials. *)
Definition fabbisogno_di (distinta : gmap string (gmap string Z))
  (quantita_pianificate : gmap string Z) (c : string) : Z :=
  map_fold
    (fun prodotto qty_ordine somma =>
       (somma + qty_ordine * default 0 (distinta !! prodotto ≫= (.!! c)))%Z)
    0%Z quantita_pianificate.

(** Component [c] is listed for a planned product. *)
Definition richiesto (distinta : gmap string (gmap string Z))
  (quantita_pianificate : gmap string Z) (c : string) : Prop :=
  exists prodotto qty_ordine componenti_richiesti,
    quantita_pianificate !! prodotto = Some qty_ordine
    /\ distinta !! prodotto = Some componenti_richiesti
    /\ is_Some (componenti_richiesti !! c).

(** ** configurazione.py: the stochastic batch *)

(** [rng.randint(a, b)] on a generator held by value. *)
Definition randint (a b : Z) (g : Random) : Eccezione + Z * Random :=
  if (b <? a)%Z then inl (ValueError "empty range for randrange()")
  else inr ((a + Qfloor (fst (estrai g) * inject_Z (b - a + 1)))%Z, snd (estrai g)).

(** [genera_quantita_lotto_stocastico]. *)
Definition genera_quantita_lotto_stocastico (g : Random)
  : Eccezione + gmap string Z * Random :=
  match randint 50 80 g with
  | inl e => inl e
  | inr (qty_rd01, g) =>
      let min_fl01 := (qty_rd01 * 1)%Z in
      let min_pn03 := (qty_rd01 * 2)%Z in
      match randint 20 50 g with
      | inl e => inl e
      | inr (extra_fl01, g) =>
          match randint 20 50 g with
          | inl e => inl e
          | inr (extra_pn03, g) =>
              match randint 100 160 g with
              | inl e => inl e
              | inr (qty_in07, g) =>
                  inr (<["FL-01" := (min_fl01 + extra_fl01)%Z]>
                         (<["PN-03" := (min_pn03 + extra_pn03)%Z]>
                            (<["IN-07" := qty_in07]>
                               {["RD-01" := qty_rd01]})), g)
              end
          end
      end
  end.

(** The caps that bear on product [id_prodotto] admit at least one unit a
    day. *)
Definition limiti_positivi (id_prodotto : string) (cfg : ConfigurazioneSimulazione)
  : Prop :=
  (forall tabella l,
     limiti_produzione_giornaliera cfg = Some tabella ->
     tabella !! id_prodotto = Some l -> (0 < l)%Z)
  /\ (forall l, limite_produzione_totale_giornaliera cfg = Some l -> (0 < l)%Z).

(** What the waits of an operation leave alone: the configuration, the
    generator and the work orders. *)
Definition quadro (s : SistemaProduttivo)
  : ConfigurazioneSimulazione * Random * (Rif -> OrdineDiLavoro) :=
  (configurazione s, rng s, oggetti s).

(** What the changeover and the breakdown of an operation leave alone: the
    configuration, the sequence of variates and the logs of the orders. *)
Definition stabile (s s' : SistemaProduttivo) : Prop :=
  configurazione s' = configurazione s
  /\ variati (rng s') = variati (rng s)
  /\ (forall r, log_lavorazioni (oggetti s' r) = log_lavorazioni (oggetti s r)).

(** The effective duration of an operation of base duration [d] under
    variate [u]: [max(0.001, d * uniform(1 - v, 1 + v))]. *)
Definition durata_effettiva_con (cfg : ConfigurazioneSimulazione) (d u : Q) : Q :=
  let v := fattore_variabilita_processo cfg in
  Py.max (1 # 1000) (d * ((1 - v) + ((1 + v) - (1 - v)) * u)).

(** The run has logged on order [o] one operation on machine [m], of some
    effective duration of [d], ending at the time now on the clock. *)
Definition lavorazione_registrata (o : Rif) (m : TipoMacchinario) (d : Q)
  (s s' : SistemaProduttivo) : Prop :=
  exists l k,
    log_lavorazioni (oggetti s' o) = (log_lavorazioni (oggetti s o) ++ [l])%list
    /\ lav_fase l = m
    /\ lav_durata l = durata_effettiva_con (configurazione s) d (variati (rng s) k)
    /\ lav_fine l = env_now (ambiente s')
    /\ lav_inizio l = lav_fine l - lav_durata l.

(** ** SistemaProduttivo.monitor_scorte *)

(** The replenishment order number [i] of a sweep at time [adesso]. *)
Definition ordine_di_riordino (prod_type : TipoProdotto) (adesso : Q) (i : nat)
  : OrdineDiLavoro :=
  {| ordine_id := "R-ORD-" ++ valore_prodotto prod_type ++ "-"
                  ++ pretty (Py.round adesso) ++ "-" ++ pretty i;
     prodotto := {| prodotto_id := valore_prodotto prod_type;
                    prodotto_nome := nome_prodotto prod_type |};
     tempo_creazione := adesso;
     scadenza := adesso + 2880;
     tempo_completamento := None;
     cronologia_fasi := [];
     log_lavorazioni := [];
     consumato := false;
     componenti_consumati := [] |}.

(** [nuovo_ordine = OrdineDiLavoro(...)]: the object is created; it answers
    its reference. *)
Definition crea_riordino (prod_type : TipoProdotto) (i : nat) : Processo Rif :=
  fun s =>
    let (r, s') := registra_ordine
                     (ordine_di_riordino prod_type (env_now (ambiente s)) i) s in
    Fatto r s'.

(** [for i in range(int(qty_to_order)): ...].  The process the kernel is
    handed for each order ([ambiente.process(self.elabora_ordine(...))])
    starts after the sweep has yielded; what the loop answers here is the
    orders those processes are for, in order. *)
Fixpoint genera_riordini (prod_type : TipoProdotto) (indici : list nat)
  : Processo (list Rif) :=
  match indici with
  | [] => ret []
  | i :: resto =>
      r <- crea_riordino prod_type i ;;
      rs <- genera_riordini prod_type resto ;;
      ret (r :: rs)
  end.

(** The body of the loop over the stock buffers, for one product. *)
Definition controlla_scorta (rop_levels eoq_quantities : gmap string Z)
  (prod_type : TipoProdotto) : Processo (list Rif) :=
  store <- leggi (fun s => buffer_scorte s prod_type) ;;
  match store with
  | None => ret []
  | Some items =>
      match rop_levels !! valore_prodotto prod_type with
      | None => ret []
      | Some rop =>
          let current_level := Z.of_nat (length items) in
          if (current_level <? rop)%Z then
            let qty_to_order :=
              default 10%Z (eoq_quantities !! valore_prodotto prod_type) in
            genera_riordini prod_type (seq 0 (Z.to_nat qty_to_order))
          else ret []
      end
  end.

Fixpoint controlla_scorte (rop_levels eoq_quantities : gmap string Z)
  (prodotti : list TipoProdotto) : Processo (list Rif) :=
  match prodotti with
  | [] => ret []
  | prod_type :: resto =>
      l <- controlla_scorta rop_levels eoq_quantities prod_type ;;
      ls <- controlla_scorte rop_levels eoq_quantities resto ;;
      ret (l ++ ls)%list
  end.

(** The body of a turn of [monitor_scorte] after its wait: the check of
    the buffers, which yields nothing. *)
Definition monitor_scorte_controllo : Processo (list Rif) :=
  cfg <- leggi configurazione ;;
  let rop_levels := default ∅ (livelli_scorta_minima cfg) in
  let eoq_quantities := default ∅ (lotto_riordino_standard cfg) in
  controlla_scorte rop_levels eoq_quantities tutti_prodotti.

(** One turn of the [while True] of [monitor_scorte]: an hour's wait, during
    which the other processes run, and then the check. *)
Definition monitor_scorte_giro : Processo (list Rif) :=
  timeout 60 ;;
  monitor_scorte_controllo.

Fixpoint monitor_scorte (n : nat) : Processo (list Rif) :=
  match n with
  | O => esaurito
  | S n' =>
      l <- monitor_scorte_giro ;;
      ls <- monitor_scorte n' ;;
      ret (l ++ ls)%list
  end.

(** The lot the check orders of a product in plant [s]: the standard lot
    (ten, when none is set) if the product has a reorder level and its
    buffer holds less, and nothing otherwise. *)
Definition riordino_dovuto (s : SistemaProduttivo) (p : TipoProdotto) : nat :=
  match buffer_scorte s p,
        default ∅ (livelli_scorta_minima (configurazione s)) !! valore_prodotto p with
  | Some items, Some rop =>
      if (Z.of_nat (length items) <? rop)%Z
      then Z.to_nat (default 10%Z
                       (default ∅ (lotto_riordino_standard (configurazione s))
                        !! valore_prodotto p))
      else O
  | _, _ => O
  end.

(** The orders the check is to create in plant [s]: for each product in
    turn, a lot of orders created at the time on the clock and due two days
    later. *)
Definition riordini_attesi (s : SistemaProduttivo) (prodotti : list TipoProdotto)
  : list OrdineDiLavoro :=
  concat (map (fun p => map (ordine_di_riordino p (env_now (ambiente s)))
                          (seq 0 (riordino_dovuto s p)))
            prodotti).

(** The base configuration with a reorder level of two flanges and a lot of
    three, and of one pin with no lot set. *)
Definition configurazione_con_riordino : ConfigurazioneSimulazione :=
  {| tempi_lavorazione := tempi_base;
     capacita := capacita_base;
     probabilita_rifacimento := 5 # 100;
     richiede_specialista := true;
     limiti_produzione_giornaliera := None;
     limite_produzione_totale_giornaliera := None;
     fattore_variabilita_processo := 0;
     tempo_setup_minuti := 15;
     probabilita_guasto := 1 # 100;
     minuti_riparazione_min := 60;
     minuti_riparazione_max := 180;
     orario_inizio_turno := 8;
     orario_fine_turno := 17;
     distinta_base := Some distinta_base_base;
     livelli_scorta_minima := Some {[ "FL-01" := 2%Z; "PN-03" := 1%Z ]};
     lotto_riordino_standard := Some {[ "FL-01" := 3%Z ]} |}.

Definition officina_con_riordino : SistemaProduttivo :=
  officina configurazione_con_riordino FIFO (rng_costante (1 # 2)) 480 "FL-01" 200.

(** ** configurazione.py: the stochastic configuration *)

(** [ConfigurazioneSimulazione.__post_init__]. *)
Definition post_init (cfg : ConfigurazioneSimulazione)
  : Eccezione + ConfigurazioneSimulazione :=
  if Py.leb 0 (probabilita_rifacimento cfg) && Py.leb (probabilita_rifacimento cfg) 1
  then inr cfg
  else inl (ValueError "Probabilita rifacimento non valida").

(** A computation that draws from a generator held by value. *)
Definition Estratto (A : Type) : Type := Random -> Eccezione + A * Random.

Definition resa {A} (a : A) : Estratto A := fun g => inr (a, g).

Definition lega {A B} (m : Estratto A) (k : A -> Estratto B) : Estratto B :=
  fun g =>
    match m g with
    | inl e => inl e
    | inr (a, g') => k a g'
    end.

(** [rng.uniform(a, b)]. *)
Definition uniform (a b : Q) : Estratto Q :=
  fun g => inr (a + (b - a) * fst (estrai g), snd (estrai g)).

(** [{m: _rng.uniform(15.0, 30.0) for m in TipoMacchinario}]. *)
Fixpoint costi_macchinari (macchine : list TipoMacchinario)
  : Estratto (TipoMacchinario -> option Q) :=
  match macchine with
  | [] => resa (fun _ => None)
  | m :: resto =>
      lega (uniform 15 30) (fun c =>
      lega (costi_macchinari resto) (fun tab =>
      resa (fun x => if decide (x = m) then Some c else tab x)))
  end.

(** [for p in TipoProdotto: tempi_proc[m][p] = _rng.randint(10, 40)]. *)
Fixpoint riga_tempi (prodotti : list TipoProdotto) : Estratto (gmap string Q) :=
  match prodotti with
  | [] => resa ∅
  | p :: resto =>
      lega (randint 10 40) (fun t =>
      lega (riga_tempi resto) (fun riga =>
      resa (<[valore_prodotto p := inject_Z t]> riga)))
  end.

(** [for m in TipoMacchinario: tempi_proc[m] = {}; ...]. *)
Fixpoint tabella_tempi (macchine : list TipoMacchinario)
  : Estratto (TipoMacchinario -> option (gmap string Q)) :=
  match macchine with
  | [] => resa (fun _ => None)
  | m :: resto =>
      lega (riga_tempi tutti_prodotti) (fun riga =>
      lega (tabella_tempi resto) (fun tab =>
      resa (fun x => if decide (x = m) then Some riga else tab x)))
  end.

(** [for m in TipoMacchinario: capacita[m] = _rng.randint(2, 4)]. *)
Fixpoint capacita_macchinari (macchine : list TipoMacchinario)
  : Estratto (TipoMacchinario -> option Z) :=
  match macchine with
  | [] => resa (fun _ => None)
  | m :: resto =>
      lega (randint 2 4) (fun c =>
      lega (capacita_macchinari resto) (fun tab =>
      resa (fun x => if decide (x = m) then Some c else tab x)))
  end.

(** [genera_configurazione_stocastica]: the configuration, and with it the
    accountant that [GestoreEconomico(configurazione)] makes of its prices,
    penalty and hourly costs. *)
Definition genera_configurazione_stocastica
  : Estratto (ConfigurazioneSimulazione * GestoreEconomico) :=
  lega (costi_macchinari tutti_macchinari) (fun costo_macchine =>
  lega (uniform 20 30) (fun costo_generico =>
  lega (uniform 35 50) (fun costo_specializzato =>
  let costo_operatori_ := fun t =>
    Some match t with
         | GENERICO => costo_generico
         | SPECIALIZZATO => costo_specializzato
         end in
  lega (tabella_tempi tutti_macchinari) (fun tempi_proc =>
  lega (capacita_macchinari tutti_macchinari) (fun cap_macchine =>
  lega (randint 6 10) (fun cap_generico =>
  lega (randint 3 5) (fun cap_specializzato =>
  let capacita_ := fun r =>
    match r with
    | Macchina m => cap_macchine m
    | Addetto GENERICO => Some cap_generico
    | Addetto SPECIALIZZATO => Some cap_specializzato
    end in
  let distinta : gmap string (gmap string Z) :=
    {[ "RD-01" := {[ "FL-01" := 1%Z; "PN-03" := 2%Z ]} ]} in
  lega (randint 50 100) (fun limite_fl01 =>
  lega (randint 50 100) (fun limite_pn03 =>
  lega (randint 50 100) (fun limite_in07 =>
  lega (randint 50 100) (fun limite_rd01 =>
  let limiti_prod_giornalieri : gmap string Z :=
    <["FL-01" := limite_fl01]>
      (<["PN-03" := limite_pn03]>
         (<["IN-07" := limite_in07]> {[ "RD-01" := limite_rd01 ]})) in
  lega (randint 300 600) (fun limite_totale_giornaliero =>
  fun g =>
    match post_init
            {| tempi_lavorazione := tempi_proc;
               capacita := capacita_;
               probabilita_rifacimento := 2 # 100;
               richiede_specialista := true;
               limiti_produzione_giornaliera := Some limiti_prod_giornalieri;
               limite_produzione_totale_giornaliera := Some limite_totale_giornaliero;
               fattore_variabilita_processo := 1 # 10;
               tempo_setup_minuti := 0;
               probabilita_guasto := 0;
               minuti_riparazione_min := 60;
               minuti_riparazione_max := 180;
               orario_inizio_turno := 8;
               orario_fine_turno := 17;
               distinta_base := Some distinta;
               livelli_scorta_minima := None;
               lotto_riordino_standard := None |} with
    | inl e => inl e
    | inr cfg =>
        inr (cfg,
             {| prezzi := Some listino_uniforme;
                penale_al_minuto := 3 # 1000;
                costo_macchinari := costo_macchine;
                costo_operatori := costo_operatori_;
                tempi_nominali := tempi_proc |}, g)
    end)))))))))))).

(** The variates of a generator lie in [0, 1). *)
Definition sano (g : Random) : Prop :=
  forall n, 0 <= variati g n /\ variati g n < 1.

(** From a sound generator the computation does not raise, answers a value
    in [P], and leaves a sound generator. *)
Definition estrae {A} (m : Estratto A) (P : A -> Prop) : Prop :=
  forall g, sano g -> exists a g', m g = inr (a, g') /\ sano g' /\ P a.

(** ** GestoreScenario.genera_domanda_stocastica *)

(** [if self.quantita_target: ... if completati_rd01 >= self.quantita_target]:
    a target is set (and is not zero) and the completed assemblies have
    reached it. *)
Definition obiettivo_raggiunto (quantita_target : option Z) (completati_rd01 : Z)
  : bool :=
  match quantita_target with
  | Some q => negb (q =? 0)%Z && (q <=? completati_rd01)%Z
  | None => false
  end.

(** The order the generator builds at time [adesso] with the number [n] it
    has drawn for the identifier. *)
Definition ordine_di_domanda (id_prodotto : string) (adesso : Q) (n : Z) (scad : Q)
  : OrdineDiLavoro :=
  {| ordine_id := "WO-" ++ pretty (Py.int (adesso * 100)) ++ "-" ++ pretty n;
     prodotto := {| prodotto_id := id_prodotto;
                    prodotto_nome := "Prodotto " ++ id_prodotto |};
     tempo_creazione := adesso;
     scadenza := scad;
     tempo_completamento := None;
     cronologia_fasi := [];
     log_lavorazioni := [];
     consumato := false;
     componenti_consumati := [] |}.

Definition crea_ordine (o : OrdineDiLavoro) : Processo Rif :=
  fun s => let (r, s') := registra_ordine o s in Fatto r s'.

(** One turn of the [while True] of the generator; it answers [None] on
    [break], and otherwise the order a process is started for. *)
Definition genera_domanda_giro (quantita_target : option Z) (completati_rd01 : Z)
  (id_prodotto : string) (intervallo_min intervallo_max : Q)
  : Processo (option Rif) :=
  if obiettivo_raggiunto quantita_target completati_rd01 then ret None
  else
    attesa <- rng_uniform intervallo_min intervallo_max ;;
    timeout attesa ;;
    adesso <- ambiente_now ;;
    n <- rng_randint 1000 999 ;;
    u <- rng_uniform 100 300 ;;
    let scadenza_ := adesso + u in
    r <- crea_ordine (ordine_di_domanda id_prodotto adesso n scadenza_) ;;
    ret (Some r).

(** [GestoreScenario.genera_domanda_stocastica]; [completati_rd01 k] is the
    number of completed assemblies that turn [k] of the loop finds. *)
Fixpoint genera_domanda_stocastica (giri : nat) (quantita_target : option Z)
  (completati_rd01 : nat -> Z) (k : nat) (id_prodotto : string)
  (intervallo_min intervallo_max : Q) : Processo (list Rif) :=
  match giri with
  | O => esaurito
  | S giri' =>
      r <- genera_domanda_giro quantita_target (completati_rd01 k) id_prodotto
             intervallo_min intervallo_max ;;
      match r with
      | None => ret []
      | Some r =>
          rs <- genera_domanda_stocastica giri' quantita_target completati_rd01
                  (S k) id_prodotto intervallo_min intervallo_max ;;
          ret (r :: rs)
      end
  end.

(** * Properties *)

Local Open Scope list_scope.

(** ** What a completed run guarantees

    [garantisce m R]: whenever [m] runs to its end from [s] and leaves [s'],
    [R s s'] holds. *)

Definition garantisce {A} (m : Processo A)
  (R : SistemaProduttivo -> SistemaProduttivo -> Prop) : Prop :=
  forall s a s', m s = Fatto a s' -> R s s'.

Section Garantisce.

Context {A B : Type}.
Variable R : SistemaProduttivo -> SistemaProduttivo -> Prop.

Lemma garantisce_ret (a : A) : Reflexive R -> garantisce (ret a) R.
Proof. intros HR s a' s' H. injection H as _ <-. apply HR. Qed.

Lemma garantisce_leggi (f : SistemaProduttivo -> A) :
  Reflexive R -> garantisce (leggi f) R.
Proof. intros HR s a' s' H. injection H as _ <-. apply HR. Qed.

Lemma garantisce_solleva (e : Eccezione) : garantisce (@solleva A e) R.
Proof. intros s a s' H. discriminate H. Qed.

Lemma garantisce_esaurito : garantisce (@esaurito A) R.
Proof. intros s a s' H. discriminate H. Qed.

Lemma garantisce_blocca : garantisce (@blocca A) R.
Proof. intros s a s' H. discriminate H. Qed.

Lemma garantisce_modifica (f : SistemaProduttivo -> SistemaProduttivo) :
  (forall s, R s (f s)) -> garantisce (modifica f) R.
Proof. intros Hf s a s' H. injection H as _ <-. apply Hf. Qed.

Lemma garantisce_bind_misto (R1 R2 : SistemaProduttivo -> SistemaProduttivo -> Prop)
  (m : Processo A) (k : A -> Processo B) :
  (forall s s' s'', R1 s s' -> R2 s' s'' -> R s s'') ->
  garantisce m R1 -> (forall a, garantisce (k a) R2) ->
  garantisce (bind m k) R.
Proof.
  intros Hc Hm Hk s b s'' H. unfold bind in H.
  destruct (m s) as [a s'| | |] eqn:Em; try discriminate H.
  eapply Hc; [eapply Hm, Em | eapply Hk, H].
Qed.

Lemma garantisce_bind (m : Processo A) (k : A -> Processo B) :
  Transitive R ->
  garantisce m R -> (forall a, garantisce (k a) R) ->
  garantisce (bind m k) R.
Proof. intros HT. apply garantisce_bind_misto. intros s s' s''. apply HT. Qed.

Lemma garantisce_finalmente_misto
  (R1 R2 : SistemaProduttivo -> SistemaProduttivo -> Prop) (corpo : Processo A)
  (uscita : SistemaProduttivo -> SistemaProduttivo) :
  (forall s s' s'', R1 s s' -> R2 s' s'' -> R s s'') ->
  garantisce corpo R1 -> (forall s, R2 s (uscita s)) ->
  garantisce (finalmente corpo uscita) R.
Proof.
  intros Hc Hb Hu s a s'' H. unfold finalmente in H.
  destruct (corpo s) as [a' s'| | |] eqn:Ec; try discriminate H.
  injection H as _ <-. eapply Hc; [eapply Hb, Ec | apply Hu].
Qed.

Lemma garantisce_finalmente (corpo : Processo A)
  (uscita : SistemaProduttivo -> SistemaProduttivo) :
  Transitive R ->
  garantisce corpo R -> (forall s, R s (uscita s)) ->
  garantisce (finalmente corpo uscita) R.
Proof.
  intros HT. apply garantisce_finalmente_misto. intros s s' s''. apply HT.
Qed.

Lemma garantisce_implica (R' : SistemaProduttivo -> SistemaProduttivo -> Prop)
  (m : Processo A) :
  (forall s s', R' s s' -> R s s') -> garantisce m R' -> garantisce m R.
Proof. intros Hi Hm s a s' H. eapply Hi, Hm, H. Qed.

End Garantisce.

(** Splits a process along its structure, for a reflexive and transitive
    guarantee.  [noto] closes the sub-processes already dealt with, [foglia]
    the state changes at the leaves. *)
Ltac scomponi noto foglia :=
  repeat first
    [ solve [noto]
    | apply garantisce_ret; [typeclasses eauto]
    | apply garantisce_leggi; [typeclasses eauto]
    | apply garantisce_solleva
    | apply garantisce_esaurito
    | apply garantisce_blocca
    | apply garantisce_bind; [typeclasses eauto | | intros ?]
    | apply garantisce_finalmente; [typeclasses eauto | | intros ?; solve [foglia]]
    | apply garantisce_modifica; intros ?; solve [foglia]
    | match goal with
      | |- garantisce (if ?b then _ else _) _ => destruct b eqn:?
      | |- garantisce (match ?x with _ => _ end) _ => destruct x eqn:?
      | |- garantisce (let (_, _) := ?x in _) _ => destruct x eqn:?
      end ].

(** The definitions a process is written with, opened up to the kernel
    primitives. *)
Ltac apri :=
  unfold rng_random, rng_randint, rng_uniform, store_put, store_get,
    ordine_di, ambiente_now, aggiorna_ordine, aggiorna_macchina,
    aggiorna_operatore, richiedi_accesso, tempo_di, segna_completamento,
    deposita_se_presente, preleva_componente;
  cbv zeta.

(** ** Guarantees over every way a run can end *)

Section Assicura.

Context {A B : Type}.
Variable F : Fine -> bool.
Hypothesis F_fatto : F FineFatto = true.
Variable R : SistemaProduttivo -> SistemaProduttivo -> Prop.

Lemma assicura_ret (a : A) : Reflexive R -> assicura F (ret a) R.
Proof. intros HR s _. apply HR. Qed.

Lemma assicura_leggi (f : SistemaProduttivo -> A) :
  Reflexive R -> assicura F (leggi f) R.
Proof. intros HR s _. apply HR. Qed.

Lemma assicura_solleva (e : Eccezione) : Reflexive R -> assicura F (@solleva A e) R.
Proof. intros HR s _. apply HR. Qed.

Lemma assicura_esaurito : Reflexive R -> assicura F (@esaurito A) R.
Proof. intros HR s _. apply HR. Qed.

Lemma assicura_blocca : Reflexive R -> assicura F (@blocca A) R.
Proof. intros HR s _. apply HR. Qed.

Lemma assicura_modifica (f : SistemaProduttivo -> SistemaProduttivo) :
  (forall s, R s (f s)) -> assicura F (modifica f) R.
Proof. intros Hf s _. apply Hf. Qed.

Lemma assicura_bind (m : Processo A) (k : A -> Processo B) :
  Transitive R ->
  assicura F m R -> (forall a, assicura F (k a) R) ->
  assicura F (bind m k) R.
Proof.
  intros HT Hm Hk s. unfold bind.
  specialize (Hm s). destruct (m s) as [a s'| s' | e s' | s'] eqn:Em; simpl in *.
  - intros HF. eapply HT; [apply Hm, F_fatto | apply Hk, HF].
  - exact Hm.
  - exact Hm.
  - exact Hm.
Qed.

Lemma assicura_finalmente (corpo : Processo A)
  (uscita : SistemaProduttivo -> SistemaProduttivo) :
  Transitive R ->
  assicura F corpo R -> (forall s, R s (uscita s)) ->
  assicura F (finalmente corpo uscita) R.
Proof.
  intros HT Hc Hu s. unfold finalmente.
  specialize (Hc s). destruct (corpo s) as [a s'| s' | e s' | s'] eqn:Ec; simpl in *.
  - intros HF. eapply HT; [apply Hc, F_fatto | apply Hu].
  - exact Hc.
  - intros HF. eapply HT; [apply Hc, HF | apply Hu].
  - exact Hc.
Qed.

Lemma assicura_garantisce (m : Processo A) : assicura F m R -> garantisce m R.
Proof.
  intros Hm s a s' E. specialize (Hm s). rewrite E in Hm. apply Hm, F_fatto.
Qed.

End Assicura.

(** Splits a process along its structure, as [scomponi] does, for a
    guarantee over the endings [F] admits. *)
Ltac smonta noto foglia :=
  repeat first
    [ solve [noto]
    | apply assicura_ret; [typeclasses eauto]
    | apply assicura_leggi; [typeclasses eauto]
    | apply assicura_solleva; [typeclasses eauto]
    | apply assicura_esaurito; [typeclasses eauto]
    | apply assicura_blocca; [typeclasses eauto]
    | apply assicura_bind; [reflexivity | typeclasses eauto | | intros ?]
    | apply assicura_finalmente;
        [reflexivity | typeclasses eauto | | intros ?; solve [foglia]]
    | apply assicura_modifica; intros ?; solve [foglia]
    | match goal with
      | |- assicura _ (if ?b then _ else _) _ => destruct b eqn:?
      | |- assicura _ (match ?x with _ => _ end) _ => destruct x eqn:?
      | |- assicura _ (let (_, _) := ?x in _) _ => destruct x eqn:?
      end ].

(** ** The clock does not run backwards *)

(** [tempo_avanti d]: at least [d] minutes have passed. *)
Definition tempo_avanti (d : Q) (s s' : SistemaProduttivo) : Prop :=
  env_now (ambiente s) + d <= env_now (ambiente s').

#[global] Instance tempo_avanti_riflessiva : Reflexive (tempo_avanti 0).
Proof. intros s. unfold tempo_avanti. lra. Qed.

#[global] Instance tempo_avanti_transitiva : Transitive (tempo_avanti 0).
Proof. intros s s' s''. unfold tempo_avanti. lra. Qed.

Lemma tempo_bind_dopo {A B} (d : Q) (m : Processo A) (k : A -> Processo B) :
  garantisce m (tempo_avanti 0) -> (forall a, garantisce (k a) (tempo_avanti d)) ->
  garantisce (bind m k) (tempo_avanti d).
Proof.
  apply garantisce_bind_misto. unfold tempo_avanti. intros s s' s''. lra.
Qed.

Lemma tempo_bind_prima {A B} (d : Q) (m : Processo A) (k : A -> Processo B) :
  garantisce m (tempo_avanti d) -> (forall a, garantisce (k a) (tempo_avanti 0)) ->
  garantisce (bind m k) (tempo_avanti d).
Proof.
  apply garantisce_bind_misto. unfold tempo_avanti. intros s s' s''. lra.
Qed.

Lemma tempo_finalmente {A} (d : Q) (corpo : Processo A)
  (uscita : SistemaProduttivo -> SistemaProduttivo) :
  garantisce corpo (tempo_avanti d) ->
  (forall s, env_now (ambiente (uscita s)) = env_now (ambiente s)) ->
  garantisce (finalmente corpo uscita) (tempo_avanti d).
Proof.
  intros Hc Hu.
  apply garantisce_finalmente_misto with (R1 := tempo_avanti d) (R2 := tempo_avanti 0).
  - unfold tempo_avanti. intros s s' s''. lra.
  - exact Hc.
  - intros s. unfold tempo_avanti. rewrite Hu. lra.
Qed.

Lemma tempo_avanti_meno {A} (d d' : Q) (m : Processo A) :
  d' <= d -> garantisce m (tempo_avanti d) -> garantisce m (tempo_avanti d').
Proof.
  intros Hd. apply garantisce_implica. unfold tempo_avanti. intros s s'. lra.
Qed.

Lemma ltb_false_le (a b : Q) : Py.ltb a b = false -> b <= a.
Proof.
  unfold Py.ltb. intros H. apply negb_false_iff in H. now apply Qle_bool_iff.
Qed.

Lemma ltb_true_lt (a b : Q) : Py.ltb a b = true -> a < b.
Proof.
  unfold Py.ltb. intros H. apply negb_true_iff in H.
  apply Qnot_le_lt. intros Hle. apply Qle_bool_iff in Hle. congruence.
Qed.

Lemma max_soglia (a b : Q) : a <= Py.max a b.
Proof.
  unfold Py.max. destruct (Py.ltb a b) eqn:E.
  - apply ltb_true_lt in E. lra.
  - lra.
Qed.

Lemma tempo_timeout_pieno (d : Q) : garantisce (timeout d) (tempo_avanti d).
Proof.
  unfold timeout. destruct (Py.ltb d 0) eqn:E.
  - apply garantisce_solleva.
  - apply garantisce_modifica. intros s. unfold tempo_avanti. simpl. lra.
Qed.

Lemma tempo_timeout (d : Q) : garantisce (timeout d) (tempo_avanti 0).
Proof.
  unfold timeout. destruct (Py.ltb d 0) eqn:E.
  - apply garantisce_solleva.
  - apply ltb_false_le in E. apply garantisce_modifica.
    intros s. unfold tempo_avanti. simpl. lra.
Qed.

Ltac orologio_fermo :=
  unfold tempo_avanti;
  repeat match goal with
         | |- context [con_deposito_items ?d] => is_var d; destruct d
         end;
  simpl; lra.

Section Orologio.

Variable attesa_coda : nat -> Q.
Variable giri : nat.
Hypothesis attesa_non_negativa : forall n, 0 <= attesa_coda n.

Lemma tempo_attendi_richiesta r :
  garantisce (attendi_richiesta attesa_coda r) (tempo_avanti 0).
Proof.
  apply garantisce_modifica. intros s. unfold tempo_avanti. simpl.
  specialize (attesa_non_negativa (env_richieste (ambiente s))). lra.
Qed.

Lemma tempo_attendi_turno_ciclo n cfg :
  garantisce (attendi_turno_ciclo n cfg) (tempo_avanti 0).
Proof.
  induction n as [|n IH]; simpl.
  - apply garantisce_esaurito.
  - apri. scomponi ltac:(first [apply tempo_timeout | exact IH]) orologio_fermo.
Qed.

Lemma tempo_attendi_turno_lavorativo cfg :
  garantisce (attendi_turno_lavorativo giri cfg) (tempo_avanti 0).
Proof. apply tempo_attendi_turno_ciclo. Qed.

Lemma tempo_avanza_tempo_ciclo n durata cfg :
  garantisce (avanza_tempo_ciclo giri n durata cfg) (tempo_avanti 0).
Proof.
  revert durata. induction n as [|n IH]; intros durata; simpl.
  - destruct (Py.ltb _ _); [apply garantisce_esaurito | apply garantisce_ret; typeclasses eauto].
  - apri.
    scomponi ltac:(first [apply tempo_timeout | apply IH
                         | apply tempo_attendi_turno_lavorativo]) orologio_fermo.
Qed.

Lemma tempo_avanza_tempo_lavorativo durata cfg :
  garantisce (avanza_tempo_lavorativo giri durata cfg) (tempo_avanti 0).
Proof. apply tempo_avanza_tempo_ciclo. Qed.

Ltac noto_tempo :=
  first [ apply tempo_timeout | apply tempo_attendi_richiesta
        | apply tempo_attendi_turno_lavorativo
        | apply tempo_avanza_tempo_lavorativo ].

Ltac passo_tempo := apri; scomponi noto_tempo orologio_fermo.

Lemma tempo_fase_setup o m : garantisce (fase_setup o m) (tempo_avanti 0).
Proof. unfold fase_setup. passo_tempo. Qed.

Lemma tempo_fase_guasto m : garantisce (fase_guasto giri m) (tempo_avanti 0).
Proof. unfold fase_guasto. passo_tempo. Qed.

Lemma tempo_fase_registrazione o m d t :
  garantisce (fase_registrazione o m d t) (tempo_avanti 0).
Proof. unfold fase_registrazione. passo_tempo. Qed.

(** Processing takes at least the floor of a thousandth of a minute. *)
Lemma tempo_fase_lavorazione m d t v p :
  garantisce (fase_lavorazione attesa_coda giri m d t v p) (tempo_avanti (1 # 1000)).
Proof.
  unfold fase_lavorazione. destruct t as [tipo|]; cbv zeta.
  - apply tempo_bind_dopo; [passo_tempo | intros _].
    apply tempo_finalmente; [|reflexivity].
    apply tempo_bind_dopo; [passo_tempo | intros _].
    apply tempo_bind_dopo; [passo_tempo | intros cfg].
    apply tempo_bind_dopo; [passo_tempo | intros _].
    apply tempo_bind_dopo; [passo_tempo | intros u].
    apply tempo_bind_prima; [|intros _; passo_tempo].
    eapply tempo_avanti_meno; [|apply tempo_timeout_pieno]. apply max_soglia.
  - apply tempo_bind_dopo; [passo_tempo | intros cfg].
    apply tempo_bind_dopo; [passo_tempo | intros u].
    apply tempo_bind_prima; [|intros _; passo_tempo].
    eapply tempo_avanti_meno; [|apply tempo_timeout_pieno]. apply max_soglia.
Qed.

(** One operation, whatever happens in it, moves the clock on by at least a
    thousandth of a minute. *)
Lemma tempo_esegui_operazione o m d t v :
  garantisce (esegui_operazione attesa_coda giri o m d t v) (tempo_avanti (1 # 1000)).
Proof.
  unfold esegui_operazione. cbv zeta.
  apply tempo_bind_dopo; [passo_tempo | intros cfg].
  apply tempo_bind_dopo; [passo_tempo | intros _].
  apply tempo_bind_dopo; [passo_tempo | intros pol].
  apply tempo_bind_dopo; [passo_tempo | intros ord].
  apply tempo_bind_dopo; [passo_tempo | intros _].
  apply tempo_finalmente; [|reflexivity].
  apply tempo_bind_dopo; [passo_tempo | intros _].
  apply tempo_bind_dopo; [apply tempo_fase_setup | intros _].
  apply tempo_bind_dopo; [passo_tempo | intros _].
  apply tempo_bind_dopo; [apply tempo_fase_guasto | intros _].
  apply tempo_bind_prima; [apply tempo_fase_lavorazione | intros r].
  apply tempo_fase_registrazione.
Qed.

Lemma tempo_esegui_operazione_0 o m d t v :
  garantisce (esegui_operazione attesa_coda giri o m d t v) (tempo_avanti 0).
Proof.
  eapply tempo_avanti_meno; [|apply tempo_esegui_operazione]. lra.
Qed.

Ltac noto_tempo' :=
  first [ noto_tempo | apply tempo_esegui_operazione_0 ].

Lemma tempo_gestisci_rilavorazione o :
  garantisce (gestisci_rilavorazione attesa_coda giri o) (tempo_avanti 0).
Proof. unfold gestisci_rilavorazione. apri. scomponi noto_tempo' orologio_fermo. Qed.

Lemma tempo_StrategiaRD01_prelievo o :
  garantisce (StrategiaRD01_prelievo o) (tempo_avanti 0).
Proof. unfold StrategiaRD01_prelievo. apri. scomponi noto_tempo' orologio_fermo. Qed.

Ltac noto_strategia :=
  first [ noto_tempo' | apply tempo_gestisci_rilavorazione
        | apply tempo_StrategiaRD01_prelievo ].

(** Every routing contains an operation, so a completed routing has moved
    the clock on. *)
Lemma tempo_esegui_processo st o :
  garantisce (esegui_processo attesa_coda giri st o) (tempo_avanti (1 # 1000)).
Proof.
  destruct st; simpl.
  - unfold StrategiaFL01_esegui_processo.
    apply tempo_bind_dopo; [passo_tempo | intros tempi].
    apply tempo_bind_dopo; [passo_tempo | intros d].
    apply tempo_bind_prima; [apply tempo_esegui_operazione | intros _].
    apri. scomponi noto_strategia orologio_fermo.
  - unfold StrategiaPN03_esegui_processo.
    apply tempo_bind_dopo; [passo_tempo | intros tempi].
    apply tempo_bind_dopo; [passo_tempo | intros d].
    apply tempo_bind_prima; [apply tempo_esegui_operazione | intros _].
    apri. scomponi noto_strategia orologio_fermo.
  - unfold StrategiaIN07_esegui_processo.
    apply tempo_bind_dopo; [passo_tempo | intros tempi].
    apply tempo_bind_dopo; [passo_tempo | intros d].
    apply tempo_bind_prima; [apply tempo_esegui_operazione | intros _].
    apri. scomponi noto_strategia orologio_fermo.
  - unfold StrategiaRD01_esegui_processo.
    apply tempo_bind_dopo; [passo_tempo | intros tempi].
    apply tempo_bind_dopo; [apply tempo_StrategiaRD01_prelievo | intros _].
    apply tempo_bind_dopo; [passo_tempo | intros d].
    apply tempo_bind_prima; [apply tempo_esegui_operazione | intros _].
    apri. scomponi noto_strategia orologio_fermo.
Qed.

Lemma tempo_StrategiaRD01_lavorazioni tempi o :
  garantisce (StrategiaRD01_lavorazioni attesa_coda giri tempi o)
    (tempo_avanti (1 # 1000)).
Proof.
  unfold StrategiaRD01_lavorazioni.
  apply tempo_bind_dopo; [passo_tempo | intros d].
  apply tempo_bind_prima; [apply tempo_esegui_operazione | intros _].
  apri. scomponi noto_strategia orologio_fermo.
Qed.

End Orologio.

(** The clock of an assembly that waits: a withdrawal takes no time, and a
    suspension does not take the clock back. *)
Lemma tempo_preleva_con_attesa p o (s s' : SistemaProduttivo) :
  preleva_con_attesa p o s s' -> tempo_avanti 0 s s'.
Proof.
  assert (H : garantisce (preleva_componente p o) (tempo_avanti 0))
    by (apri; scomponi fail orologio_fermo).
  intros [s1 s2 E | s1 sr s2 _ [Hs _] E].
  - exact (H s1 tt s2 E).
  - pose proof (H sr tt s2 E) as Ht. unfold tempo_avanti in *. lra.
Qed.

Lemma tempo_prelievo_con_attese o (s s' : SistemaProduttivo) :
  prelievo_con_attese o s s' -> tempo_avanti 0 s s'.
Proof.
  intros (s1 & H1 & H2).
  assert (T1 : tempo_avanti 0 s s1).
  { destruct (magazzino_intermedio s FL_01).
    - apply tempo_preleva_con_attesa in H1. exact H1.
    - subst s1. reflexivity. }
  assert (T2 : tempo_avanti 0 s1 s').
  { destruct (magazzino_intermedio s1 IN_07).
    - destruct H2 as (s2 & Ha & Hb).
      apply tempo_preleva_con_attesa in Ha, Hb. etransitivity; eassumption.
    - subst s'. reflexivity. }
  etransitivity; eassumption.
Qed.

(** ** What a run leaves untouched in the work orders *)

(** [conserva_ordini campo]: the field [campo] of every work order is what
    it was. *)
Definition conserva_ordini {X} (campo : OrdineDiLavoro -> X)
  (s s' : SistemaProduttivo) : Prop :=
  forall r, campo (oggetti s' r) = campo (oggetti s r).

#[global] Instance conserva_ordini_riflessiva {X} (campo : OrdineDiLavoro -> X) :
  Reflexive (conserva_ordini campo).
Proof. intros s r. reflexivity. Qed.

#[global] Instance conserva_ordini_transitiva {X} (campo : OrdineDiLavoro -> X) :
  Transitive (conserva_ordini campo).
Proof. intros s s' s'' H1 H2 r. rewrite H2. apply H1. Qed.

Ltac ordini_intatti :=
  unfold conserva_ordini;
  repeat match goal with
         | |- context [con_deposito_items ?d] => is_var d; destruct d
         end;
  intros ?;
  first [ reflexivity
        | simpl;
          repeat match goal with
                 | |- context [decide ?P] => destruct (decide P); subst
                 end;
          reflexivity ].

Lemma ordini_timeout {X} (campo : OrdineDiLavoro -> X) (d : Q) :
  garantisce (timeout d) (conserva_ordini campo).
Proof.
  unfold timeout. destruct (Py.ltb d 0).
  - apply garantisce_solleva.
  - apply garantisce_modifica. intros s r. reflexivity.
Qed.

(** What holds at the end of a run, whatever it started from. *)
Definition alla_fine (P : SistemaProduttivo -> Prop)
  (s s' : SistemaProduttivo) : Prop := P s'.

Lemma fine_bind {A B} (P : SistemaProduttivo -> Prop) (m : Processo A)
  (k : A -> Processo B) :
  (forall a, garantisce (k a) (alla_fine P)) -> garantisce (bind m k) (alla_fine P).
Proof.
  intros Hk.
  apply garantisce_bind_misto with (R1 := fun _ _ => True) (R2 := alla_fine P).
  - intros s s' s'' _ H. exact H.
  - intros s a s' _. exact I.
  - exact Hk.
Qed.

Section Ordini.

Variable attesa_coda : nat -> Q.
Variable giri : nat.

Lemma ordini_attendi_turno_ciclo {X} (campo : OrdineDiLavoro -> X) n cfg :
  garantisce (attendi_turno_ciclo n cfg) (conserva_ordini campo).
Proof.
  induction n as [|n IH]; simpl.
  - apply garantisce_esaurito.
  - apri. scomponi ltac:(first [exact IH | apply ordini_timeout]) ordini_intatti.
Qed.

Lemma ordini_avanza_tempo_ciclo {X} (campo : OrdineDiLavoro -> X) n durata cfg :
  garantisce (avanza_tempo_ciclo giri n durata cfg) (conserva_ordini campo).
Proof.
  revert durata. induction n as [|n IH]; intros durata; simpl.
  - destruct (Py.ltb _ _); [apply garantisce_esaurito | apply garantisce_ret; typeclasses eauto].
  - apri. unfold attendi_turno_lavorativo.
    scomponi ltac:(first [apply IH | apply ordini_attendi_turno_ciclo
                         | apply ordini_timeout]) ordini_intatti.
Qed.

Ltac noto_ordini :=
  first [ apply ordini_attendi_turno_ciclo | apply ordini_avanza_tempo_ciclo
        | apply ordini_timeout ].

(** An operation adds to the history and to the log of its order and to
    nothing else of it. *)
Lemma ordini_esegui_operazione {X} (campo : OrdineDiLavoro -> X) o m d t v :
  (forall f x, campo (traccia_fase f x) = campo x) ->
  (forall l x, campo (aggiungi_lavorazione l x) = campo x) ->
  garantisce (esegui_operazione attesa_coda giri o m d t v) (conserva_ordini campo).
Proof.
  intros Hf Hl.
  unfold esegui_operazione, fase_setup, fase_guasto, fase_lavorazione,
    fase_registrazione.
  apri.
  unfold attendi_turno_lavorativo, avanza_tempo_lavorativo, attendi_richiesta.
  scomponi noto_ordini
    ltac:(first [ ordini_intatti
                | intros r; simpl; destruct (decide _); subst; [|reflexivity];
                  first [apply Hf | apply Hl] ]).
Qed.

Lemma creazione_esegui_processo st o :
  garantisce (esegui_processo attesa_coda giri st o) (conserva_ordini tempo_creazione).
Proof.
  assert (Hop : forall o m d t v,
    garantisce (esegui_operazione attesa_coda giri o m d t v)
      (conserva_ordini tempo_creazione))
    by (intros; apply ordini_esegui_operazione; reflexivity).
  destruct st; simpl;
    unfold StrategiaFL01_esegui_processo, StrategiaPN03_esegui_processo,
      StrategiaIN07_esegui_processo, StrategiaRD01_esegui_processo,
      StrategiaRD01_prelievo, gestisci_rilavorazione;
    apri; scomponi ltac:(first [apply Hop | apply ordini_timeout]) ordini_intatti.
Qed.

(** A routing ends by stamping its order with the time on the clock. *)
Lemma fine_segna_completamento o :
  garantisce (segna_completamento o)
    (alla_fine (fun s => tempo_completamento (oggetti s o) = Some (env_now (ambiente s)))).
Proof.
  intros s a s' H. unfold segna_completamento, ambiente_now, aggiorna_ordine in H.
  injection H as _ <-. unfold alla_fine. simpl.
  destruct (decide (o = o)); [reflexivity | congruence].
Qed.

Lemma fine_esegui_processo st o :
  garantisce (esegui_processo attesa_coda giri st o)
    (alla_fine (fun s => tempo_completamento (oggetti s o) = Some (env_now (ambiente s)))).
Proof.
  destruct st; simpl;
    unfold StrategiaFL01_esegui_processo, StrategiaPN03_esegui_processo,
      StrategiaIN07_esegui_processo, StrategiaRD01_esegui_processo;
    repeat first [ apply fine_segna_completamento | apply fine_bind; intros ? ].
Qed.

(** The operations of an assembly and its completion leave alone what an
    operation and the completion time leave alone. *)
Lemma ordini_StrategiaRD01_lavorazioni {X} (campo : OrdineDiLavoro -> X) tempi o :
  (forall f x, campo (traccia_fase f x) = campo x) ->
  (forall l x, campo (aggiungi_lavorazione l x) = campo x) ->
  (forall t x, campo (con_tempo_completamento t x) = campo x) ->
  garantisce (StrategiaRD01_lavorazioni attesa_coda giri tempi o)
    (conserva_ordini campo).
Proof.
  intros Hf Hl Hc.
  assert (Hop : forall o m d t v,
    garantisce (esegui_operazione attesa_coda giri o m d t v)
      (conserva_ordini campo))
    by (intros; apply ordini_esegui_operazione; assumption).
  unfold StrategiaRD01_lavorazioni. apri.
  scomponi ltac:(apply Hop)
    ltac:(first [ ordini_intatti
                | intros r; simpl; destruct (decide _); subst; [apply Hc | reflexivity] ]).
Qed.

Lemma fine_StrategiaRD01_lavorazioni tempi o :
  garantisce (StrategiaRD01_lavorazioni attesa_coda giri tempi o)
    (alla_fine (fun s => tempo_completamento (oggetti s o) = Some (env_now (ambiente s)))).
Proof.
  unfold StrategiaRD01_lavorazioni.
  repeat first [ apply fine_segna_completamento | apply fine_bind; intros ? ].
Qed.

End Ordini.

(** [campo_ordine campo o]: the field [campo] of order [o] is what it was. *)
Definition campo_ordine {X} (campo : OrdineDiLavoro -> X) (o : Rif)
  (s s' : SistemaProduttivo) : Prop :=
  campo (oggetti s' o) = campo (oggetti s o).

(** The withdrawal of an assembly, with its waits, changes of its order only
    the list of the components consumed. *)
Lemma campo_preleva_con_attesa {X} (campo : OrdineDiLavoro -> X) p o
  (s s' : SistemaProduttivo) :
  (forall c x, campo (aggiungi_componente c x) = campo x) ->
  preleva_con_attesa p o s s' -> campo_ordine campo o s s'.
Proof.
  intros Hc.
  assert (H : garantisce (preleva_componente p o) (campo_ordine campo o)).
  { intros s1 a s2 E. unfold preleva_componente, store_get, bind, leggi in E.
    destruct (deposito_items (MagazzinoIntermedio p) s1) as [[|c l]|];
      try discriminate E.
    unfold aggiorna_ordine, modifica, ret in E. injection E as _ <-.
    unfold campo_ordine. simpl.
    destruct (decide (o = o)) as [_|N]; [apply Hc | congruence]. }
  intros [s1 s2 E | s1 sr s2 _ [_ Hs] E]; unfold campo_ordine.
  - exact (H s1 tt s2 E).
  - rewrite (H sr tt s2 E), Hs. reflexivity.
Qed.

Lemma campo_prelievo_con_attese {X} (campo : OrdineDiLavoro -> X) o
  (s s' : SistemaProduttivo) :
  (forall c x, campo (aggiungi_componente c x) = campo x) ->
  prelievo_con_attese o s s' -> campo_ordine campo o s s'.
Proof.
  intros Hc (s1 & H1 & H2). unfold campo_ordine.
  assert (T1 : campo (oggetti s1 o) = campo (oggetti s o)).
  { destruct (magazzino_intermedio s FL_01).
    - exact (campo_preleva_con_attesa campo _ _ _ _ Hc H1).
    - subst s1. reflexivity. }
  destruct (magazzino_intermedio s1 IN_07).
  - destruct H2 as (s2 & Ha & Hb).
    rewrite (campo_preleva_con_attesa campo _ _ _ _ Hc Hb),
      (campo_preleva_con_attesa campo _ _ _ _ Hc Ha).
    exact T1.
  - subst s'. exact T1.
Qed.

(** ** Completion and lead time *)

Lemma truthy_positivo (x : Q) : 0 < x -> Py.truthy x = true.
Proof.
  intros Hx. unfold Py.truthy. apply negb_true_iff.
  destruct (Qeq_bool x 0) eqn:E; [|reflexivity].
  apply Qeq_bool_iff in E. lra.
Qed.

(** What a routing that has run to its end has done to the clock and to its
    order, waits included. *)
Lemma esito_routing_completato (attesa_coda : nat -> Q) (giri : nat)
  (st : Strategia) (o : Rif) (s s' : SistemaProduttivo) :
  (forall n, 0 <= attesa_coda n) ->
  routing_completato attesa_coda giri st o s s' ->
  tempo_avanti (1 # 1000) s s'
  /\ tempo_creazione (oggetti s' o) = tempo_creazione (oggetti s o)
  /\ tempo_completamento (oggetti s' o) = Some (env_now (ambiente s')).
Proof.
  intros Hw [H | [_ (s1 & Hp & Hl)]].
  - split; [exact (tempo_esegui_processo attesa_coda giri Hw st o s tt s' H)|].
    split; [exact (creazione_esegui_processo attesa_coda giri st o s tt s' H o)|].
    exact (fine_esegui_processo attesa_coda giri st o s tt s' H).
  - pose proof (tempo_prelievo_con_attese o s s1 Hp) as T1.
    pose proof (tempo_StrategiaRD01_lavorazioni attesa_coda giri Hw _ o s1 tt s' Hl) as T2.
    pose proof (campo_prelievo_con_attese tempo_creazione o s s1
                  (fun c x => eq_refl) Hp) as K1.
    pose proof (ordini_StrategiaRD01_lavorazioni attesa_coda giri tempo_creazione _ o
                  (fun f x => eq_refl) (fun l x => eq_refl) (fun t x => eq_refl)
                  s1 tt s' Hl o) as K2.
    unfold tempo_avanti, campo_ordine in *. simpl in K2.
    split; [lra|]. split; [congruence|].
    exact (fine_StrategiaRD01_lavorazioni attesa_coda giri _ o s1 tt s' Hl).
Qed.

(** A run that completes answers the state it leaves. *)
Lemma fatto_stato_finale (m : Processo unit) (s : SistemaProduttivo) :
  completato (m s) = true -> m s = Fatto tt (stato_finale (m s)).
Proof.
  destruct (m s) as [[] s'| | |]; simpl; intros H;
    [reflexivity | discriminate H | discriminate H | discriminate H].
Qed.

(** A withdrawal that is suspended has changed nothing. *)
Lemma preleva_componente_sospeso p o (s : SistemaProduttivo) :
  bloccato (preleva_componente p o s) = true ->
  preleva_componente p o s = Bloccato s.
Proof.
  unfold preleva_componente, store_get, bind, leggi.
  destruct (deposito_items (MagazzinoIntermedio p) s) as [[|c l]|];
    simpl; intros H; [reflexivity | discriminate H | discriminate H].
Qed.

(** The assembly of [assemblaggio_a_corto] runs to its end through a wait:
    it takes the flange and the gear in stock, is suspended on the gear
    store, and is resumed at 10:00 by the delivery of a second gear. *)
Lemma assemblaggio_rifornito_completato :
  routing_completato senza_attesa 10 StrategiaRD01 O assemblaggio_a_corto
    (stato_finale esito_assemblaggio_rifornito).
Proof.
  right. split; [reflexivity|].
  exists (stato_finale (preleva_componente IN_07 O assemblaggio_rifornito)).
  split; [| apply fatto_stato_finale; vm_compute; reflexivity].
  exists (stato_finale (preleva_componente FL_01 O assemblaggio_a_corto)). split.
  - destruct (magazzino_intermedio assemblaggio_a_corto FL_01) eqn:E;
      [| vm_compute in E; discriminate E].
    apply preleva_subito, fatto_stato_finale. vm_compute. reflexivity.
  - destruct (magazzino_intermedio
                (stato_finale (preleva_componente FL_01 O assemblaggio_a_corto)) IN_07)
      eqn:E; [| vm_compute in E; discriminate E].
    exists assemblaggio_sospeso. split.
    + apply preleva_subito, fatto_stato_finale. vm_compute. reflexivity.
    + apply preleva_alla_consegna with (sr := assemblaggio_rifornito).
      * apply preleva_componente_sospeso. vm_compute. reflexivity.
      * split; [vm_compute; intros C; discriminate C | vm_compute; reflexivity].
      * apply fatto_stato_finale. vm_compute. reflexivity.
Qed.

(** C6.  A work order whose routing runs to its end (in one stretch or, for
    an assembly, through the waits for its components), released no earlier
    than it was created, is stamped with a completion time strictly after
    its creation time, and its lead time is then the difference of the two. *)
Theorem completamento_dopo_creazione (attesa_coda : nat -> Q) (giri : nat)
  (st : Strategia) (o : Rif) (s s' : SistemaProduttivo) :
  (forall n, 0 <= attesa_coda n) ->
  0 <= env_now (ambiente s) ->
  tempo_creazione (oggetti s o) <= env_now (ambiente s) ->
  routing_completato attesa_coda giri st o s s' ->
  exists t,
    tempo_completamento (oggetti s' o) = Some t
    /\ tempo_creazione (oggetti s' o) < t
    /\ tempo_attraversamento (oggetti s' o) = Some (t - tempo_creazione (oggetti s' o)).
Proof.
  intros Hw H0 Hc H.
  destruct (esito_routing_completato attesa_coda giri st o s s' Hw H) as (Ht & Hk & Hf).
  unfold tempo_avanti in Ht.
  exists (env_now (ambiente s')). split; [exact Hf|]. split.
  - rewrite Hk. lra.
  - unfold tempo_attraversamento. rewrite Hf.
    rewrite truthy_positivo; [reflexivity | lra].
Qed.

Lemma completamento_dopo_creazione_witness :
  (forall n, 0 <= senza_attesa n)
  /\ 0 <= env_now (ambiente assemblaggio_a_corto)
  /\ tempo_creazione (oggetti assemblaggio_a_corto O)
     <= env_now (ambiente assemblaggio_a_corto)
  /\ routing_completato senza_attesa 10 StrategiaRD01 O assemblaggio_a_corto
       (stato_finale esito_assemblaggio_rifornito)
  /\ exists t,
       tempo_completamento (oggetti (stato_finale esito_assemblaggio_rifornito) O) = Some t
       /\ tempo_creazione (oggetti (stato_finale esito_assemblaggio_rifornito) O) < t
       /\ tempo_attraversamento (oggetti (stato_finale esito_assemblaggio_rifornito) O)
          = Some (t - tempo_creazione (oggetti (stato_finale esito_assemblaggio_rifornito) O)).
Proof.
  assert (H1 : forall n, 0 <= senza_attesa n) by (intros n; unfold senza_attesa; lra).
  assert (H2 : 0 <= env_now (ambiente assemblaggio_a_corto))
    by (vm_compute; discriminate).
  assert (H3 : tempo_creazione (oggetti assemblaggio_a_corto O)
               <= env_now (ambiente assemblaggio_a_corto))
    by (vm_compute; discriminate).
  exact (conj H1 (conj H2 (conj H3 (conj assemblaggio_rifornito_completato
           (completamento_dopo_creazione senza_attesa 10 StrategiaRD01
              O assemblaggio_a_corto (stato_finale esito_assemblaggio_rifornito)
              H1 H2 H3 assemblaggio_rifornito_completato))))).
Defined.

(** C9.  A completion time of zero is a completion time that has been set,
    and yet the lead-time accessor answers [None] for it: this is the state
    of the stock orders the constructor creates. *)
Theorem tempo_attraversamento_completamento_zero (o : OrdineDiLavoro) (t : Q) :
  tempo_completamento o = Some t ->
  t == 0 ->
  tempo_completamento o <> None /\ tempo_attraversamento o = None.
Proof.
  intros Hc Ht. split.
  - rewrite Hc. discriminate.
  - unfold tempo_attraversamento, Py.truthy. rewrite Hc.
    apply Qeq_bool_iff in Ht. rewrite Ht. reflexivity.
Qed.

Lemma tempo_attraversamento_completamento_zero_witness :
  tempo_completamento (ordine_scorta FL_01 0) = Some 0
  /\ 0 == 0
  /\ tempo_completamento (ordine_scorta FL_01 0) <> None
  /\ tempo_attraversamento (ordine_scorta FL_01 0) = None.
Proof.
  assert (H1 : tempo_completamento (ordine_scorta FL_01 0) = Some 0) by reflexivity.
  assert (H2 : 0 == 0) by reflexivity.
  destruct (tempo_attraversamento_completamento_zero (ordine_scorta FL_01 0) 0 H1 H2)
    as [H3 H4].
  exact (conj H1 (conj H2 (conj H3 H4))).
Defined.

(** ** Utilisation *)

(** C10.  [calcola_tasso_utilizzo] never divides by zero: a zero horizon or
    a zero capacity gives 0, anything else gives
    (processing + setup) / (horizon * capacity) * 100; time recorded as
    breakdown does not enter the figure. *)
Theorem calcola_tasso_utilizzo_totale (r : RisorsaProduttiva) (orizzonte : Q) :
  calcola_tasso_utilizzo r orizzonte = Quoziente (tasso_atteso r orizzonte)
  /\ forall durata,
       calcola_tasso_utilizzo (registra_tempo_utilizzo durata "guasto" r) orizzonte
       = calcola_tasso_utilizzo r orizzonte.
Proof.
  split.
  - unfold calcola_tasso_utilizzo, tasso_atteso, dividi.
    destruct (Qeq_bool orizzonte 0) eqn:Eh; [reflexivity|]. simpl.
    destruct (risorsa_capacity r =? 0)%Z eqn:Ec; [reflexivity|].
    destruct (Qeq_bool (orizzonte * inject_Z (risorsa_capacity r)) 0) eqn:Ep;
      [|reflexivity].
    exfalso. apply Qeq_bool_iff in Ep. apply Z.eqb_neq in Ec.
    apply Qeq_bool_neq in Eh.
    apply Qmult_integral in Ep. destruct Ep as [Ep|Ep]; [contradiction|].
    apply Ec. unfold Qeq, inject_Z in Ep. simpl in Ep. lia.
  - intros durata. reflexivity.
Qed.

(** ** Construction *)

(** C8.  A production system that has been constructed holds, in its
    intermediate warehouse, exactly 20 units of FL-01 and 40 units of IN-07,
    each created, due and completed at time 0; the first assembly can
    withdraw its components from this stock at once. *)
Theorem scorte_alla_costruzione (amb : Environment) (cal : option GestoreTempo)
  (strat : gmap string Strategia) (cfg : ConfigurazioneSimulazione)
  (g : Random) (pol : PoliticaSchedulazione) (s : SistemaProduttivo) :
  SistemaProduttivo_init amb cal strat cfg g pol = inr s ->
  exists fl ing,
    magazzino_intermedio s FL_01 = Some fl
    /\ magazzino_intermedio s IN_07 = Some ing
    /\ length fl = 20%nat
    /\ length ing = 40%nat
    /\ Forall (fun r => scorta_di FL_01 (oggetti s r)) fl
    /\ Forall (fun r => scorta_di IN_07 (oggetti s r)) ing
    /\ forall o, completato (StrategiaRD01_prelievo o s) = true.
Proof.
  unfold SistemaProduttivo_init.
  destruct (scorte_iniziali quantita_iniziali _ _) as [m mag] eqn:E.
  vm_compute in E. injection E as <- <-.
  destruct (prima_capacita_invalida _ _); [discriminate|].
  intros H. injection H as <-.
  exists (seq 0 20), (seq 20 40).
  split; [reflexivity|]. split; [reflexivity|].
  split; [reflexivity|]. split; [reflexivity|].
  split; [|split].
  - simpl seq. repeat (constructor; [repeat split|]). constructor.
  - simpl seq. repeat (constructor; [repeat split|]). constructor.
  - intros o. reflexivity.
Qed.

Lemma scorte_alla_costruzione_witness :
  SistemaProduttivo_init (ambiente_al_minuto 0) (Some calendario_2024)
    strategie_standard crea_configurazione_base (rng_costante (1 # 2)) FIFO
  = inr sistema_base
  /\ exists fl ing,
       magazzino_intermedio sistema_base FL_01 = Some fl
       /\ magazzino_intermedio sistema_base IN_07 = Some ing
       /\ length fl = 20%nat
       /\ length ing = 40%nat
       /\ Forall (fun r => scorta_di FL_01 (oggetti sistema_base r)) fl
       /\ Forall (fun r => scorta_di IN_07 (oggetti sistema_base r)) ing
       /\ forall o, completato (StrategiaRD01_prelievo o sistema_base) = true.
Proof.
  assert (H : SistemaProduttivo_init (ambiente_al_minuto 0) (Some calendario_2024)
                strategie_standard crea_configurazione_base (rng_costante (1 # 2)) FIFO
              = inr sistema_base)
    by (vm_compute; reflexivity).
  exact (conj H (scorte_alla_costruzione _ _ _ _ _ _ sistema_base H)).
Defined.

(** ** The trace of a run *)

#[global] Instance traccia_estesa_riflessiva P : Reflexive (traccia_estesa P).
Proof. intros s. exists []. split; [symmetry; apply app_nil_r | constructor]. Qed.

#[global] Instance traccia_estesa_transitiva P : Transitive (traccia_estesa P).
Proof.
  intros s s' s'' [l1 [E1 F1]] [l2 [E2 F2]]. exists (l1 ++ l2)%list. split.
  - rewrite E2, E1. symmetry. apply app_assoc.
  - apply Forall_app. split; assumption.
Qed.

Lemma traccia_intatta P (s s' : SistemaProduttivo) :
  env_traccia (ambiente s') = env_traccia (ambiente s) -> traccia_estesa P s s'.
Proof.
  intros E. exists []. split; [rewrite E; symmetry; apply app_nil_r | constructor].
Qed.

Lemma traccia_annota P e (s s' : SistemaProduttivo) :
  P e -> env_traccia (ambiente s') = env_traccia (ambiente s) ++ [e] ->
  traccia_estesa P s s'.
Proof.
  intros HP E. exists [e]. split; [exact E | repeat constructor; exact HP].
Qed.

Ltac traccia_foglia :=
  repeat match goal with
         | |- context [con_deposito_items ?d] => is_var d; destruct d
         end;
  first [ apply traccia_intatta; reflexivity
        | eapply traccia_annota; [| reflexivity]; exact I ].

Lemma traccia_timeout P d : P (EvTimeout d) -> garantisce (timeout d) (traccia_estesa P).
Proof.
  intros HP. unfold timeout. destruct (Py.ltb d 0).
  - apply garantisce_solleva.
  - apply garantisce_modifica. intros s.
    eapply traccia_annota; [exact HP | reflexivity].
Qed.

Lemma contiene_bind_prima {A B} e (m : Processo A) (k : A -> Processo B) :
  garantisce m (traccia_contiene e) ->
  (forall a, garantisce (k a) (traccia_estesa qualunque)) ->
  garantisce (bind m k) (traccia_contiene e).
Proof.
  apply garantisce_bind_misto.
  intros s s' s'' [l1 [E1 I1]] [l2 [E2 _]]. exists (l1 ++ l2)%list. split.
  - rewrite E2, E1. symmetry. apply app_assoc.
  - apply in_or_app. left. exact I1.
Qed.

Lemma contiene_bind_dopo {A B} e (m : Processo A) (k : A -> Processo B) :
  garantisce m (traccia_estesa qualunque) ->
  (forall a, garantisce (k a) (traccia_contiene e)) ->
  garantisce (bind m k) (traccia_contiene e).
Proof.
  apply garantisce_bind_misto.
  intros s s' s'' [l1 [E1 _]] [l2 [E2 I2]]. exists (l1 ++ l2)%list. split.
  - rewrite E2, E1. symmetry. apply app_assoc.
  - apply in_or_app. right. exact I2.
Qed.

Lemma contiene_finalmente {A} e (corpo : Processo A) uscita :
  garantisce corpo (traccia_contiene e) ->
  (forall s, traccia_estesa qualunque s (uscita s)) ->
  garantisce (finalmente corpo uscita) (traccia_contiene e).
Proof.
  apply garantisce_finalmente_misto.
  intros s s' s'' [l1 [E1 I1]] [l2 [E2 _]]. exists (l1 ++ l2)%list. split.
  - rewrite E2, E1. symmetry. apply app_assoc.
  - apply in_or_app. left. exact I1.
Qed.

Lemma estesa_indebolita {A} (P P' : Evento -> Prop) (m : Processo A) :
  (forall e, P e -> P' e) ->
  garantisce m (traccia_estesa P) -> garantisce m (traccia_estesa P').
Proof.
  intros HP. apply garantisce_implica. intros s s' [l [E F]].
  exists l. split; [exact E|]. eapply Forall_impl; [exact F | exact HP].
Qed.

Section Traccia.

Variable attesa_coda : nat -> Q.
Variable giri : nat.
Variable p : Z.

Lemma traccia_attendi_turno_ciclo n cfg :
  garantisce (attendi_turno_ciclo n cfg) (traccia_estesa (richiesta_con_priorita p)).
Proof.
  induction n as [|n IH]; simpl.
  - apply garantisce_esaurito.
  - apri.
    scomponi ltac:(first [exact IH | apply traccia_timeout; exact I]) traccia_foglia.
Qed.

Lemma traccia_avanza_tempo_ciclo n durata cfg :
  garantisce (avanza_tempo_ciclo giri n durata cfg) (traccia_estesa (richiesta_con_priorita p)).
Proof.
  revert durata. induction n as [|n IH]; intros durata; simpl.
  - destruct (Py.ltb _ _); [apply garantisce_esaurito | apply garantisce_ret; typeclasses eauto].
  - apri. unfold attendi_turno_lavorativo.
    scomponi ltac:(first [apply IH | apply traccia_attendi_turno_ciclo
                         | apply traccia_timeout; exact I]) traccia_foglia.
Qed.

Ltac noto_traccia :=
  first [ apply traccia_attendi_turno_ciclo | apply traccia_avanza_tempo_ciclo
        | apply traccia_timeout; exact I ].

Ltac passo_traccia :=
  apri; unfold attendi_turno_lavorativo, avanza_tempo_lavorativo, attendi_richiesta;
  scomponi noto_traccia traccia_foglia.

Lemma traccia_fase_setup o m : garantisce (fase_setup o m) (traccia_estesa (richiesta_con_priorita p)).
Proof. unfold fase_setup. passo_traccia. Qed.

Lemma traccia_fase_guasto m : garantisce (fase_guasto giri m) (traccia_estesa (richiesta_con_priorita p)).
Proof. unfold fase_guasto. passo_traccia. Qed.

Lemma traccia_fase_registrazione o m d t :
  garantisce (fase_registrazione o m d t) (traccia_estesa (richiesta_con_priorita p)).
Proof. unfold fase_registrazione. passo_traccia. Qed.

(** The operator, when one is needed, is requested with the priority the
    block was given. *)
Lemma traccia_fase_lavorazione m d t v :
  garantisce (fase_lavorazione attesa_coda giri m d t v p) (traccia_estesa (richiesta_con_priorita p)).
Proof.
  unfold fase_lavorazione. destruct t as [tipo|]; cbv zeta.
  - apply garantisce_bind; [typeclasses eauto | | intros _].
    + apply garantisce_modifica. intros s.
      eapply traccia_annota; [|reflexivity]. reflexivity.
    + passo_traccia.
  - passo_traccia.
Qed.

End Traccia.

Lemma bind_leggi {A B} (f : SistemaProduttivo -> A) (k : A -> Processo B) s :
  bind (leggi f) k s = k (f s) s.
Proof. reflexivity. Qed.

Lemma bind_fatto {A B} (m : Processo A) (k : A -> Processo B) s b s'' :
  bind m k s = Fatto b s'' ->
  exists a s', m s = Fatto a s' /\ k a s' = Fatto b s''.
Proof.
  unfold bind. destruct (m s) as [a s'| | |] eqn:E; try discriminate.
  intros H. exists a, s'. split; [reflexivity | exact H].
Qed.

#[global] Instance conserva_riflessiva {X} (campo : SistemaProduttivo -> X) :
  Reflexive (conserva campo).
Proof. intros s. reflexivity. Qed.

#[global] Instance conserva_transitiva {X} (campo : SistemaProduttivo -> X) :
  Transitive (conserva campo).
Proof. intros s s' s'' H1 H2. unfold conserva in *. congruence. Qed.

Lemma politica_timeout d : garantisce (timeout d) (conserva politica).
Proof.
  unfold timeout. destruct (Py.ltb d 0).
  - apply garantisce_solleva.
  - apply garantisce_modifica. intros s. reflexivity.
Qed.

Lemma politica_attendi_turno_ciclo n cfg :
  garantisce (attendi_turno_ciclo n cfg) (conserva politica).
Proof.
  induction n as [|n IH]; simpl.
  - apply garantisce_esaurito.
  - apri. scomponi ltac:(first [exact IH | apply politica_timeout]) ltac:(reflexivity).
Qed.

Lemma priorita_dipende_da_scadenza pol (o o' : OrdineDiLavoro) d :
  scadenza o' = scadenza o ->
  priorita_operazione pol o' d = priorita_operazione pol o d.
Proof. intros E. unfold priorita_operazione. rewrite E. reflexivity. Qed.

(** Every request an operation issues, for the machine and for the
    operator, carries the priority computed from the policy, the order and
    the base duration; the machine is requested, and so is an operator when
    the operation names one. *)
Lemma richieste_esegui_operazione attesa_coda giri o m d t v s s' :
  esegui_operazione attesa_coda giri o m d t v s = Fatto tt s' ->
  let p := priorita_operazione (politica s) (oggetti s o) d in
  exists l,
    env_traccia (ambiente s') = env_traccia (ambiente s) ++ l
    /\ Forall (richiesta_con_priorita p) l
    /\ In (EvRequest (Macchina m) p) l
    /\ (forall tipo, t = Some tipo -> exists tipo', In (EvRequest (Addetto tipo') p) l).
Proof.
  intros H p. unfold esegui_operazione in H.
  rewrite bind_leggi in H.
  apply bind_fatto in H as (u1 & s1 & E1 & H).
  rewrite bind_leggi in H. unfold ordine_di in H. rewrite bind_leggi in H.
  cbv zeta in H.
  assert (Hp : priorita_operazione (politica s1) (oggetti s1 o) d = p).
  { unfold p.
    rewrite (politica_attendi_turno_ciclo giri _ s u1 s1 E1).
    apply priorita_dipende_da_scadenza.
    apply (ordini_attendi_turno_ciclo scadenza giri _ s u1 s1 E1). }
  rewrite Hp in H.
  apply bind_fatto in H as (u2 & s2 & E2 & H).
  destruct (traccia_attendi_turno_ciclo p giri _ s u1 s1 E1) as (l1 & T1 & F1).
  unfold richiedi_accesso, modifica in E2. injection E2 as _ <-.
  match type of H with
  | finalmente ?corpo ?uscita _ = _ =>
      assert (G : garantisce (finalmente corpo uscita)
                    (traccia_estesa (richiesta_con_priorita p)))
  end.
  { apply garantisce_finalmente; [typeclasses eauto | | intros s0; traccia_foglia].
    apply garantisce_bind; [typeclasses eauto | | intros _].
    { unfold attendi_richiesta. apply garantisce_modifica. intros s0. traccia_foglia. }
    apply garantisce_bind; [typeclasses eauto | apply traccia_fase_setup | intros _].
    apply garantisce_bind; [typeclasses eauto
                           | apply traccia_attendi_turno_ciclo | intros _].
    apply garantisce_bind; [typeclasses eauto | apply traccia_fase_guasto | intros _].
    apply garantisce_bind; [typeclasses eauto
                           | apply traccia_fase_lavorazione | intros r].
    apply traccia_fase_registrazione. }
  assert (Gop : forall tipo, t = Some tipo ->
            exists tipo', traccia_contiene (EvRequest (Addetto tipo') p)
                            (annota (EvRequest (Macchina m) p) s1) s').
  { intros tipo ->.
    exists (if v && negb (bool_decide (tipo = SPECIALIZZATO)) then SPECIALIZZATO else tipo).
    revert H.
    match goal with
    | |- finalmente ?corpo ?uscita ?s0 = Fatto ?a ?s0' -> _ =>
        generalize s0' ; generalize a; generalize s0;
        change (garantisce (finalmente corpo uscita)
                  (traccia_contiene
                     (EvRequest
                        (Addetto (if v && negb (bool_decide (tipo = SPECIALIZZATO))
                                  then SPECIALIZZATO else tipo)) p)))
    end.
    apply contiene_finalmente; [|intros s0; traccia_foglia].
    apply contiene_bind_dopo; [|intros _].
    { unfold attendi_richiesta. apply garantisce_modifica. intros s0. traccia_foglia. }
    apply contiene_bind_dopo; [|intros _].
    { eapply estesa_indebolita; [|apply (traccia_fase_setup p)]. intros; exact I. }
    apply contiene_bind_dopo; [|intros _].
    { eapply estesa_indebolita; [|apply (traccia_attendi_turno_ciclo p)]. intros; exact I. }
    apply contiene_bind_dopo; [|intros _].
    { eapply estesa_indebolita; [|apply (traccia_fase_guasto giri p)]. intros; exact I. }
    apply contiene_bind_prima; [|intros r].
    2:{ eapply estesa_indebolita; [|apply (traccia_fase_registrazione p)]. intros; exact I. }
    unfold fase_lavorazione. cbv zeta.
    apply contiene_bind_prima; [|intros _].
    - unfold richiedi_accesso. apply garantisce_modifica. intros s0.
      exists [EvRequest
                (Addetto (if v && negb (bool_decide (tipo = SPECIALIZZATO))
                          then SPECIALIZZATO else tipo)) p].
      split; [reflexivity | left; reflexivity].
    - eapply estesa_indebolita with (P := richiesta_con_priorita p); [intros; exact I|].
      apri. unfold attendi_turno_lavorativo, attendi_richiesta.
      scomponi ltac:(first [ apply traccia_attendi_turno_ciclo
                           | apply traccia_timeout; exact I ]) traccia_foglia. }
  destruct (G _ _ _ H) as (l2 & T2 & F2). simpl in T2.
  exists (l1 ++ [EvRequest (Macchina m) p] ++ l2).
  split; [|split; [|split]].
  - rewrite T2, T1. rewrite <- !app_assoc. reflexivity.
  - apply Forall_app. split; [exact F1|].
    apply Forall_app. split; [repeat constructor | exact F2].
  - apply in_or_app. right. left. reflexivity.
  - intros tipo Ht. destruct (Gop tipo Ht) as (tipo' & l3 & T3 & I3).
    exists tipo'. simpl in T3.
    assert (l3 = l2) as ->.
    { rewrite T2 in T3. apply app_inv_head in T3. symmetry. exact T3. }
    apply in_or_app. right. right. exact I3.
Qed.

(** ** Priorities *)

Module PriorityResourceFacts.
Import PriorityResource.

Lemma precede_totale a b : precede a b = false -> precede b a = true.
Proof.
  unfold precede. intros H.
  apply orb_false_iff in H as [H1 H2].
  apply Z.ltb_ge in H1.
  destruct (ric_priorita a =? ric_priorita b)%Z eqn:E.
  - apply Z.eqb_eq in E. simpl in H2. apply Nat.leb_gt in H2.
    apply orb_true_iff. right. apply andb_true_iff. split.
    + apply Z.eqb_eq. lia.
    + apply Nat.leb_le. lia.
  - apply Z.eqb_neq in E. apply orb_true_iff. left. apply Z.ltb_lt. lia.
Qed.

Lemma precede_spec a b :
  precede a b = true <->
  (ric_priorita a < ric_priorita b)%Z
  \/ (ric_priorita a = ric_priorita b /\ (ric_arrivo a <= ric_arrivo b)%nat).
Proof.
  unfold precede. rewrite orb_true_iff, andb_true_iff.
  rewrite Z.ltb_lt, Z.eqb_eq, Nat.leb_le. reflexivity.
Qed.

Lemma precede_transitiva a b c :
  precede a b = true -> precede b c = true -> precede a c = true.
Proof. rewrite !precede_spec. lia. Qed.

Lemma accoda_In r coda x : In x (accoda r coda) <-> x = r \/ In x coda.
Proof.
  induction coda as [|y coda IH]; simpl.
  - intuition.
  - destruct (precede y r); simpl; [rewrite IH|]; intuition.
Qed.

Lemma accoda_ordinata r coda : Ordinata coda -> Ordinata (accoda r coda).
Proof.
  induction 1 as [|y coda Hy Hc IH]; simpl.
  - constructor; [intros x []|constructor].
  - destruct (precede y r) eqn:E.
    + constructor; [|exact IH]. intros x Hx.
      apply accoda_In in Hx as [->|Hx]; [exact E | apply Hy, Hx].
    + apply precede_totale in E. constructor; [|constructor; assumption].
      intros x [<-|Hx]; [exact E|].
      eapply precede_transitiva; [exact E | apply Hy, Hx].
Qed.

Lemma coda_da_ordinata richieste coda :
  Ordinata coda ->
  Ordinata (fold_left (fun c r => accoda r c) richieste coda)
  /\ forall x, In x (fold_left (fun c r => accoda r c) richieste coda)
               <-> In x coda \/ In x richieste.
Proof.
  revert coda. induction richieste as [|r richieste IH]; intros coda Hc; simpl.
  - split; [exact Hc | intuition].
  - destruct (IH (accoda r coda) (accoda_ordinata r coda Hc)) as [Ho Hi].
    split; [exact Ho|]. intros x. rewrite Hi, accoda_In. intuition.
Qed.

(** The request granted next is served no later than any request made. *)
Lemma prossima_minima richieste r :
  prossima (coda_di richieste) = Some r ->
  forall x, In x richieste -> precede r x = true.
Proof.
  unfold prossima, coda_di. intros H x Hx.
  destruct (coda_da_ordinata richieste [] ordinata_vuota) as [Ho Hi].
  destruct (fold_left _ richieste []) as [|y coda] eqn:E; [discriminate|].
  injection H as ->.
  assert (Hin : In x (r :: coda)) by (apply Hi; right; exact Hx).
  inversion Ho as [|? ? Hr _]; subst.
  destruct Hin as [<-|Hin]; [|apply Hr, Hin].
  apply precede_spec. right. split; [reflexivity | lia].
Qed.

End PriorityResourceFacts.

(** [int] keeps the integer part: it cuts the fraction off a non-negative
    value. *)
Lemma int_troncamento (x : Q) :
  0 <= x -> inject_Z (Py.int x) <= x /\ x < inject_Z (Py.int x) + 1.
Proof.
  destruct x as [n d]. unfold Py.int, Qle, Qlt, Qplus, inject_Z. simpl.
  intros Hn.
  pose proof (Z.quot_rem' n (Zpos d)) as Hq.
  pose proof (Z.rem_bound_pos n (Zpos d)) as Hr.
  nia.
Qed.

(** C5, as the code has it.  The priority of an operation is 0 under FIFO,
    the integer part of the base duration under SPT and the integer part of
    the due time under EDD (0 for a due time of zero); the machine, and the
    operator if there is one, are requested with that priority; and the
    kernel grants a freed unit to the request with the lowest value, the
    earliest arrival among equals. *)
Theorem priorita_per_politica (attesa_coda : nat -> Q) (giri : nat) (o : Rif)
  (m : TipoMacchinario) (d : Q) (t : option TipoOperatore) (v : bool)
  (s s' : SistemaProduttivo) :
  esegui_operazione attesa_coda giri o m d t v s = Fatto tt s' ->
  let p :=
    match politica s with
    | FIFO => 0%Z
    | SPT => Py.int d
    | EDD => if Py.truthy (scadenza (oggetti s o))
             then Py.int (scadenza (oggetti s o)) else 0%Z
    end in
  (exists l,
     env_traccia (ambiente s') = env_traccia (ambiente s) ++ l
     /\ Forall (richiesta_con_priorita p) l
     /\ In (EvRequest (Macchina m) p) l
     /\ (forall tipo, t = Some tipo -> exists tipo', In (EvRequest (Addetto tipo') p) l))
  /\ (forall x, 0 <= x -> inject_Z (Py.int x) <= x /\ x < inject_Z (Py.int x) + 1)
  /\ (forall richieste r,
        PriorityResource.prossima (PriorityResource.coda_di richieste) = Some r ->
        forall x, In x richieste ->
          (PriorityResource.ric_priorita r <= PriorityResource.ric_priorita x)%Z
          /\ (PriorityResource.ric_priorita x = PriorityResource.ric_priorita r ->
              (PriorityResource.ric_arrivo r <= PriorityResource.ric_arrivo x)%nat)).
Proof.
  intros H p. split; [|split].
  - exact (richieste_esegui_operazione attesa_coda giri o m d t v s s' H).
  - exact int_troncamento.
  - intros richieste r Hr x Hx.
    pose proof (PriorityResourceFacts.prossima_minima richieste r Hr x Hx) as Hp.
    apply PriorityResourceFacts.precede_spec in Hp. lia.
Qed.

Lemma priorita_per_politica_witness :
  esegui_operazione senza_attesa 10 O TRONCATRICE (21 # 2) (Some GENERICO) false taglio_spt
  = Fatto tt (stato_finale esito_taglio_spt)
  /\ exists l,
       env_traccia (ambiente (stato_finale esito_taglio_spt))
       = env_traccia (ambiente taglio_spt) ++ l
       /\ Forall (richiesta_con_priorita 10) l
       /\ In (EvRequest (Macchina TRONCATRICE) 10) l.
Proof.
  assert (H : esegui_operazione senza_attesa 10 O TRONCATRICE (21 # 2)
                (Some GENERICO) false taglio_spt
              = Fatto tt (stato_finale esito_taglio_spt))
    by (vm_compute; reflexivity).
  split; [exact H|].
  destruct (priorita_per_politica senza_attesa 10 O TRONCATRICE
              (21 # 2) (Some GENERICO) false taglio_spt
              (stato_finale esito_taglio_spt) H) as [[l (T & F & I & _)] _].
  exists l. split; [exact T|]. split; [exact F | exact I].
Defined.

(** C5 as stated fails: under SPT an operation with a base duration of ten
    minutes and a half requests its machine with priority 10, and under EDD
    an order due at minute 730.7 would be given priority 730; neither is
    the duration or the due time itself. *)
Lemma priorita_spt_troncata :
  In (EvRequest (Macchina TRONCATRICE) 10)
    (env_traccia (ambiente (stato_finale esito_taglio_spt)))
  /\ ~ inject_Z 10 == priorita_dichiarata SPT (oggetti taglio_spt O) (21 # 2)
  /\ ~ inject_Z (priorita_operazione EDD (oggetti taglio_spt O) (21 # 2))
       == priorita_dichiarata EDD (oggetti taglio_spt O) (21 # 2).
Proof.
  split; [|split].
  - vm_compute. tauto.
  - vm_compute. discriminate.
  - vm_compute. discriminate.
Qed.

(** ** Setup *)



(** ** The daily caps *)

Lemma int_floor (x : Q) : 0 <= x -> Py.int x = Qfloor x.
Proof.
  destruct x as [n d]. unfold Py.int, Qfloor, Qle. simpl. intros H.
  apply Z.quot_div_nonneg; [|reflexivity].
  rewrite Z.mul_1_r in H. exact H.
Qed.

Lemma fmod_giornaliero (t : Q) :
  Py.fmod t 1440 == t - 1440 * inject_Z (giorno_di t)
  /\ 0 <= Py.fmod t 1440 /\ Py.fmod t 1440 < 1440.
Proof.
  unfold Py.fmod, giorno_di.
  set (y := t / 1440).
  assert (Hy : t == 1440 * y) by (unfold y; field).
  pose proof (Qfloor_le y) as H1. pose proof (Qlt_floor y) as H2.
  rewrite inject_Z_plus in H2. change (inject_Z 1) with 1 in H2.
  split; [reflexivity|]. split; lra.
Qed.

Lemma giorno_non_negativo (t : Q) : 0 <= t -> 0 <= t / 1440.
Proof. intros H. apply Qle_shift_div_l; lra. Qed.

Lemma timeout_riuscito (d : Q) (s : SistemaProduttivo) :
  0 <= d -> timeout d s = Fatto tt (avanza_orologio d (annota (EvTimeout d) s)).
Proof.
  intros Hd. unfold timeout.
  assert (Py.ltb d 0 = false) as ->; [|reflexivity].
  unfold Py.ltb. apply negb_false_iff. apply Qle_bool_iff. exact Hd.
Qed.

Lemma limite_in_tabella (limiti : option (gmap string Z)) (id_prodotto : string) (n : Z) :
  match default ∅ limiti !! id_prodotto with
  | Some l => (l <=? n)%Z
  | None => false
  end
  = match limiti with
    | Some tabella =>
        match tabella !! id_prodotto with
        | Some l => (l <=? n)%Z
        | None => false
        end
    | None => false
    end.
Proof. destruct limiti; simpl; [reflexivity | rewrite lookup_empty; reflexivity]. Qed.

Lemma attesa_fino_a_domani (s : SistemaProduttivo) :
  (0 <= orario_inizio_turno (configurazione s))%Z ->
  let w := 1440 - Py.fmod (env_now (ambiente s)) 1440
           + inject_Z (orario_inizio_turno (configurazione s) * 60) in
  0 <= w /\ env_now (ambiente s) + w == apertura_domani s.
Proof.
  intros Hi w. unfold w, apertura_domani.
  destruct (fmod_giornaliero (env_now (ambiente s))) as (Hf & H0 & H1).
  rewrite inject_Z_plus, !inject_Z_mult, inject_Z_plus.
  change (inject_Z 1) with 1. change (inject_Z 1440) with 1440.
  change (inject_Z 60) with 60.
  assert (0 <= inject_Z (orario_inizio_turno (configurazione s))).
  { change 0 with (inject_Z 0). rewrite <- Zle_Qle. exact Hi. }
  split; [lra|]. rewrite Hf. ring.
Qed.

Lemma giro_limite (id_prodotto : string) (s : SistemaProduttivo) :
  0 <= env_now (ambiente s) ->
  (0 <= orario_inizio_turno (configurazione s))%Z ->
  exists s',
    limite_giornaliero_giro id_prodotto s = Fatto (negb (limite_raggiunto id_prodotto s)) s'
    /\ giorno_corrente s' = Z.max (giorno_corrente s) (giorno_di (env_now (ambiente s)))
    /\ if limite_raggiunto id_prodotto s then
         (exists w,
            env_traccia (ambiente s') = env_traccia (ambiente s) ++ [EvTimeout w]
            /\ env_now (ambiente s') = env_now (ambiente s) + w)
         /\ env_now (ambiente s') == apertura_domani s
         /\ produzione_giornaliera_totale s' = totale_oggi s
         /\ default 0%Z (produzione_giornaliera_per_prodotto s' !! id_prodotto)
            = prodotti_oggi id_prodotto s
       else
         env_traccia (ambiente s') = env_traccia (ambiente s)
         /\ env_now (ambiente s') = env_now (ambiente s)
         /\ produzione_giornaliera_totale s' = (totale_oggi s + 1)%Z
         /\ produzione_giornaliera_per_prodotto s' !! id_prodotto
            = Some (prodotti_oggi id_prodotto s + 1)%Z.
Proof.
  intros Ht Hi.
  destruct (attesa_fino_a_domani s Hi) as [Hw Ha].
  unfold limite_giornaliero_giro, ambiente_now.
  rewrite !bind_leggi.
  change (inject_Z MINUTI_GIORNALIERI) with 1440.
  rewrite (int_floor _ (giorno_non_negativo _ Ht)).
  change (Qfloor (env_now (ambiente s) / 1440))
    with (giorno_di (env_now (ambiente s))).
  unfold limite_raggiunto, prodotti_oggi, totale_oggi, giorno_nuovo.
  remember (giorno_di (env_now (ambiente s))) as g eqn:Hg.
  destruct (giorno_corrente s <? g)%Z eqn:Eg.
  - apply Z.ltb_lt in Eg.
    unfold bind at 1. unfold modifica at 1. rewrite !bind_leggi.
    cbn [configurazione con_giorno_corrente con_produzione_giornaliera_per_prodotto
         con_produzione_giornaliera_totale produzione_giornaliera_per_prodotto
         produzione_giornaliera_totale].
    rewrite lookup_empty. cbn [default].
    rewrite limite_in_tabella.
    match goal with
    | |- context [if ?b then _ else _] => destruct b
    end.
    + unfold bind at 1. rewrite timeout_riuscito by exact Hw.
      eexists. split; [reflexivity|]. cbn.
      split; [lia|]. split; [eexists; split; reflexivity|].
      split; [exact Ha|]. split; [reflexivity|].
      rewrite lookup_empty. reflexivity.
    + eexists. split; [reflexivity|]. cbn.
      split; [lia|]. split; [reflexivity|]. split; [reflexivity|].
      split; [reflexivity|]. apply lookup_insert_eq.
  - apply Z.ltb_ge in Eg.
    unfold bind at 1. unfold ret at 1. rewrite !bind_leggi.
    rewrite limite_in_tabella.
    match goal with
    | |- context [if ?b then _ else _] => destruct b
    end.
    + unfold bind at 1. rewrite timeout_riuscito by exact Hw.
      eexists. split; [reflexivity|]. cbn.
      split; [lia|]. split; [eexists; split; reflexivity|].
      split; [exact Ha|]. split; reflexivity.
    + eexists. split; [reflexivity|]. cbn.
      split; [lia|]. split; [reflexivity|]. split; [reflexivity|].
      split; [reflexivity|]. apply lookup_insert_eq.
Qed.

(** *** Without a cap, the books of the caps are not kept *)



Section Conteggi.

Variable attesa_coda : nat -> Q.
Variable giri : nat.






End Conteggi.




(** * Further properties of the core *)

(** ** The shift calendar *)

Lemma attesa_feriale_lunga (z : Z) : 1 <= inject_Z (if (z <=? 0)%Z then 1 else z).
Proof.
  destruct (z <=? 0)%Z eqn:E.
  - apply Qle_refl.
  - apply Z.leb_gt in E. change 1 with (inject_Z 1). rewrite <- Zle_Qle. lia.
Qed.

Lemma attesa_weekend_lunga (z : Z) :
  1 <= (if Py.leb (inject_Z z) (1 # 10) then 1 else inject_Z z) + (1 # 10).
Proof.
  unfold Py.leb. destruct (Qle_bool (inject_Z z) (1 # 10)) eqn:E.
  - lra.
  - assert (H : ~ inject_Z z <= 1 # 10).
    { intros H. apply Qle_bool_iff in H. congruence. }
    assert (1 <= z)%Z.
    { destruct (Z_lt_le_dec z 1) as [Hl|Hl]; [|exact Hl].
      exfalso. apply H. apply Qle_trans with (inject_Z 0).
      - rewrite <- Zle_Qle. lia.
      - unfold Qle. simpl. lia. }
    assert (1 <= inject_Z z) by (change 1 with (inject_Z 1); rewrite <- Zle_Qle; lia).
    lra.
Qed.

Lemma sempre_timeout P d :
  P (EvTimeout d) -> assicura comunque (timeout d) (traccia_estesa P).
Proof.
  intros HP. unfold timeout. destruct (Py.ltb d 0).
  - apply assicura_solleva. typeclasses eauto.
  - apply assicura_modifica. intros s.
    eapply traccia_annota; [exact HP | reflexivity].
Qed.

(** However a wait for the shift ends, every delay it has yielded lasts at
    least one minute. *)
Lemma sempre_attendi_turno_ciclo n cfg :
  assicura comunque (attendi_turno_ciclo n cfg) (traccia_estesa attesa_di_un_minuto).
Proof.
  induction n as [|n IH]; simpl.
  - apply assicura_esaurito. typeclasses eauto.
  - apri.
    smonta ltac:(first [ exact IH
                       | apply sempre_timeout; apply attesa_feriale_lunga
                       | apply sempre_timeout; apply attesa_weekend_lunga ])
           traccia_foglia.
Qed.

(** X1.  However a wait for the shift ends (it returns, or the model's loop
    budget runs out first), what it has yielded are delays only, each of at
    least one minute: the loop never spins on a zero or negative wait. *)
Theorem attese_del_turno_di_almeno_un_minuto (giri : nat)
  (cfg : ConfigurazioneSimulazione) (s : SistemaProduttivo) :
  exists l,
    env_traccia (ambiente (stato_finale (attendi_turno_lavorativo giri cfg s)))
    = env_traccia (ambiente s) ++ l
    /\ Forall attesa_di_un_minuto l.
Proof. exact (sempre_attendi_turno_ciclo giri cfg s eq_refl). Qed.

Lemma attendi_turno_ciclo_in_turno n cfg s s' :
  attendi_turno_ciclo n cfg s = Fatto tt s' -> in_turno cfg s' = true.
Proof.
  revert s. induction n as [|n IH]; intros s H; simpl in H; [discriminate|].
  unfold ambiente_now in H. rewrite !bind_leggi in H. cbv zeta in H.
  assert (Hfer :
    (if (orario_fine_turno cfg * 60 <=? Py.round (env_now (ambiente s)) mod MINUTI_GIORNALIERI)%Z
     then
       timeout (inject_Z
         (if (MINUTI_GIORNALIERI - Py.round (env_now (ambiente s)) mod MINUTI_GIORNALIERI
              + orario_inizio_turno cfg * 60 <=? 0)%Z then 1%Z
          else (MINUTI_GIORNALIERI - Py.round (env_now (ambiente s)) mod MINUTI_GIORNALIERI
                + orario_inizio_turno cfg * 60)%Z)) ;;
       attendi_turno_ciclo n cfg
     else if (Py.round (env_now (ambiente s)) mod MINUTI_GIORNALIERI
              <? orario_inizio_turno cfg * 60)%Z
     then
       timeout (inject_Z
         (if (orario_inizio_turno cfg * 60
              - Py.round (env_now (ambiente s)) mod MINUTI_GIORNALIERI <=? 0)%Z then 1%Z
          else (orario_inizio_turno cfg * 60
                - Py.round (env_now (ambiente s)) mod MINUTI_GIORNALIERI)%Z)) ;;
       attendi_turno_ciclo n cfg
     else ret tt) s = Fatto tt s' ->
    (orario_inizio_turno cfg * 60 <=? Py.round (env_now (ambiente s')) mod 1440)%Z
    && (Py.round (env_now (ambiente s')) mod 1440 <? orario_fine_turno cfg * 60)%Z = true
    /\ (in_turno cfg s' = true \/ s' = s)).
  { intros Hf.
    destruct (orario_fine_turno cfg * 60 <=? _)%Z eqn:E1.
    - apply bind_fatto in Hf as (u & s1 & _ & Hf). apply IH in Hf.
      split; [|left; exact Hf].
      unfold in_turno in Hf. apply andb_true_iff in Hf as [Hf H3].
      apply andb_true_iff in Hf as [_ H2]. rewrite H2, H3. reflexivity.
    - destruct (_ <? orario_inizio_turno cfg * 60)%Z eqn:E2.
      + apply bind_fatto in Hf as (u & s1 & _ & Hf). apply IH in Hf.
        split; [|left; exact Hf].
        unfold in_turno in Hf. apply andb_true_iff in Hf as [Hf H3].
        apply andb_true_iff in Hf as [_ H2]. rewrite H2, H3. reflexivity.
      + injection Hf as <-. split; [|right; reflexivity].
        apply Z.leb_gt in E1. apply Z.ltb_ge in E2.
        change MINUTI_GIORNALIERI with 1440%Z in *.
        apply andb_true_iff. split; [apply Z.leb_le | apply Z.ltb_lt]; lia. }
  destruct (gestore_tempo s) as [g|] eqn:Eg.
  - destruct (5 <=? weekday (ottieni_data_corrente g (env_now (ambiente s))))%Z eqn:Ew.
    + apply bind_fatto in H as (u & s1 & _ & H). apply IH in H. exact H.
    + destruct (Hfer H) as [Hm [Hi | ->]]; [exact Hi|].
      unfold in_turno. rewrite Eg.
      apply Z.leb_gt in Ew.
      assert ((weekday (ottieni_data_corrente g (env_now (ambiente s))) <? 5)%Z = true)
        as -> by (apply Z.ltb_lt; exact Ew).
      exact Hm.
  - destruct (Hfer H) as [Hm [Hi | ->]]; [exact Hi|].
    unfold in_turno. rewrite Eg. exact Hm.
Qed.

Lemma attendi_turno_ciclo_gia_in_turno n cfg s :
  in_turno cfg s = true -> attendi_turno_ciclo (S n) cfg s = Fatto tt s.
Proof.
  intros H. unfold in_turno in H.
  apply andb_true_iff in H as [H H3]. apply andb_true_iff in H as [H1 H2].
  apply Z.leb_le in H2. apply Z.ltb_lt in H3.
  simpl. unfold ambiente_now. rewrite !bind_leggi. cbv zeta.
  change MINUTI_GIORNALIERI with 1440%Z.
  assert ((orario_fine_turno cfg * 60 <=? Py.round (env_now (ambiente s)) mod 1440)%Z = false)
    as E1 by (apply Z.leb_gt; exact H3).
  assert ((Py.round (env_now (ambiente s)) mod 1440 <? orario_inizio_turno cfg * 60)%Z = false)
    as E2 by (apply Z.ltb_ge; exact H2).
  destruct (gestore_tempo s) as [g|].
  - apply Z.ltb_lt in H1.
    assert ((5 <=? weekday (ottieni_data_corrente g (env_now (ambiente s))))%Z = false)
      as -> by (apply Z.leb_gt; exact H1).
    rewrite bind_leggi, E1, E2. reflexivity.
  - rewrite bind_leggi, E1, E2. reflexivity.
Qed.

(** The clock rounded to the minute is within half a minute of the clock. *)
Lemma round_vicino (x : Q) :
  inject_Z (Py.round x) - (1 # 2) <= x /\ x <= inject_Z (Py.round x) + (1 # 2).
Proof.
  unfold Py.round. cbv zeta.
  pose proof (Qfloor_le x) as H1. pose proof (Qlt_floor x) as H2.
  rewrite inject_Z_plus in H2. change (inject_Z 1) with 1 in H2.
  destruct (Qle_bool (x - inject_Z (Qfloor x)) (1 # 2)) eqn:E1.
  - apply Qle_bool_iff in E1.
    destruct (Qle_bool (1 # 2) (x - inject_Z (Qfloor x))) eqn:E2.
    + apply Qle_bool_iff in E2. destruct (Z.even (Qfloor x)).
      * split; lra.
      * rewrite inject_Z_plus. change (inject_Z 1) with 1. split; lra.
    + split; lra.
  - assert (~ x - inject_Z (Qfloor x) <= 1 # 2) as E.
    { intros H. apply Qle_bool_iff in H. congruence. }
    apply Qnot_le_lt in E.
    rewrite inject_Z_plus. change (inject_Z 1) with 1. split; lra.
Qed.

Lemma round_tra (x : Q) (a b : Z) :
  inject_Z a - (1 # 2) < x -> x < inject_Z b - (1 # 2) ->
  (a <= Py.round x < b)%Z.
Proof.
  intros Ha Hb. destruct (round_vicino x) as [H1 H2].
  assert (inject_Z a < inject_Z (Py.round x) + 1) as Hl by lra.
  assert (inject_Z (Py.round x) < inject_Z b) as Hu by lra.
  change 1 with (inject_Z 1) in Hl. rewrite <- inject_Z_plus in Hl.
  rewrite <- Zlt_Qlt in Hl, Hu. lia.
Qed.

Lemma in_turno_feriale cfg (s : SistemaProduttivo) :
  in_turno cfg s = true ->
  giorno_feriale s = true
  /\ (orario_inizio_turno cfg * 60 <= Py.round (env_now (ambiente s)) mod 1440
      < orario_fine_turno cfg * 60)%Z.
Proof.
  unfold in_turno, giorno_feriale. intros H.
  apply andb_true_iff in H as [H H3]. apply andb_true_iff in H as [H1 H2].
  apply Z.leb_le in H2. apply Z.ltb_lt in H3. split; [exact H1 | lia].
Qed.

(** X2.  When the wait for the shift returns, the date on the clock is a
    working day of the calendar, and the clock rounded to the minute, which
    is what the code tests, is at a minute of the day from the opening on and
    before the closing.  The clock itself is then no earlier than half a
    minute before the opening of some day's shift (07:59.6 is let through),
    and half a minute at least before its closing. *)
Theorem attendi_turno_termina_in_turno (giri : nat) (cfg : ConfigurazioneSimulazione)
  (s s' : SistemaProduttivo) :
  attendi_turno_lavorativo giri cfg s = Fatto tt s' ->
  giorno_feriale s' = true
  /\ (orario_inizio_turno cfg * 60 <= Py.round (env_now (ambiente s')) mod 1440
      < orario_fine_turno cfg * 60)%Z
  /\ exists giorno : Z,
       inject_Z (1440 * giorno + orario_inizio_turno cfg * 60) - (1 # 2)
       <= env_now (ambiente s')
       /\ env_now (ambiente s')
          <= inject_Z (1440 * giorno + orario_fine_turno cfg * 60) - (1 # 2).
Proof.
  intros H. apply attendi_turno_ciclo_in_turno, in_turno_feriale in H.
  destruct H as [Hf Hm]. split; [exact Hf|]. split; [exact Hm|].
  set (r := Py.round (env_now (ambiente s'))) in *.
  exists (r / 1440)%Z.
  pose proof (Z.div_mod r 1440 ltac:(lia)) as Hr.
  destruct (round_vicino (env_now (ambiente s'))) as [H1 H2]. fold r in H1, H2.
  assert (inject_Z (1440 * (r / 1440) + orario_inizio_turno cfg * 60) <= inject_Z r) as Ha
    by (rewrite <- Zle_Qle; lia).
  assert (inject_Z r + 1 <= inject_Z (1440 * (r / 1440) + orario_fine_turno cfg * 60)) as Hb.
  { change 1 with (inject_Z 1). rewrite <- inject_Z_plus, <- Zle_Qle. lia. }
  split; lra.
Qed.

Lemma attendi_turno_termina_in_turno_witness :
  attendi_turno_lavorativo 10 crea_configurazione_base officina_a_mezzanotte
  = Fatto tt (stato_finale esito_attesa_turno)
  /\ giorno_feriale (stato_finale esito_attesa_turno) = true
  /\ (orario_inizio_turno crea_configurazione_base * 60
      <= Py.round (env_now (ambiente (stato_finale esito_attesa_turno))) mod 1440
      < orario_fine_turno crea_configurazione_base * 60)%Z
  /\ exists giorno : Z,
       inject_Z (1440 * giorno + orario_inizio_turno crea_configurazione_base * 60)
       - (1 # 2)
       <= env_now (ambiente (stato_finale esito_attesa_turno))
       /\ env_now (ambiente (stato_finale esito_attesa_turno))
          <= inject_Z (1440 * giorno + orario_fine_turno crea_configurazione_base * 60)
             - (1 # 2).
Proof.
  assert (H : attendi_turno_lavorativo 10 crea_configurazione_base officina_a_mezzanotte
              = Fatto tt (stato_finale esito_attesa_turno))
    by (vm_compute; reflexivity).
  exact (conj H (attendi_turno_termina_in_turno 10 crea_configurazione_base
                   officina_a_mezzanotte (stato_finale esito_attesa_turno) H)).
Defined.

(** X3.  On a working day, with the clock later than half a minute before
    the opening of the shift and earlier than half a minute before its
    closing, the wait for the shift returns at once and leaves the system
    as it is: nothing is yielded and the clock does not move.  (In the last
    half minute of a shift the clock rounds to the closing minute, and the
    call waits for the next opening.) *)
Theorem attendi_turno_in_turno_immediato (n : nat) (cfg : ConfigurazioneSimulazione)
  (s : SistemaProduttivo) (giorno : Z) :
  (0 <= orario_inizio_turno cfg)%Z ->
  (orario_fine_turno cfg <= 24)%Z ->
  giorno_feriale s = true ->
  inject_Z (1440 * giorno + orario_inizio_turno cfg * 60) - (1 # 2)
  < env_now (ambiente s) ->
  env_now (ambiente s)
  < inject_Z (1440 * giorno + orario_fine_turno cfg * 60) - (1 # 2) ->
  attendi_turno_lavorativo (S n) cfg s = Fatto tt s.
Proof.
  intros Hi Hf Hg Ha Hb. apply attendi_turno_ciclo_gia_in_turno.
  destruct (round_tra _ _ _ Ha Hb) as [H1 H2].
  set (r := Py.round (env_now (ambiente s))) in *.
  assert (Hm : (r mod 1440 = r - 1440 * giorno)%Z).
  { symmetry. apply (Z.mod_unique r 1440 giorno); [left; lia | lia]. }
  unfold in_turno. fold (giorno_feriale s). rewrite Hg. fold r. rewrite Hm.
  apply andb_true_iff. split; [apply Z.leb_le | apply Z.ltb_lt]; lia.
Qed.

Lemma attendi_turno_in_turno_immediato_witness :
  (0 <= orario_inizio_turno crea_configurazione_base)%Z
  /\ (orario_fine_turno crea_configurazione_base <= 24)%Z
  /\ giorno_feriale flangia_lunedi = true
  /\ inject_Z (1440 * 0 + orario_inizio_turno crea_configurazione_base * 60) - (1 # 2)
     < env_now (ambiente flangia_lunedi)
  /\ env_now (ambiente flangia_lunedi)
     < inject_Z (1440 * 0 + orario_fine_turno crea_configurazione_base * 60) - (1 # 2)
  /\ attendi_turno_lavorativo 1 crea_configurazione_base flangia_lunedi
     = Fatto tt flangia_lunedi.
Proof.
  assert (H1 : (0 <= orario_inizio_turno crea_configurazione_base)%Z)
    by (vm_compute; discriminate).
  assert (H2 : (orario_fine_turno crea_configurazione_base <= 24)%Z)
    by (vm_compute; discriminate).
  assert (H3 : giorno_feriale flangia_lunedi = true) by (vm_compute; reflexivity).
  assert (H4 : inject_Z (1440 * 0 + orario_inizio_turno crea_configurazione_base * 60)
               - (1 # 2) < env_now (ambiente flangia_lunedi))
    by (vm_compute; reflexivity).
  assert (H5 : env_now (ambiente flangia_lunedi)
               < inject_Z (1440 * 0 + orario_fine_turno crea_configurazione_base * 60)
                 - (1 # 2))
    by (vm_compute; reflexivity).
  exact (conj H1 (conj H2 (conj H3 (conj H4 (conj H5
    (attendi_turno_in_turno_immediato 0 crea_configurazione_base flangia_lunedi 0
       H1 H2 H3 H4 H5)))))).
Defined.

Lemma tempo_somma {A B} (a b c : Q) (m : Processo A) (k : A -> Processo B) :
  c <= a + b ->
  garantisce m (tempo_avanti a) -> (forall x, garantisce (k x) (tempo_avanti b)) ->
  garantisce (bind m k) (tempo_avanti c).
Proof.
  intros Hc. apply garantisce_bind_misto. unfold tempo_avanti. intros s s' s''. lra.
Qed.

Lemma min_positivo (a b : Q) : 0 < a -> 0 < b -> 0 < Py.min a b.
Proof. intros Ha Hb. unfold Py.min. destruct (Py.ltb b a); assumption. Qed.

Lemma avanza_tempo_ciclo_consuma giri n d cfg :
  garantisce (avanza_tempo_ciclo giri n d cfg) (tempo_avanti (d - (1 # 1000000))).
Proof.
  revert d. induction n as [|n IH]; intros d; simpl.
  - destruct (Py.ltb (1 # 1000000) d) eqn:E.
    + apply garantisce_esaurito.
    + apply ltb_false_le in E. intros s a s' H. injection H as _ <-.
      unfold tempo_avanti. lra.
  - destruct (Py.ltb (1 # 1000000) d) eqn:E.
    + apply tempo_bind_dopo; [apply tempo_attendi_turno_lavorativo | intros _].
      unfold ambiente_now.
      apply tempo_bind_dopo; [apply garantisce_leggi; typeclasses eauto | intros t].
      cbv zeta.
      destruct (Py.leb _ _) eqn:Er.
      * apply tempo_bind_dopo; [apply tempo_attendi_turno_lavorativo | intros _].
        apply IH.
      * eapply tempo_somma; [| apply tempo_timeout_pieno | intros _; apply IH]. lra.
    + apply ltb_false_le in E. intros s a s' H. injection H as _ <-.
      unfold tempo_avanti. lra.
Qed.

(** X4.  Working time consumed through the calendar is not cut short: when
    [avanza_tempo_lavorativo] returns, the clock has advanced by the
    requested duration at least, but for the tolerance of a millionth of a
    minute under which the loop stops. *)
Theorem avanza_tempo_lavorativo_consuma (giri : nat) (durata : Q)
  (cfg : ConfigurazioneSimulazione) (s s' : SistemaProduttivo) :
  avanza_tempo_lavorativo giri durata cfg s = Fatto tt s' ->
  env_now (ambiente s) + durata - (1 # 1000000) <= env_now (ambiente s').
Proof.
  intros H.
  pose proof (avanza_tempo_ciclo_consuma giri giri durata cfg s tt s' H) as Ht.
  unfold tempo_avanti in Ht. lra.
Qed.

Lemma avanza_tempo_lavorativo_consuma_witness :
  avanza_tempo_lavorativo 10 600 crea_configurazione_base officina_a_mezzanotte
  = Fatto tt (stato_finale esito_dieci_ore)
  /\ env_now (ambiente officina_a_mezzanotte) + 600 - (1 # 1000000)
     <= env_now (ambiente (stato_finale esito_dieci_ore)).
Proof.
  assert (H : avanza_tempo_lavorativo 10 600 crea_configurazione_base
                officina_a_mezzanotte
              = Fatto tt (stato_finale esito_dieci_ore))
    by (vm_compute; reflexivity).
  exact (conj H (avanza_tempo_lavorativo_consuma 10 600 crea_configurazione_base
                   officina_a_mezzanotte (stato_finale esito_dieci_ore) H)).
Defined.

(** ** The books of the resources *)

#[global] Instance mantiene_contabilita_riflessiva : Reflexive mantiene_contabilita.
Proof. intros s H. exact H. Qed.

#[global] Instance mantiene_contabilita_transitiva : Transitive mantiene_contabilita.
Proof. intros s s' s'' H1 H2 H. apply H2, H1, H. Qed.

(** The three categories keep the books balanced; any other leaves the
    total ahead of the sum by the duration recorded. *)
Lemma registra_contabile (d : Q) (tipo : string) (r : RisorsaProduttiva) :
  contabile r ->
  if String.eqb tipo "lavorazione" || String.eqb tipo "setup" || String.eqb tipo "guasto"
  then contabile (registra_tempo_utilizzo d tipo r)
  else tempo_occupato_totale (registra_tempo_utilizzo d tipo r)
       == tempo_lavorazione (registra_tempo_utilizzo d tipo r)
          + tempo_setup (registra_tempo_utilizzo d tipo r)
          + tempo_guasto (registra_tempo_utilizzo d tipo r) + d.
Proof.
  unfold contabile, registra_tempo_utilizzo. intros H. cbn [tempo_occupato_totale tempo_lavorazione tempo_setup tempo_guasto].
  destruct (String.eqb tipo "lavorazione"); cbn [orb]; [lra|].
  destruct (String.eqb tipo "setup"); cbn [orb]; [lra|].
  destruct (String.eqb tipo "guasto"); lra.
Qed.

Section Contabilita.

Variable attesa_coda : nat -> Q.
Variable giri : nat.

Lemma conta_modifica_altrove (f : SistemaProduttivo -> SistemaProduttivo) :
  (forall s, macchinari (f s) = macchinari s) ->
  (forall s, operatori (f s) = operatori s) ->
  assicura comunque (modifica f) mantiene_contabilita.
Proof.
  intros Hm Ho. apply assicura_modifica. intros s [H1 H2].
  split; intros x; [rewrite Hm; apply H1 | rewrite Ho; apply H2].
Qed.

Lemma conta_timeout d : assicura comunque (timeout d) mantiene_contabilita.
Proof.
  unfold timeout. destruct (Py.ltb d 0).
  - apply assicura_solleva. typeclasses eauto.
  - apply conta_modifica_altrove; reflexivity.
Qed.

Lemma conta_aggiorna_macchina m g :
  (forall r, contabile r -> contabile (g r)) ->
  assicura comunque (aggiorna_macchina m g) mantiene_contabilita.
Proof.
  intros Hg. apply assicura_modifica. intros s [H1 H2]. split; intros x; simpl.
  - destruct (decide (x = m)); [apply Hg|]; apply H1.
  - apply H2.
Qed.

Lemma conta_aggiorna_operatore t g :
  (forall r, contabile r -> contabile (g r)) ->
  assicura comunque (aggiorna_operatore t g) mantiene_contabilita.
Proof.
  intros Hg. apply assicura_modifica. intros s [H1 H2]. split; intros x; simpl.
  - apply H1.
  - destruct (decide (x = t)); [apply Hg|]; apply H2.
Qed.

Ltac voce_contabile :=
  first [ intros r Hr; exact (registra_contabile _ "lavorazione" r Hr)
        | intros r Hr; exact (registra_contabile _ "setup" r Hr)
        | intros r Hr; exact (registra_contabile _ "guasto" r Hr)
        | intros r Hr; exact Hr ].

Ltac foglia_contabile :=
  repeat match goal with
         | |- context [con_deposito_items ?d] => is_var d; destruct d
         end;
  intros [H1 H2]; split; intros x; [apply H1 | apply H2].

Ltac apri_processo :=
  unfold rng_random, rng_randint, rng_uniform, store_put, store_get,
    ordine_di, ambiente_now, aggiorna_ordine, richiedi_accesso, attendi_richiesta,
    tempo_di, segna_completamento, deposita_se_presente, preleva_componente;
  cbv zeta.

Lemma conta_attendi_turno_ciclo n cfg :
  assicura comunque (attendi_turno_ciclo n cfg) mantiene_contabilita.
Proof.
  induction n as [|n IH]; simpl.
  - apply assicura_esaurito. typeclasses eauto.
  - apri_processo. smonta ltac:(first [exact IH | apply conta_timeout]) foglia_contabile.
Qed.

Lemma conta_avanza_tempo_ciclo n d cfg :
  assicura comunque (avanza_tempo_ciclo giri n d cfg) mantiene_contabilita.
Proof.
  revert d. induction n as [|n IH]; intros d; simpl.
  - destruct (Py.ltb _ _); [apply assicura_esaurito | apply assicura_ret]; typeclasses eauto.
  - apri_processo. unfold attendi_turno_lavorativo.
    smonta ltac:(first [apply IH | apply conta_attendi_turno_ciclo | apply conta_timeout])
           foglia_contabile.
Qed.

Ltac noto_contabile :=
  first [ apply conta_attendi_turno_ciclo | apply conta_avanza_tempo_ciclo
        | apply conta_timeout
        | apply conta_aggiorna_macchina; voce_contabile
        | apply conta_aggiorna_operatore; voce_contabile ].

Lemma conta_esegui_operazione o m d t v :
  assicura comunque (esegui_operazione attesa_coda giri o m d t v) mantiene_contabilita.
Proof.
  unfold esegui_operazione, fase_setup, fase_guasto, fase_lavorazione,
    fase_registrazione, attendi_turno_lavorativo, avanza_tempo_lavorativo.
  apri_processo. smonta noto_contabile foglia_contabile.
Qed.

Lemma conta_limite_giornaliero_ciclo n id_prodotto :
  assicura comunque (limite_giornaliero_ciclo n id_prodotto) mantiene_contabilita.
Proof.
  induction n as [|n IH]; simpl.
  - apply assicura_esaurito. typeclasses eauto.
  - unfold limite_giornaliero_giro. apri_processo.
    smonta ltac:(first [exact IH | apply conta_timeout]) foglia_contabile.
Qed.

Lemma conta_elabora_ordine o :
  assicura comunque (elabora_ordine attesa_coda giri o) mantiene_contabilita.
Proof.
  unfold elabora_ordine, avvia_strategia, esegui_processo,
    StrategiaFL01_esegui_processo, StrategiaPN03_esegui_processo,
    StrategiaIN07_esegui_processo, StrategiaRD01_esegui_processo,
    StrategiaRD01_prelievo, gestisci_rilavorazione.
  apri_processo.
  smonta ltac:(first [ apply conta_esegui_operazione
                     | apply conta_limite_giornaliero_ciclo ]) foglia_contabile.
Qed.

End Contabilita.

(** X5.  The books of every resource stay balanced across an order: if on
    each machine and operator the total busy time is the sum of processing,
    setup and breakdown time before [elabora_ordine] runs, it is so in the
    state the run leaves, whether the order completes, blocks on a store,
    raises, or is still in a loop when the fuel ends.  The sums are exact:
    durations are rationals here, where the code adds floats, so that there
    the two sides, which add the same durations in different orders, can
    differ by the rounding of the additions. *)
Theorem contabilita_mantenuta (attesa_coda : nat -> Q) (giri : nat) (o : Rif)
  (s : SistemaProduttivo) :
  contabilita s ->
  contabilita (stato_finale (elabora_ordine attesa_coda giri o s)).
Proof.
  intros H. exact (conta_elabora_ordine attesa_coda giri o s eq_refl H).
Qed.

Lemma contabilita_mantenuta_witness :
  contabilita flangia_lunedi
  /\ contabilita (stato_finale (elabora_ordine senza_attesa 10 O flangia_lunedi)).
Proof.
  assert (H : contabilita flangia_lunedi)
    by (split; intros x; vm_compute; reflexivity).
  exact (conj H (contabilita_mantenuta senza_attesa 10 O flangia_lunedi H)).
Defined.

(** ** Resources held and released *)

Lemma saldo_app r (l1 l2 : list Evento) : saldo r (l1 ++ l2) = (saldo r l1 + saldo r l2)%Z.
Proof.
  induction l1 as [|e l1 IH]; simpl; [reflexivity|].
  destruct e; rewrite ?IH; lia.
Qed.

#[global] Instance risorse_rese_riflessiva : Reflexive risorse_rese.
Proof. intros s. exists []. split; [symmetry; apply app_nil_r | reflexivity]. Qed.

#[global] Instance risorse_rese_transitiva : Transitive risorse_rese.
Proof.
  intros s s' s'' [l1 [E1 B1]] [l2 [E2 B2]]. exists (l1 ++ l2). split.
  - rewrite E2, E1. symmetry. apply app_assoc.
  - intros r. rewrite saldo_app, B1, B2. reflexivity.
Qed.







Section Rese.

Variable attesa_coda : nat -> Q.
Variable giri : nat.

Ltac apri_processo :=
  unfold rng_random, rng_randint, rng_uniform, store_put, store_get,
    ordine_di, ambiente_now, aggiorna_ordine, aggiorna_macchina, aggiorna_operatore,
    attendi_richiesta, tempo_di, segna_completamento, deposita_se_presente,
    preleva_componente;
  cbv zeta.








End Rese.



(** ** The phases of a routing *)

Lemma rilavorazione_somma n m :
  rilavorazione (n + m) = rilavorazione n ++ rilavorazione m.
Proof. induction n as [|n IH]; simpl; [reflexivity | rewrite IH; reflexivity]. Qed.

Lemma fasi_vuote o (s s' : SistemaProduttivo) :
  conserva_ordini storia s s' -> fasi_registrate o [] 0 s s'.
Proof.
  intros H. specialize (H o). unfold storia in H. injection H as Hc Hl.
  exists O. split; [lia|]. simpl. rewrite !app_nil_r, Hc, Hl. split; reflexivity.
Qed.

Lemma fasi_composte o l1 l2 k (s s' s'' : SistemaProduttivo) :
  fasi_registrate o l1 0 s s' -> fasi_registrate o l2 k s' s'' ->
  fasi_registrate o (l1 ++ l2) k s s''.
Proof.
  intros [n1 [Hn1 [Hc1 Hl1]]] [n2 [Hn2 [Hc2 Hl2]]].
  assert (n1 = O) by lia. subst n1. simpl in Hc1, Hl1.
  rewrite app_nil_r in Hc1, Hl1.
  exists n2. split; [exact Hn2|].
  rewrite Hc2, Hl2, Hc1, Hl1, <- !app_assoc. split; reflexivity.
Qed.

Lemma fasi_ripetute o l k1 k2 (s s' s'' : SistemaProduttivo) :
  fasi_registrate o l k1 s s' -> fasi_registrate o [] k2 s' s'' ->
  fasi_registrate o l (k1 + k2) s s''.
Proof.
  intros [n1 [Hn1 [Hc1 Hl1]]] [n2 [Hn2 [Hc2 Hl2]]].
  exists (n1 + n2)%nat. split; [lia|].
  simpl in Hc2, Hl2.
  rewrite Hc2, Hl2, Hc1, Hl1, rilavorazione_somma, <- !app_assoc. split; reflexivity.
Qed.

Lemma fasi_bind {A B} o l1 l2 k (m : Processo A) (f : A -> Processo B) :
  garantisce m (fasi_registrate o l1 0) ->
  (forall a, garantisce (f a) (fasi_registrate o l2 k)) ->
  garantisce (bind m f) (fasi_registrate o (l1 ++ l2) k).
Proof.
  apply garantisce_bind_misto. intros s s' s''. apply fasi_composte.
Qed.

Lemma fasi_bind_ripetute {A B} o l k1 k2 (m : Processo A) (f : A -> Processo B) :
  garantisce m (fasi_registrate o l k1) ->
  (forall a, garantisce (f a) (fasi_registrate o [] k2)) ->
  garantisce (bind m f) (fasi_registrate o l (k1 + k2)).
Proof.
  apply garantisce_bind_misto. intros s s' s''. apply fasi_ripetute.
Qed.

Lemma fasi_finalmente {A} o l (corpo : Processo A)
  (uscita : SistemaProduttivo -> SistemaProduttivo) :
  garantisce corpo (fasi_registrate o l 0) ->
  (forall s, conserva_ordini storia s (uscita s)) ->
  garantisce (finalmente corpo uscita) (fasi_registrate o l 0).
Proof.
  intros Hc Hu.
  apply garantisce_finalmente_misto
    with (R1 := fasi_registrate o l 0) (R2 := fasi_registrate o [] 0);
    [| exact Hc | intros s; apply fasi_vuote, Hu].
  intros s s' s'' H1 H2. pose proof (fasi_composte _ _ _ _ _ _ _ H1 H2) as H.
  rewrite app_nil_r in H. exact H.
Qed.

Lemma fasi_intatte {A} o (m : Processo A) :
  garantisce m (conserva_ordini storia) -> garantisce m (fasi_registrate o [] 0).
Proof. apply garantisce_implica. intros s s'. apply fasi_vuote. Qed.

Lemma fasi_uguali {A} o l l' k k' (m : Processo A) :
  garantisce m (fasi_registrate o l k) -> l = l' -> k = k' ->
  garantisce m (fasi_registrate o l' k').
Proof. intros H <- <-. exact H. Qed.

Section Fasi.

Variable attesa_coda : nat -> Q.
Variable giri : nat.

Ltac noto_storia :=
  first [ apply ordini_attendi_turno_ciclo | apply ordini_avanza_tempo_ciclo
        | apply ordini_timeout ].

Ltac storia_intatta :=
  unfold fase_setup, fase_guasto, fase_lavorazione, gestisci_rilavorazione,
    StrategiaRD01_prelievo, attendi_turno_lavorativo, avanza_tempo_lavorativo,
    attendi_richiesta;
  apri;
  scomponi noto_storia ordini_intatti.

(** The closing block of an operation records its phase on the order. *)
Lemma fasi_fase_registrazione o m d t :
  garantisce (fase_registrazione o m d t) (fasi_registrate o [m] 0).
Proof.
  intros s a s' H. unfold fase_registrazione in H.
  unfold ambiente_now, ordine_di, aggiorna_macchina, aggiorna_ordine, bind, leggi,
    modifica in H.
  injection H as _ <-. exists O. split; [lia|].
  cbn. destruct (decide (o = o)) as [_|N]; [|congruence].
  cbn. rewrite ?app_nil_r, ?map_app. split; reflexivity.
Qed.

Lemma fasi_esegui_operazione o m d t v :
  garantisce (esegui_operazione attesa_coda giri o m d t v) (fasi_registrate o [m] 0).
Proof.
  unfold esegui_operazione. cbv zeta.
  apply (fasi_bind o [] [m]); [apply fasi_intatte; storia_intatta | intros cfg].
  apply (fasi_bind o [] [m]); [apply fasi_intatte; storia_intatta | intros _].
  apply (fasi_bind o [] [m]); [apply fasi_intatte; storia_intatta | intros pol].
  apply (fasi_bind o [] [m]); [apply fasi_intatte; storia_intatta | intros ord].
  apply (fasi_bind o [] [m]); [apply fasi_intatte; storia_intatta | intros _].
  apply fasi_finalmente; [| intros s r; reflexivity].
  apply (fasi_bind o [] [m]); [apply fasi_intatte; storia_intatta | intros _].
  apply (fasi_bind o [] [m]); [apply fasi_intatte; storia_intatta | intros _].
  apply (fasi_bind o [] [m]); [apply fasi_intatte; storia_intatta | intros _].
  apply (fasi_bind o [] [m]); [apply fasi_intatte; storia_intatta | intros _].
  apply (fasi_bind o [] [m]); [apply fasi_intatte; storia_intatta | intros r].
  apply fasi_fase_registrazione.
Qed.

Ltac passo_fasi :=
  lazymatch goal with
  | |- garantisce (esegui_operazione _ _ _ _ _ _ _) _ => apply fasi_esegui_operazione
  | |- garantisce (bind (gestisci_rilavorazione _ _ _) _) _ =>
      eapply fasi_bind_ripetute; [| intros ?]
  | |- garantisce _ (fasi_registrate _ ?l _) =>
      first [ is_evar l;
              lazymatch goal with
              | |- garantisce (bind _ _) _ => eapply fasi_bind; [| intros ?]
              | |- _ => apply fasi_intatte; solve [storia_intatta]
              end
            | apply fasi_intatte; solve [storia_intatta] ]
  end.

(** A roll for a rework adds a grinding and an inspection, or nothing. *)
Lemma fasi_gestisci_rilavorazione o :
  garantisce (gestisci_rilavorazione attesa_coda giri o) (fasi_registrate o [] 1).
Proof.
  unfold gestisci_rilavorazione.
  apply garantisce_bind_misto
    with (R1 := conserva_ordini storia) (R2 := fasi_registrate o [] 1);
    [ intros s s' s'' H1 H2;
      exact (fasi_composte o [] [] 1 s s' s'' (fasi_vuote o s s' H1) H2)
    | storia_intatta | intros tempi ].
  apply garantisce_bind_misto
    with (R1 := conserva_ordini storia) (R2 := fasi_registrate o [] 1);
    [ intros s s' s'' H1 H2;
      exact (fasi_composte o [] [] 1 s s' s'' (fasi_vuote o s s' H1) H2)
    | storia_intatta | intros u ].
  apply garantisce_bind_misto
    with (R1 := conserva_ordini storia) (R2 := fasi_registrate o [] 1);
    [ intros s s' s'' H1 H2;
      exact (fasi_composte o [] [] 1 s s' s'' (fasi_vuote o s s' H1) H2)
    | storia_intatta | intros p ].
  destruct (Py.ltb u p).
  - apply garantisce_implica with (R' := fasi_registrate o [RETTIFICA; BANCO_CONTROLLO] 0).
    + intros s s' [n [Hn [Hc Hl]]]. assert (n = O) by lia. subst n.
      exists 1%nat. split; [lia|]. split; [exact Hc | exact Hl].
    + eapply fasi_uguali; [repeat passo_fasi | reflexivity | reflexivity].
  - apply garantisce_implica with (R' := fasi_registrate o [] 0).
    + intros s s' [n [Hn [Hc Hl]]]. exists n. split; [lia|]. split; assumption.
    + apply garantisce_ret. intros s. apply fasi_vuote. reflexivity.
Qed.

Ltac passo_routing :=
  lazymatch goal with
  | |- garantisce (gestisci_rilavorazione _ _ _) _ => apply fasi_gestisci_rilavorazione
  | |- _ => passo_fasi
  end.

Lemma fasi_esegui_processo st o :
  garantisce (esegui_processo attesa_coda giri st o)
    (fasi_registrate o (fasi_principali st) (rilavorazioni_massime st)).
Proof.
  destruct st; simpl;
    unfold StrategiaFL01_esegui_processo, StrategiaPN03_esegui_processo,
      StrategiaIN07_esegui_processo, StrategiaRD01_esegui_processo;
    (eapply fasi_uguali; [repeat passo_routing | reflexivity | reflexivity]).
Qed.

Lemma fasi_StrategiaRD01_lavorazioni tempi o :
  garantisce (StrategiaRD01_lavorazioni attesa_coda giri tempi o)
    (fasi_registrate o (fasi_principali StrategiaRD01) 0).
Proof.
  unfold StrategiaRD01_lavorazioni.
  eapply fasi_uguali; [repeat passo_routing | reflexivity | reflexivity].
Qed.

End Fasi.

(** An assembly that runs in one stretch is a run through its waits where
    none occurs: every withdrawal is done at once. *)
Lemma assemblaggio_senza_attese attesa_coda giri o (s s' : SistemaProduttivo) :
  StrategiaRD01_esegui_processo attesa_coda giri o s = Fatto tt s' ->
  assemblaggio_con_attese attesa_coda giri o s s'.
Proof.
  intros H.
  change (StrategiaRD01_esegui_processo attesa_coda giri o)
    with (tempi <- leggi (fun s => tempi_lavorazione (configurazione s)) ;;
          StrategiaRD01_prelievo o ;;
          StrategiaRD01_lavorazioni attesa_coda giri tempi o) in H.
  rewrite bind_leggi in H.
  apply bind_fatto in H as ([] & s1 & Hp & Hl).
  exists s1. split; [|exact Hl].
  unfold StrategiaRD01_prelievo in Hp. rewrite bind_leggi in Hp.
  apply bind_fatto in Hp as ([] & sa & Ha & Hb). rewrite bind_leggi in Hb.
  exists sa. split.
  - destruct (magazzino_intermedio s FL_01).
    + apply preleva_subito. exact Ha.
    + injection Ha as <-. reflexivity.
  - destruct (magazzino_intermedio sa IN_07).
    + apply bind_fatto in Hb as ([] & sb & Hb1 & Hb2).
      exists sb. split; apply preleva_subito; assumption.
    + injection Hb as <-. reflexivity.
Qed.

(** The waits of an assembly record nothing on its order. *)
Lemma fasi_routing_completato (attesa_coda : nat -> Q) (giri : nat)
  (st : Strategia) (o : Rif) (s s' : SistemaProduttivo) :
  routing_completato attesa_coda giri st o s s' ->
  fasi_registrate o (fasi_principali st) (rilavorazioni_massime st) s s'.
Proof.
  intros [H | [-> (s1 & Hp & Hl)]].
  - exact (fasi_esegui_processo attesa_coda giri st o s tt s' H).
  - apply (campo_prelievo_con_attese storia o s s1 (fun c x => eq_refl)) in Hp.
    unfold campo_ordine, storia in Hp. injection Hp as E1 E2.
    destruct (fasi_StrategiaRD01_lavorazioni attesa_coda giri _ o s1 tt s' Hl)
      as (n & Hn & Hc & Hg).
    exists n. split; [exact Hn|]. rewrite Hc, Hg, E1, E2. split; reflexivity.
Qed.

(** X7.  The phases a completed routing records.  When the routing of an
    order runs to its end (in one stretch or, for an assembly, through the
    waits for its components), the order's history has grown by the
    operations of the routing in order (twice the inspection for a flange),
    followed for a pin or a gear by at most two reworks of a grinding and an
    inspection each; the phases of its operation log have grown by the
    same list. *)
Theorem fasi_di_un_ordine_completato (attesa_coda : nat -> Q) (giri : nat)
  (st : Strategia) (o : Rif) (s s' : SistemaProduttivo) :
  routing_completato attesa_coda giri st o s s' ->
  exists n, (n <= rilavorazioni_massime st)%nat
    /\ cronologia_fasi (oggetti s' o)
       = cronologia_fasi (oggetti s o) ++ fasi_principali st ++ rilavorazione n
    /\ map lav_fase (log_lavorazioni (oggetti s' o))
       = map lav_fase (log_lavorazioni (oggetti s o))
         ++ fasi_principali st ++ rilavorazione n.
Proof.
  intros H. exact (fasi_routing_completato attesa_coda giri st o s s' H).
Qed.

Lemma fasi_di_un_ordine_completato_witness :
  routing_completato senza_attesa 10 StrategiaPN03 O perno_lunedi
    (stato_finale esito_perno_lunedi)
  /\ exists n, (n <= rilavorazioni_massime StrategiaPN03)%nat
       /\ cronologia_fasi (oggetti (stato_finale esito_perno_lunedi) O)
          = cronologia_fasi (oggetti perno_lunedi O)
            ++ fasi_principali StrategiaPN03 ++ rilavorazione n
       /\ map lav_fase (log_lavorazioni (oggetti (stato_finale esito_perno_lunedi) O))
          = map lav_fase (log_lavorazioni (oggetti perno_lunedi O))
            ++ fasi_principali StrategiaPN03 ++ rilavorazione n.
Proof.
  assert (H : routing_completato senza_attesa 10 StrategiaPN03 O perno_lunedi
                (stato_finale esito_perno_lunedi))
    by (left; vm_compute; reflexivity).
  exact (conj H (fasi_di_un_ordine_completato senza_attesa 10 StrategiaPN03 O
                   perno_lunedi (stato_finale esito_perno_lunedi) H)).
Defined.

(** ** The order a run writes to *)

#[global] Instance solo_ordine_riflessiva o : Reflexive (solo_ordine o).
Proof. intros s r. split; reflexivity. Qed.

#[global] Instance solo_ordine_transitiva o : Transitive (solo_ordine o).
Proof.
  intros s s' s'' H1 H2 r. destruct (H1 r) as [A1 B1], (H2 r) as [A2 B2]. split.
  - rewrite A2. exact A1.
  - intros N. rewrite (B2 N). exact (B1 N).
Qed.

Ltac foglia_ordine :=
  repeat match goal with
         | |- context [con_deposito_items ?d] => is_var d; destruct d
         end;
  intros ?;
  first [ split; reflexivity
        | split;
          [ simpl; destruct (decide _); subst; reflexivity
          | intros ?; simpl; destruct (decide _); [congruence | reflexivity] ] ].

Lemma solo_timeout o d : assicura comunque (timeout d) (solo_ordine o).
Proof.
  unfold timeout. destruct (Py.ltb d 0).
  - apply assicura_solleva. typeclasses eauto.
  - apply assicura_modifica. intros s r. split; reflexivity.
Qed.

Section SoloOrdine.

Variable attesa_coda : nat -> Q.
Variable giri : nat.

Ltac apri_processo :=
  unfold rng_random, rng_randint, rng_uniform, store_put, store_get,
    ordine_di, ambiente_now, aggiorna_ordine, aggiorna_macchina, aggiorna_operatore,
    richiedi_accesso, attendi_richiesta, tempo_di, segna_completamento,
    deposita_se_presente, preleva_componente;
  cbv zeta.

Lemma solo_attendi_turno_ciclo o n cfg :
  assicura comunque (attendi_turno_ciclo n cfg) (solo_ordine o).
Proof.
  induction n as [|n IH]; simpl.
  - apply assicura_esaurito. typeclasses eauto.
  - apri_processo. smonta ltac:(first [exact IH | apply solo_timeout]) foglia_ordine.
Qed.

Lemma solo_avanza_tempo_ciclo o n d cfg :
  assicura comunque (avanza_tempo_ciclo giri n d cfg) (solo_ordine o).
Proof.
  revert d. induction n as [|n IH]; intros d; simpl.
  - destruct (Py.ltb _ _); [apply assicura_esaurito | apply assicura_ret]; typeclasses eauto.
  - apri_processo. unfold attendi_turno_lavorativo.
    smonta ltac:(first [apply IH | apply solo_attendi_turno_ciclo | apply solo_timeout])
           foglia_ordine.
Qed.

Ltac noto_ordine :=
  first [ apply solo_attendi_turno_ciclo | apply solo_avanza_tempo_ciclo
        | apply solo_timeout ].

Lemma solo_esegui_operazione o m d t v :
  assicura comunque (esegui_operazione attesa_coda giri o m d t v) (solo_ordine o).
Proof.
  unfold esegui_operazione, fase_setup, fase_guasto, fase_lavorazione,
    fase_registrazione, attendi_turno_lavorativo, avanza_tempo_lavorativo.
  apri_processo. smonta noto_ordine foglia_ordine.
Qed.

Lemma solo_limite_giornaliero_ciclo o n id_prodotto :
  assicura comunque (limite_giornaliero_ciclo n id_prodotto) (solo_ordine o).
Proof.
  induction n as [|n IH]; simpl.
  - apply assicura_esaurito. typeclasses eauto.
  - unfold limite_giornaliero_giro. apri_processo.
    smonta ltac:(first [exact IH | apply solo_timeout]) foglia_ordine.
Qed.

Lemma solo_elabora_ordine o :
  assicura comunque (elabora_ordine attesa_coda giri o) (solo_ordine o).
Proof.
  unfold elabora_ordine, avvia_strategia, esegui_processo,
    StrategiaFL01_esegui_processo, StrategiaPN03_esegui_processo,
    StrategiaIN07_esegui_processo, StrategiaRD01_esegui_processo,
    StrategiaRD01_prelievo, gestisci_rilavorazione.
  apri_processo.
  smonta ltac:(first [ apply solo_esegui_operazione
                     | apply solo_limite_giornaliero_ciclo ]) foglia_ordine.
Qed.

End SoloOrdine.

(** X8.  The run of an order writes to that order alone.  However
    [elabora_ordine] ends, every other work order in memory is what it was
    (the components an assembly has withdrawn among them), and of no order,
    its own included, have the identifier, the product, the creation time,
    the due date or the [consumato] flag changed. *)
Theorem ordini_altrui_intatti (attesa_coda : nat -> Q) (giri : nat) (o r : Rif)
  (s : SistemaProduttivo) :
  dati_anagrafici (oggetti (stato_finale (elabora_ordine attesa_coda giri o s)) r)
  = dati_anagrafici (oggetti s r)
  /\ (r <> o ->
      oggetti (stato_finale (elabora_ordine attesa_coda giri o s)) r = oggetti s r).
Proof.
  exact (solo_elabora_ordine attesa_coda giri o s eq_refl r).
Qed.

Lemma ordini_altrui_intatti_witness :
  O <> fst riduttore_lunedi
  /\ oggetti (stato_finale (elabora_ordine senza_attesa 10 (fst riduttore_lunedi)
                              (snd riduttore_lunedi))) O
     = oggetti (snd riduttore_lunedi) O.
Proof.
  assert (H : O <> fst riduttore_lunedi) by (vm_compute; intros E; discriminate E).
  exact (conj H (proj2 (ordini_altrui_intatti senza_attesa 10 (fst riduttore_lunedi) O
                          (snd riduttore_lunedi)) H)).
Defined.

(** ** Where a finished part goes *)

Lemma depositi_timeout d : garantisce (timeout d) (conserva depositi).
Proof.
  unfold timeout. destruct (Py.ltb d 0).
  - apply garantisce_solleva.
  - apply garantisce_modifica. intros s. reflexivity.
Qed.

(** [prima_dei_versamenti]: the stores are what they were and nothing was
    yielded on a store. *)
Definition prima_dei_versamenti (s s' : SistemaProduttivo) : Prop :=
  conserva depositi s s' /\ traccia_estesa senza_movimenti s s'.

Lemma prima_dei_versamenti_e {A} (m : Processo A) :
  garantisce m (conserva depositi) -> garantisce m (traccia_estesa senza_movimenti) ->
  garantisce m prima_dei_versamenti.
Proof. intros H1 H2 s a s' E. split; [exact (H1 s a s' E) | exact (H2 s a s' E)]. Qed.

Lemma versamenti_conservati st o (s s' : SistemaProduttivo) :
  conserva depositi s s' -> versamenti st o s' = versamenti st o s.
Proof.
  unfold conserva, depositi. intros E. injection E as Eb Em.
  unfold versamenti. f_equal. apply filter_ext. intros [p|p];
    unfold deposito_presente; simpl; rewrite ?Eb, ?Em; reflexivity.
Qed.

Lemma versato_dopo st o (s s' s'' : SistemaProduttivo) :
  prima_dei_versamenti s s' -> versato st o s' s'' -> versato st o s s''.
Proof.
  intros [Hd (l1 & E1 & F1)] (l2 & E2 & F2).
  exists (l1 ++ l2)%list. split.
  - rewrite E2, E1, (versamenti_conservati st o s s' Hd), <- !app_assoc. reflexivity.
  - apply Forall_app. split; assumption.
Qed.

Lemma versato_prima {A B} st o (m : Processo A) (k : A -> Processo B) :
  garantisce m prima_dei_versamenti ->
  (forall a, garantisce (k a) (versato st o)) ->
  garantisce (bind m k) (versato st o).
Proof.
  apply garantisce_bind_misto. intros s s' s''. apply versato_dopo.
Qed.

Ltac senza_movimento :=
  repeat match goal with
         | |- context [con_deposito_items ?d] => is_var d; destruct d
         end;
  first [ apply traccia_intatta; reflexivity
        | eapply traccia_annota; [| reflexivity]; reflexivity ].

Section Depositi.

Variable attesa_coda : nat -> Q.
Variable giri : nat.

Ltac depositi_intatti := intros; reflexivity.

Lemma depositi_attendi_turno_ciclo n cfg :
  garantisce (attendi_turno_ciclo n cfg) (conserva depositi).
Proof.
  induction n as [|n IH]; simpl.
  - apply garantisce_esaurito.
  - apri. scomponi ltac:(first [exact IH | apply depositi_timeout]) depositi_intatti.
Qed.

Lemma depositi_avanza_tempo_ciclo n durata cfg :
  garantisce (avanza_tempo_ciclo giri n durata cfg) (conserva depositi).
Proof.
  revert durata. induction n as [|n IH]; intros durata; simpl.
  - destruct (Py.ltb _ _); [apply garantisce_esaurito | apply garantisce_ret; typeclasses eauto].
  - apri. unfold attendi_turno_lavorativo.
    scomponi ltac:(first [apply IH | apply depositi_attendi_turno_ciclo
                         | apply depositi_timeout]) depositi_intatti.
Qed.

Lemma depositi_esegui_operazione o m d t v :
  garantisce (esegui_operazione attesa_coda giri o m d t v) (conserva depositi).
Proof.
  unfold esegui_operazione, fase_setup, fase_guasto, fase_lavorazione,
    fase_registrazione.
  apri.
  unfold attendi_turno_lavorativo, avanza_tempo_lavorativo, attendi_richiesta.
  scomponi ltac:(first [ apply depositi_attendi_turno_ciclo
                       | apply depositi_avanza_tempo_ciclo
                       | apply depositi_timeout ]) depositi_intatti.
Qed.

Lemma depositi_gestisci_rilavorazione o :
  garantisce (gestisci_rilavorazione attesa_coda giri o) (conserva depositi).
Proof.
  unfold gestisci_rilavorazione. apri.
  scomponi ltac:(apply depositi_esegui_operazione) depositi_intatti.
Qed.

Lemma depositi_tempo_di tempi m p :
  garantisce (tempo_di tempi m p) (conserva depositi).
Proof. unfold tempo_di. scomponi fail depositi_intatti. Qed.

(** An operation yields delays, requests and releases: nothing on a
    store. *)
Lemma movimenti_attendi_turno_ciclo n cfg :
  garantisce (attendi_turno_ciclo n cfg) (traccia_estesa senza_movimenti).
Proof.
  induction n as [|n IH]; simpl.
  - apply garantisce_esaurito.
  - apri.
    scomponi ltac:(first [exact IH | apply traccia_timeout; reflexivity])
             senza_movimento.
Qed.

Lemma movimenti_avanza_tempo_ciclo n durata cfg :
  garantisce (avanza_tempo_ciclo giri n durata cfg) (traccia_estesa senza_movimenti).
Proof.
  revert durata. induction n as [|n IH]; intros durata; simpl.
  - destruct (Py.ltb _ _); [apply garantisce_esaurito | apply garantisce_ret; typeclasses eauto].
  - apri. unfold attendi_turno_lavorativo.
    scomponi ltac:(first [apply IH | apply movimenti_attendi_turno_ciclo
                         | apply traccia_timeout; reflexivity]) senza_movimento.
Qed.

Lemma movimenti_esegui_operazione o m d t v :
  garantisce (esegui_operazione attesa_coda giri o m d t v)
    (traccia_estesa senza_movimenti).
Proof.
  unfold esegui_operazione, fase_setup, fase_guasto, fase_lavorazione,
    fase_registrazione.
  apri.
  unfold attendi_turno_lavorativo, avanza_tempo_lavorativo, attendi_richiesta.
  scomponi ltac:(first [ apply movimenti_attendi_turno_ciclo
                       | apply movimenti_avanza_tempo_ciclo
                       | apply traccia_timeout; reflexivity ]) senza_movimento.
Qed.

Lemma movimenti_gestisci_rilavorazione o :
  garantisce (gestisci_rilavorazione attesa_coda giri o)
    (traccia_estesa senza_movimenti).
Proof.
  unfold gestisci_rilavorazione. apri.
  scomponi ltac:(apply movimenti_esegui_operazione) senza_movimento.
Qed.

Lemma movimenti_tempo_di tempi m p :
  garantisce (tempo_di tempi m p) (traccia_estesa senza_movimenti).
Proof. unfold tempo_di. scomponi fail senza_movimento. Qed.

Ltac prima_del_deposito :=
  repeat lazymatch goal with
         | |- garantisce (bind (deposita_se_presente _ _) _) _ => fail
         | |- garantisce (bind _ _) _ =>
             apply versato_prima;
             [ apply prima_dei_versamenti_e;
               [ first [ apply depositi_esegui_operazione
                       | apply depositi_gestisci_rilavorazione
                       | apply depositi_tempo_di
                       | apply garantisce_leggi; typeclasses eauto ]
               | first [ apply movimenti_esegui_operazione
                       | apply movimenti_gestisci_rilavorazione
                       | apply movimenti_tempo_di
                       | apply garantisce_leggi; typeclasses eauto ] ]
             | intros ? ]
         end.

Lemma versato_esegui_processo st o :
  st <> StrategiaRD01 ->
  garantisce (esegui_processo attesa_coda giri st o) (versato st o).
Proof.
  intros Hst. destruct st; [| | |congruence]; simpl;
    unfold StrategiaFL01_esegui_processo, StrategiaPN03_esegui_processo,
      StrategiaIN07_esegui_processo;
    cbv zeta; prima_del_deposito;
    intros s ? s' H;
    unfold deposita_se_presente, store_put, segna_completamento, ambiente_now,
      aggiorna_ordine, bind, leggi, modifica, ret in H;
    cbn in H.
  - destruct (buffer_scorte s FL_01) eqn:Eb;
      destruct (magazzino_intermedio s FL_01) eqn:Em;
      repeat (first [rewrite Eb in H | rewrite Em in H]; cbn in H);
      injection H as _ <-; exists []; (split; [|apply Forall_nil]);
      unfold versamenti, deposito_presente; cbn; rewrite ?Eb, ?Em; cbn;
      rewrite <- ?app_assoc, ?app_nil_r; reflexivity.
  - destruct (buffer_scorte s PN_03) eqn:Eb;
      repeat (rewrite Eb in H; cbn in H);
      injection H as _ <-; exists []; (split; [|apply Forall_nil]);
      unfold versamenti, deposito_presente; cbn; rewrite ?Eb; cbn;
      rewrite <- ?app_assoc, ?app_nil_r; reflexivity.
  - destruct (buffer_scorte s IN_07) eqn:Eb;
      destruct (magazzino_intermedio s IN_07) eqn:Em;
      repeat (first [rewrite Eb in H | rewrite Em in H]; cbn in H);
      injection H as _ <-; exists []; (split; [|apply Forall_nil]);
      unfold versamenti, deposito_presente; cbn; rewrite ?Eb, ?Em; cbn;
      rewrite <- ?app_assoc, ?app_nil_r; reflexivity.
Qed.

End Depositi.

(** X9.  Where a finished part goes.  When the routing of a flange, a pin or
    a gear runs to its end, the last events it has yielded are its deposits:
    a put of the order on the stock buffer of its product and then, for a
    flange and a gear, a put of the same order on the store of that product
    in the intermediate warehouse, each if the plant has such a store; and
    before them the routing has yielded nothing on any store, neither a put
    nor a get.  (What the stores hold afterwards is not the routing's alone
    to decide: a put on the intermediate warehouse is handed to an assembly
    that waits for it.) *)
Theorem deposito_dell_ordine_completato (attesa_coda : nat -> Q) (giri : nat)
  (st : Strategia) (o : Rif) (s s' : SistemaProduttivo) :
  st <> StrategiaRD01 ->
  esegui_processo attesa_coda giri st o s = Fatto tt s' ->
  exists l,
    env_traccia (ambiente s')
    = env_traccia (ambiente s) ++ l
      ++ map (fun d => EvPut d o) (List.filter (deposito_presente s) (destinazioni st))
    /\ Forall (fun e => movimento_di_deposito e = false) l.
Proof.
  intros Hst H. exact (versato_esegui_processo attesa_coda giri st o Hst s tt s' H).
Qed.

Lemma deposito_dell_ordine_completato_witness :
  StrategiaFL01 <> StrategiaRD01
  /\ esegui_processo senza_attesa 10 StrategiaFL01 O flangia_lunedi
     = Fatto tt (stato_finale esito_flangia_lunedi)
  /\ exists l,
       env_traccia (ambiente (stato_finale esito_flangia_lunedi))
       = env_traccia (ambiente flangia_lunedi) ++ l
         ++ map (fun d => EvPut d O)
              (List.filter (deposito_presente flangia_lunedi)
                 (destinazioni StrategiaFL01))
       /\ Forall (fun e => movimento_di_deposito e = false) l.
Proof.
  assert (Hst : StrategiaFL01 <> StrategiaRD01) by (intros E; discriminate E).
  assert (H : esegui_processo senza_attesa 10 StrategiaFL01 O flangia_lunedi
              = Fatto tt (stato_finale esito_flangia_lunedi))
    by (vm_compute; reflexivity).
  exact (conj Hst (conj H
    (deposito_dell_ordine_completato senza_attesa 10 StrategiaFL01 O flangia_lunedi
       (stato_finale esito_flangia_lunedi) Hst H))).
Defined.

(** ** An assembly short of components *)



(** ** An order without a routing *)

Lemma strategie_limite_giornaliero_giro id_prodotto :
  garantisce (limite_giornaliero_giro id_prodotto) (conserva strategie).
Proof.
  unfold limite_giornaliero_giro, ambiente_now. cbv zeta.
  assert (Ht : forall d, garantisce (timeout d) (conserva strategie)).
  { intros d. unfold timeout. destruct (Py.ltb d 0).
    - apply garantisce_solleva.
    - apply garantisce_modifica. intros s. reflexivity. }
  scomponi ltac:(apply Ht) ltac:(reflexivity).
Qed.

(** [al_cancello]: the table of the routings is what it was, and nothing
    but delays was yielded. *)
Definition al_cancello (s s' : SistemaProduttivo) : Prop :=
  strategie s' = strategie s /\ traccia_estesa solo_attesa s s'.

#[global] Instance al_cancello_riflessiva : Reflexive al_cancello.
Proof. intros s. split; reflexivity. Qed.

#[global] Instance al_cancello_transitiva : Transitive al_cancello.
Proof.
  intros s s' s'' [E1 T1] [E2 T2]. split; [congruence | etransitivity; eassumption].
Qed.

Lemma cancello_timeout d : assicura comunque (timeout d) al_cancello.
Proof.
  unfold timeout. destruct (Py.ltb d 0).
  - apply assicura_solleva. typeclasses eauto.
  - apply assicura_modifica. intros s. split; [reflexivity|].
    eapply traccia_annota; [| reflexivity]. exact I.
Qed.

(** However the gate of the caps is left, it has yielded its waits and
    nothing else. *)
Lemma cancello_limite_giornaliero_ciclo n id_prodotto :
  assicura comunque (limite_giornaliero_ciclo n id_prodotto) al_cancello.
Proof.
  induction n as [|n IH]; simpl.
  - apply assicura_esaurito. typeclasses eauto.
  - unfold limite_giornaliero_giro, ambiente_now. cbv zeta.
    smonta ltac:(first [exact IH | apply cancello_timeout])
           ltac:(split; [reflexivity | apply traccia_intatta; reflexivity]).
Qed.

(** An order without a routing is never dispatched. *)
Lemma mai_avviato (attesa_coda : nat -> Q) (giri : nat) (o : Rif)
  (s : SistemaProduttivo) :
  strategie s !! prodotto_id (prodotto (oggetti s o)) = None ->
  completato (elabora_ordine attesa_coda giri o s) = false
  /\ traccia_estesa solo_attesa s (stato_finale (elabora_ordine attesa_coda giri o s)).
Proof.
  intros Hs.
  set (id_prodotto := prodotto_id (prodotto (oggetti s o))) in *.
  assert (Hd : forall s1, strategie s1 = strategie s ->
            avvia_strategia attesa_coda giri o id_prodotto s1
            = Sollevata (ValueError ("Routing Sheet non definita per " ++ id_prodotto)) s1).
  { intros s1 E. unfold avvia_strategia. rewrite bind_leggi, E, Hs. reflexivity. }
  unfold elabora_ordine, ordine_di. rewrite !bind_leggi. cbv zeta. fold id_prodotto.
  destruct (has_limits (configurazione s)).
  - pose proof (cancello_limite_giornaliero_ciclo giri id_prodotto s eq_refl) as Hc.
    unfold bind.
    destruct (limite_giornaliero_ciclo giri id_prodotto s) as [u s1|s1|e s1|s1];
      simpl in Hc; destruct Hc as [E T].
    + rewrite (Hd s1 E). split; [reflexivity | exact T].
    + split; [reflexivity | exact T].
    + split; [reflexivity | exact T].
    + split; [reflexivity | exact T].
  - unfold bind, ret. rewrite (Hd s eq_refl).
    split; reflexivity.
Qed.

(** X11.  An order for a product without a routing is never dispatched:
    however [elabora_ordine] ends it does not complete, and it has yielded
    nothing but the waits of the gate of the daily caps (no resource is
    requested, no store touched).  When no cap is met at its release, or
    none is configured, it is refused at once with a [ValueError], with
    nothing yielded and the clock where it was; but when a cap is configured
    that refusal comes after the gate, and the order has taken its place in
    the day's count. *)
Theorem ordine_senza_routing (attesa_coda : nat -> Q) (n : nat) (o : Rif)
  (s : SistemaProduttivo) :
  strategie s !! prodotto_id (prodotto (oggetti s o)) = None ->
  completato (elabora_ordine attesa_coda (S n) o s) = false
  /\ traccia_estesa solo_attesa s
       (stato_finale (elabora_ordine attesa_coda (S n) o s))
  /\ ((has_limits (configurazione s) = true ->
       0 <= env_now (ambiente s)
       /\ (0 <= orario_inizio_turno (configurazione s))%Z
       /\ limite_raggiunto (prodotto_id (prodotto (oggetti s o))) s = false) ->
      exists s',
        elabora_ordine attesa_coda (S n) o s
        = Sollevata
            (ValueError ("Routing Sheet non definita per "
                         ++ prodotto_id (prodotto (oggetti s o)))) s'
        /\ env_traccia (ambiente s') = env_traccia (ambiente s)
        /\ env_now (ambiente s') = env_now (ambiente s)
        /\ produzione_giornaliera_totale s'
           = if has_limits (configurazione s) then (totale_oggi s + 1)%Z
             else produzione_giornaliera_totale s).
Proof.
  intros Hs.
  destruct (mai_avviato attesa_coda (S n) o s Hs) as [Hn Ht].
  split; [exact Hn|]. split; [exact Ht|]. intros Hc.
  set (id_prodotto := prodotto_id (prodotto (oggetti s o))) in *.
  unfold elabora_ordine, ordine_di. rewrite !bind_leggi. cbv zeta.
  fold id_prodotto.
  destruct (has_limits (configurazione s)) eqn:El.
  - destruct (Hc eq_refl) as (H0 & Hi & Hr).
    destruct (giro_limite id_prodotto s H0 Hi) as (s' & Hg & _ & Hf).
    rewrite Hr in Hg, Hf. destruct Hf as (Htr & Hnow & Htot & _).
    exists s'. split; [| repeat (split; [assumption|]); exact Htot].
    unfold bind at 1. simpl limite_giornaliero_ciclo. unfold bind at 1.
    rewrite Hg. cbn [negb]. unfold ret at 1.
    unfold avvia_strategia. rewrite bind_leggi.
    rewrite (strategie_limite_giornaliero_giro id_prodotto s _ s' Hg), Hs.
    reflexivity.
  - exists s. split; [| repeat split; reflexivity].
    unfold bind at 1. unfold ret at 1.
    unfold avvia_strategia. rewrite bind_leggi, Hs. reflexivity.
Qed.

Lemma ordine_senza_routing_witness :
  strategie ordine_senza_strategia
    !! prodotto_id (prodotto (oggetti ordine_senza_strategia O)) = None
  /\ completato (elabora_ordine senza_attesa 10 O ordine_senza_strategia) = false
  /\ traccia_estesa solo_attesa ordine_senza_strategia
       (stato_finale (elabora_ordine senza_attesa 10 O ordine_senza_strategia))
  /\ ((has_limits (configurazione ordine_senza_strategia) = true ->
       0 <= env_now (ambiente ordine_senza_strategia)
       /\ (0 <= orario_inizio_turno (configurazione ordine_senza_strategia))%Z
       /\ limite_raggiunto (prodotto_id (prodotto (oggetti ordine_senza_strategia O)))
            ordine_senza_strategia = false) ->
      exists s',
        elabora_ordine senza_attesa 10 O ordine_senza_strategia
        = Sollevata
            (ValueError ("Routing Sheet non definita per "
                         ++ prodotto_id (prodotto (oggetti ordine_senza_strategia O)))) s'
        /\ env_traccia (ambiente s') = env_traccia (ambiente ordine_senza_strategia)
        /\ env_now (ambiente s') = env_now (ambiente ordine_senza_strategia)
        /\ produzione_giornaliera_totale s'
           = if has_limits (configurazione ordine_senza_strategia)
             then (totale_oggi ordine_senza_strategia + 1)%Z
             else produzione_giornaliera_totale ordine_senza_strategia).
Proof.
  assert (Hs : strategie ordine_senza_strategia
                 !! prodotto_id (prodotto (oggetti ordine_senza_strategia O)) = None)
    by (vm_compute; reflexivity).
  exact (conj Hs (ordine_senza_routing senza_attesa 9 O ordine_senza_strategia Hs)).
Defined.

(** ** Revenue and margin *)

Lemma max_zero_monotono (a b : Q) : a <= b -> Py.max 0 a <= Py.max 0 b.
Proof.
  intros H. unfold Py.max.
  destruct (Py.ltb 0 a) eqn:Ea, (Py.ltb 0 b) eqn:Eb;
    try apply ltb_true_lt in Ea; try apply ltb_true_lt in Eb;
    try apply ltb_false_le in Ea; try apply ltb_false_le in Eb; lra.
Qed.

Lemma max_zero_non_positivo (a : Q) : a <= 0 -> Py.max 0 a = 0.
Proof.
  intros H. unfold Py.max. destruct (Py.ltb 0 a) eqn:E; [|reflexivity].
  apply ltb_true_lt in E. lra.
Qed.

(** X12.  Revenue under the late penalty.  With a price list and a penalty
    rate that is not negative, the revenue of a completed order is never
    negative and never above the list price of its product (or zero, for a
    negative or missing price); it is that price exactly when the order is
    completed by its due date; and completing later never pays more. *)
Theorem ricavo_effettivo_con_penale (g : GestoreEconomico) (listino : gmap string Q)
  (id_prodotto : string) (t t' scad : Q) :
  prezzi g = Some listino ->
  0 <= penale_al_minuto g ->
  t <= t' ->
  exists r r',
    calcola_ricavo_effettivo g id_prodotto (Some t) scad = inr r
    /\ calcola_ricavo_effettivo g id_prodotto (Some t') scad = inr r'
    /\ 0 <= r'
    /\ r' <= r
    /\ r <= Py.max 0 (default 0 (listino !! id_prodotto))
    /\ (t <= scad -> r == Py.max 0 (default 0 (listino !! id_prodotto))).
Proof.
  intros Hp Hpen Ht. unfold calcola_ricavo_effettivo. rewrite Hp. cbv zeta.
  eexists. eexists. split; [reflexivity|]. split; [reflexivity|].
  pose proof (max_soglia 0 (t - scad)) as Hr.
  pose proof (max_zero_monotono (t - scad) (t' - scad) ltac:(lra)) as Hm.
  split; [apply max_soglia|].
  split; [apply max_zero_monotono; nra|].
  split; [apply max_zero_monotono; nra|].
  intros Hs. rewrite (max_zero_non_positivo (t - scad)) by lra.
  unfold Py.max, Py.ltb.
  assert (E : default 0 (listino !! id_prodotto) - 0 * penale_al_minuto g
              == default 0 (listino !! id_prodotto)) by ring.
  rewrite E. destruct (negb _); [exact E | reflexivity].
Qed.

Lemma ricavo_effettivo_con_penale_witness :
  prezzi gestore_con_penale = Some listino_uniforme
  /\ 0 <= penale_al_minuto gestore_con_penale
  /\ 100 <= 400
  /\ exists r r',
       calcola_ricavo_effettivo gestore_con_penale "RD-01" (Some 100) 200 = inr r
       /\ calcola_ricavo_effettivo gestore_con_penale "RD-01" (Some 400) 200 = inr r'
       /\ 0 <= r'
       /\ r' <= r
       /\ r <= Py.max 0 (default 0 (listino_uniforme !! "RD-01"))
       /\ (100 <= 200 -> r == Py.max 0 (default 0 (listino_uniforme !! "RD-01"))).
Proof.
  assert (Hp : prezzi gestore_con_penale = Some listino_uniforme) by reflexivity.
  assert (Hpen : 0 <= penale_al_minuto gestore_con_penale)
    by (vm_compute; intros E; discriminate E).
  assert (Ht : 100 <= 400) by (vm_compute; intros E; discriminate E).
  exact (conj Hp (conj Hpen (conj Ht
    (ricavo_effettivo_con_penale gestore_con_penale listino_uniforme "RD-01" 100 400 200
       Hp Hpen Ht)))).
Defined.

Lemma costo_componenti_diretto (listino : gmap string Q)
  (margine : Rif -> ErroreEconomico + Q) (diretto : Rif -> Q)
  (memoria : Rif -> OrdineDiLavoro) (componenti : list Rif) :
  (forall c m, In c componenti -> margine c = inr m ->
     m == default 0 (listino !! prodotto_id (prodotto (memoria c))) - diretto c) ->
  forall acc acc' costo,
    acc == acc' ->
    costo_componenti listino margine memoria componenti acc = inr costo ->
    costo == fold_left (fun x c => x + diretto c) componenti acc'.
Proof.
  induction componenti as [|c resto IH]; intros Hm acc acc' costo Ha H; simpl in *.
  - injection H as <-. exact Ha.
  - destruct (margine c) as [e|m] eqn:Em; [discriminate H|].
    eapply IH; [intros c' m' Hin; apply Hm; right; exact Hin | | exact H].
    rewrite (Hm c m (or_introl eq_refl) Em), Ha. ring.
Qed.

Lemma margine_e_costo_diretto (profondita : nat) (g : GestoreEconomico)
  (listino : gmap string Q) (memoria : Rif -> OrdineDiLavoro) :
  prezzi g = Some listino ->
  forall ordine m,
    calcola_margine_contribuzione profondita g memoria ordine = inr m ->
    m == default 0 (listino !! prodotto_id (prodotto (memoria ordine)))
         - costo_diretto profondita g memoria ordine.
Proof.
  intros Hp. induction profondita as [|p IH]; intros ordine m H; simpl in H.
  - discriminate H.
  - rewrite Hp in H.
    destruct (costo_componenti _ _ _ _ _) as [e|costo] eqn:Ec; [discriminate H|].
    injection H as <-.
    eapply (costo_componenti_diretto listino _ (costo_diretto p g memoria)) in Ec;
      [| intros c m' _ Hm; apply IH; exact Hm | reflexivity].
    simpl. rewrite Ec. reflexivity.
Qed.

(** X13.  The margin of an assembled order.  When
    [calcola_margine_contribuzione] returns, the margin is the list price of
    the order's product less the direct cost of the order, that is the cost
    of its own operations and of the operations of every component it has
    consumed, down the assembly: the prices of the components cancel out and
    play no part in it. *)
Theorem margine_al_netto_dei_costi_diretti (profondita : nat) (g : GestoreEconomico)
  (listino : gmap string Q) (memoria : Rif -> OrdineDiLavoro) (ordine : Rif) (m : Q) :
  prezzi g = Some listino ->
  calcola_margine_contribuzione profondita g memoria ordine = inr m ->
  m == default 0 (listino !! prodotto_id (prodotto (memoria ordine)))
       - costo_diretto profondita g memoria ordine.
Proof.
  intros Hp H. exact (margine_e_costo_diretto profondita g listino memoria Hp ordine m H).
Qed.

Lemma margine_al_netto_dei_costi_diretti_witness :
  prezzi gestore_base = Some listino_base
  /\ calcola_margine_contribuzione 5 gestore_base
       (oggetti (stato_finale esito_riduttore_lunedi)) (fst riduttore_lunedi)
     = inr (6228000 # 14400)
  /\ (6228000 # 14400)
     == default 0 (listino_base
                   !! prodotto_id
                        (prodotto (oggetti (stato_finale esito_riduttore_lunedi)
                                     (fst riduttore_lunedi))))
        - costo_diretto 5 gestore_base (oggetti (stato_finale esito_riduttore_lunedi))
            (fst riduttore_lunedi).
Proof.
  assert (Hp : prezzi gestore_base = Some listino_base) by reflexivity.
  assert (H : calcola_margine_contribuzione 5 gestore_base
                (oggetti (stato_finale esito_riduttore_lunedi)) (fst riduttore_lunedi)
              = inr (6228000 # 14400))
    by (vm_compute; reflexivity).
  exact (conj Hp (conj H
    (margine_al_netto_dei_costi_diretti 5 gestore_base listino_base
       (oggetti (stato_finale esito_riduttore_lunedi)) (fst riduttore_lunedi)
       (6228000 # 14400) Hp H))).
Defined.

(** ** The quality figure *)

Lemma prodotto_esegui_processo attesa_coda giri st o :
  garantisce (esegui_processo attesa_coda giri st o) (conserva_ordini prodotto).
Proof.
  assert (Hop : forall o m d t v,
    garantisce (esegui_operazione attesa_coda giri o m d t v)
      (conserva_ordini prodotto))
    by (intros; apply ordini_esegui_operazione; reflexivity).
  destruct st; simpl;
    unfold StrategiaFL01_esegui_processo, StrategiaPN03_esegui_processo,
      StrategiaIN07_esegui_processo, StrategiaRD01_esegui_processo,
      StrategiaRD01_prelievo, gestisci_rilavorazione;
    apri; scomponi ltac:(first [apply Hop | apply ordini_timeout]) ordini_intatti.
Qed.

Lemma strategia_standard_di (id_prodotto : string) (st : Strategia) :
  strategie_standard !! id_prodotto = Some st ->
  id_prodotto = match st with
                | StrategiaFL01 => "FL-01"
                | StrategiaPN03 => "PN-03"
                | StrategiaIN07 => "IN-07"
                | StrategiaRD01 => "RD-01"
                end.
Proof.
  unfold strategie_standard. intros H.
  repeat (apply lookup_insert_Some in H; destruct H as [[<- <-]|[_ H]]; [reflexivity|]).
  apply lookup_singleton_Some in H. destruct H as [<- <-]. reflexivity.
Qed.

Lemma prodotto_routing_completato (attesa_coda : nat -> Q) (giri : nat)
  (st : Strategia) (o : Rif) (s s' : SistemaProduttivo) :
  routing_completato attesa_coda giri st o s s' ->
  prodotto (oggetti s' o) = prodotto (oggetti s o).
Proof.
  intros [H | [_ (s1 & Hp & Hl)]].
  - exact (prodotto_esegui_processo attesa_coda giri st o s tt s' H o).
  - rewrite (ordini_StrategiaRD01_lavorazioni attesa_coda giri prodotto _ o
               (fun f x => eq_refl) (fun l x => eq_refl) (fun t x => eq_refl)
               s1 tt s' Hl o).
    exact (campo_prelievo_con_attese prodotto o s s1 (fun c x => eq_refl) Hp).
Qed.

(** X14.  What the quality figure counts.  For an order that enters its
    routing with an empty history and whose routing, the one the standard
    table gives for its product, runs to its end (in one stretch or, for an
    assembly, through the waits for its components), the quality rule of
    the performance report counts the order defective exactly when its
    history is not the plain list of the routing's operations, that is when
    at least one rework was rolled; a flange or an assembly is never
    counted. *)
Theorem difettoso_quando_rilavorato (attesa_coda : nat -> Q) (giri : nat)
  (st : Strategia) (o : Rif) (s s' : SistemaProduttivo) :
  strategie_standard !! prodotto_id (prodotto (oggetti s o)) = Some st ->
  cronologia_fasi (oggetti s o) = [] ->
  routing_completato attesa_coda giri st o s s' ->
  pezzo_difettoso (oggetti s' o)
  = negb (bool_decide (cronologia_fasi (oggetti s' o) = fasi_principali st))
  /\ (st = StrategiaFL01 \/ st = StrategiaRD01 -> pezzo_difettoso (oggetti s' o) = false).
Proof.
  intros Hst Hc H.
  apply strategia_standard_di in Hst.
  pose proof (prodotto_routing_completato attesa_coda giri st o s s' H) as Hp.
  destruct (fasi_routing_completato attesa_coda giri st o s s' H) as (n & Hn & Hf & _).
  rewrite Hc in Hf. unfold pezzo_difettoso. rewrite Hp, Hst, Hf.
  destruct st; simpl in Hn;
    (destruct n as [|[|[|n]]]; [| | |lia]);
    first [ lia
          | split; [vm_compute; reflexivity | intros [E|E]; first [discriminate E | vm_compute; reflexivity]] ].
Qed.

Lemma difettoso_quando_rilavorato_witness :
  strategie_standard !! prodotto_id (prodotto (oggetti assemblaggio_a_corto O))
  = Some StrategiaRD01
  /\ cronologia_fasi (oggetti assemblaggio_a_corto O) = []
  /\ routing_completato senza_attesa 10 StrategiaRD01 O assemblaggio_a_corto
       (stato_finale esito_assemblaggio_rifornito)
  /\ pezzo_difettoso (oggetti (stato_finale esito_assemblaggio_rifornito) O)
     = negb (bool_decide
               (cronologia_fasi (oggetti (stato_finale esito_assemblaggio_rifornito) O)
                = fasi_principali StrategiaRD01))
  /\ (StrategiaRD01 = StrategiaFL01 \/ StrategiaRD01 = StrategiaRD01 ->
      pezzo_difettoso (oggetti (stato_finale esito_assemblaggio_rifornito) O) = false).
Proof.
  assert (Hst : strategie_standard
                  !! prodotto_id (prodotto (oggetti assemblaggio_a_corto O))
                = Some StrategiaRD01) by (vm_compute; reflexivity).
  assert (Hc : cronologia_fasi (oggetti assemblaggio_a_corto O) = [])
    by (vm_compute; reflexivity).
  exact (conj Hst (conj Hc (conj assemblaggio_rifornito_completato
    (difettoso_quando_rilavorato senza_attesa 10 StrategiaRD01 O assemblaggio_a_corto
       (stato_finale esito_assemblaggio_rifornito) Hst Hc
       assemblaggio_rifornito_completato)))).
Defined.

(** ** The material balance of a batch *)

(** The inner loop adds to each component of the list its quantity times
    the quantity ordered, and leaves the others as they were. *)
Lemma fabbisogno_di_un_prodotto (qty_ordine : Z) (componenti : gmap string Z)
  (iniziale : gmap string Z) (c : string) :
  map_fold
    (fun componente qty_per_unit fabbisogno =>
       <[componente := (default 0 (fabbisogno !! componente)
                        + qty_ordine * qty_per_unit)%Z]> fabbisogno)
    iniziale componenti !! c
  = match componenti !! c with
    | Some q => Some (default 0 (iniziale !! c) + qty_ordine * q)%Z
    | None => iniziale !! c
    end.
Proof.
  revert c.
  apply (map_fold_weak_ind (fun r m => forall c,
    r !! c = match m !! c with
             | Some q => Some (default 0 (iniziale !! c) + qty_ordine * q)%Z
             | None => iniziale !! c
             end)).
  - intros c. rewrite lookup_empty. reflexivity.
  - intros i x m r Hi IH c. destruct (decide (c = i)) as [->|N].
    + rewrite !lookup_insert_eq, (IH i), Hi. reflexivity.
    + rewrite !lookup_insert_ne by congruence. apply IH.
Qed.

Lemma fabbisogno_di_insert distinta (m : gmap string Z) (i : string) (x : Z) c :
  m !! i = None ->
  fabbisogno_di distinta (<[i := x]> m) c
  = (fabbisogno_di distinta m c + x * default 0 (distinta !! i ≫= (.!! c)))%Z.
Proof.
  intros Hi. unfold fabbisogno_di.
  rewrite map_fold_insert_L; [reflexivity | | exact Hi].
  intros. lia.
Qed.

Lemma richiesto_insert distinta (m : gmap string Z) (i : string) (x : Z) c :
  m !! i = None ->
  richiesto distinta (<[i := x]> m) c
  <-> richiesto distinta m c \/ is_Some (distinta !! i ≫= (.!! c)).
Proof.
  intros Hi. split.
  - intros (p & q & comps & Hp & Hd & Hc). destruct (decide (p = i)) as [->|N].
    + right. rewrite Hd. exact Hc.
    + left. rewrite lookup_insert_ne in Hp by congruence. exists p, q, comps. auto.
  - intros [(p & q & comps & Hp & Hd & Hc) | Hs].
    + exists p, q, comps. split; [|auto].
      rewrite lookup_insert_ne; [exact Hp | intros ->; congruence].
    + destruct (distinta !! i) as [comps|] eqn:Hd; [|destruct Hs; discriminate].
      exists i, x, comps. split; [apply lookup_insert_eq | auto].
Qed.

(** What the first loop has gathered: an entry for each component listed for
    a planned product, holding what the plan calls for of it. *)
Lemma fabbisogno_componenti_spec distinta (piano : gmap string Z) (c : string) :
  (is_Some (fabbisogno_componenti distinta piano !! c) <-> richiesto distinta piano c)
  /\ default 0%Z (fabbisogno_componenti distinta piano !! c)
     = fabbisogno_di distinta piano c.
Proof.
  revert c. unfold fabbisogno_componenti.
  apply (map_fold_weak_ind (fun r m => forall c,
    (is_Some (r !! c) <-> richiesto distinta m c)
    /\ default 0%Z (r !! c) = fabbisogno_di distinta m c)).
  - intros c. rewrite lookup_empty. split; [|reflexivity]. split.
    + intros [? H]. discriminate H.
    + intros (p & q & comps & Hp & _). rewrite lookup_empty in Hp. discriminate Hp.
  - intros i x m r Hi IH c. destruct (IH c) as [IHs IHv].
    rewrite (richiesto_insert _ _ _ _ _ Hi), (fabbisogno_di_insert _ _ _ _ _ Hi).
    destruct (distinta !! i) as [comps|] eqn:Hd; simpl.
    + rewrite fabbisogno_di_un_prodotto.
      destruct (comps !! c) as [q|] eqn:Hq; simpl.
      * split; [|lia]. split; [intros _; right; eauto | intros _; eauto].
      * split; [|lia]. rewrite IHs. split; [auto | intros [H|[? H]]; [exact H | discriminate H]].
    + split; [|lia]. rewrite IHs. split; [auto | intros [H|[? H]]; [exact H | discriminate H]].
Qed.

Lemma bilancio_caratterizzato (cfg : ConfigurazioneSimulazione) (s : SistemaProduttivo)
  (piano : gmap string Z) :
  check_material_balance cfg s piano = inr tt
  <-> forall c,
        richiesto (default ∅ (distinta_base cfg)) piano c ->
        (fabbisogno_di (default ∅ (distinta_base cfg)) piano c
         <= default 0 (piano !! c) + stock_iniziale s c)%Z.
Proof.
  unfold check_material_balance. cbv zeta.
  set (distinta := default ∅ (distinta_base cfg)).
  destruct (forallb _ _) eqn:E.
  - split; [intros _ | reflexivity]. intros c Hc.
    destruct (fabbisogno_componenti_spec distinta piano c) as [Hs Hv].
    apply Hs in Hc. destruct Hc as [v Hl]. rewrite Hl in Hv. simpl in Hv. subst v.
    rewrite forallb_forall in E.
    specialize (E (c, fabbisogno_di distinta piano c)).
    rewrite <- list_elem_of_In, elem_of_map_to_list in E.
    specialize (E Hl). simpl in E. apply negb_true_iff, Z.ltb_ge in E. exact E.
  - split; [discriminate|]. intros H. exfalso.
    assert (forallb
      (fun voce : string * Z =>
         negb (default 0 (piano !! voce.1) + stock_iniziale s voce.1 <? voce.2)%Z)
      (map_to_list (fabbisogno_componenti distinta piano)) = true) as E'.
    { apply forallb_forall. intros [c v] Hin.
      rewrite <- list_elem_of_In, elem_of_map_to_list in Hin.
      destruct (fabbisogno_componenti_spec distinta piano c) as [Hs Hv].
      rewrite Hin in Hv. simpl in Hv. subst v.
      simpl. apply negb_true_iff, Z.ltb_ge. apply H, Hs. eauto. }
    congruence.
Qed.

(** X15.  What the material balance checks.  [_check_material_balance]
    lets a plan through exactly when, for every component the bill of
    materials lists for a planned product, the quantity the whole plan calls
    for (ordered quantity times quantity per unit, summed over the planned
    products) is covered by the quantity planned of the component itself
    plus the items in its store of the intermediate warehouse. *)
Theorem bilancio_materiali (cfg : ConfigurazioneSimulazione) (s : SistemaProduttivo)
  (quantita_pianificate : gmap string Z) :
  check_material_balance cfg s quantita_pianificate = inr tt
  <-> forall c,
        richiesto (default ∅ (distinta_base cfg)) quantita_pianificate c ->
        (fabbisogno_di (default ∅ (distinta_base cfg)) quantita_pianificate c
         <= default 0 (quantita_pianificate !! c) + stock_iniziale s c)%Z.
Proof. apply bilancio_caratterizzato. Qed.

Lemma randint_non_sotto (a b : Z) (g g' : Random) (z : Z) :
  (forall n, 0 <= variati g n) ->
  randint a b g = inr (z, g') ->
  (a <= z)%Z /\ (forall n, 0 <= variati g' n).
Proof.
  intros Hg. unfold randint. destruct (b <? a)%Z eqn:E; [discriminate|].
  apply Z.ltb_ge in E.
  assert (0 <= Qfloor (fst (estrai g) * inject_Z (b - a + 1)))%Z as Hf.
  { assert (0 <= fst (estrai g) * inject_Z (b - a + 1)) as Hp.
    { apply Qmult_le_0_compat; [apply Hg|].
      change (inject_Z 0 <= inject_Z (b - a + 1)). rewrite <- Zle_Qle. lia. }
    apply Qfloor_resp_le in Hp. exact Hp. }
  revert Hf. generalize (Qfloor (fst (estrai g) * inject_Z (b - a + 1))).
  intros f Hf H. injection H as <- <-. split; [lia | exact Hg].
Qed.

Lemma fabbisogno_di_distinta_base (piano : gmap string Z) (c : string) :
  fabbisogno_di distinta_base_base piano c
  = (default 0 (piano !! "RD-01")
     * default 0 (({[ "FL-01" := 1; "PN-03" := 2 ]} : gmap string Z) !! c))%Z.
Proof.
  unfold fabbisogno_di.
  apply (map_fold_weak_ind (fun r m =>
    r = (default 0 (m !! "RD-01")
         * default 0 (({[ "FL-01" := 1; "PN-03" := 2 ]} : gmap string Z) !! c))%Z)).
  - rewrite lookup_empty. reflexivity.
  - intros i x m r Hi ->. unfold distinta_base_base.
    destruct (decide (i = "RD-01")) as [->|N].
    + rewrite (lookup_insert_eq m "RD-01" x), lookup_singleton_eq, Hi. simpl. lia.
    + rewrite (lookup_insert_ne m i "RD-01" x) by congruence.
      rewrite (lookup_singleton_ne "RD-01" i) by congruence. simpl. lia.
Qed.

Lemma richiesto_distinta_base (piano : gmap string Z) (c : string) :
  richiesto distinta_base_base piano c -> c = "FL-01" \/ c = "PN-03".
Proof.
  intros (p & q & comps & _ & Hd & Hc). unfold distinta_base_base in Hd.
  apply lookup_singleton_Some in Hd. destruct Hd as [_ <-].
  apply lookup_insert_is_Some in Hc. destruct Hc as [<-|[_ Hc]]; [left; reflexivity|].
  apply lookup_singleton_is_Some in Hc. right. symmetry. exact Hc.
Qed.

Lemma stock_iniziale_non_negativo (s : SistemaProduttivo) (c : string) :
  (0 <= stock_iniziale s c)%Z.
Proof.
  unfold stock_iniziale. destruct (prodotto_da_valore c) as [p|]; [|lia].
  destruct (magazzino_intermedio s p); lia.
Qed.

(** X16.  The stochastic batch is balanced.  With a generator whose variates
    are not negative, [genera_quantita_lotto_stocastico] returns a plan, and
    under the bill of materials of the base and of the stochastic
    configuration (one flange and two pins for an assembly) that plan passes
    [_check_material_balance], whatever the warehouse holds. *)
Theorem lotto_stocastico_bilanciato (g : Random) (cfg : ConfigurazioneSimulazione)
  (s : SistemaProduttivo) :
  (forall n, 0 <= variati g n) ->
  distinta_base cfg = Some distinta_base_base ->
  exists quantita g',
    genera_quantita_lotto_stocastico g = inr (quantita, g')
    /\ check_material_balance cfg s quantita = inr tt.
Proof.
  intros Hg Hd. unfold genera_quantita_lotto_stocastico.
  destruct (randint 50 80 g) as [e|[rd g1]] eqn:E1; [discriminate E1|].
  destruct (randint_non_sotto _ _ _ _ _ Hg E1) as [Hrd Hg1].
  destruct (randint 20 50 g1) as [e|[xf g2]] eqn:E2; [discriminate E2|].
  destruct (randint_non_sotto _ _ _ _ _ Hg1 E2) as [Hxf Hg2].
  destruct (randint 20 50 g2) as [e|[xp g3]] eqn:E3; [discriminate E3|].
  destruct (randint_non_sotto _ _ _ _ _ Hg2 E3) as [Hxp Hg3].
  destruct (randint 100 160 g3) as [e|[qi g4]] eqn:E4; [discriminate E4|].
  cbv zeta. eexists. eexists. split; [reflexivity|].
  apply bilancio_caratterizzato. rewrite Hd. simpl default at 1 2.
  intros c Hc. rewrite fabbisogno_di_distinta_base.
  pose proof (stock_iniziale_non_negativo s c) as Hs.
  rewrite !lookup_insert_ne, lookup_singleton_eq by discriminate.
  apply richiesto_distinta_base in Hc. destruct Hc as [-> | ->].
  - rewrite !lookup_insert_eq. simpl. lia.
  - rewrite !lookup_insert_ne by discriminate.
    rewrite lookup_insert_eq, lookup_singleton_eq. simpl. lia.
Qed.

Lemma lotto_stocastico_bilanciato_witness :
  (forall n, 0 <= variati (rng_costante (1 # 2)) n)
  /\ distinta_base crea_configurazione_base = Some distinta_base_base
  /\ exists quantita g',
       genera_quantita_lotto_stocastico (rng_costante (1 # 2)) = inr (quantita, g')
       /\ check_material_balance crea_configurazione_base flangia_lunedi quantita = inr tt.
Proof.
  assert (Hg : forall n, 0 <= variati (rng_costante (1 # 2)) n)
    by (intros n; vm_compute; intros E; discriminate E).
  assert (Hd : distinta_base crea_configurazione_base = Some distinta_base_base)
    by reflexivity.
  exact (conj Hg (conj Hd
    (lotto_stocastico_bilanciato (rng_costante (1 # 2)) crea_configurazione_base
       flangia_lunedi Hg Hd))).
Defined.

(** ** What the constructor accepts *)

Lemma prima_capacita_invalida_spec (caps : NomeRisorsa -> option Z)
  (l : list NomeRisorsa) :
  match prima_capacita_invalida caps l with
  | Some _ => exists r, In r l /\ (default 1 (caps r) < 1)%Z
  | None => forall r, In r l -> (1 <= default 1 (caps r))%Z
  end.
Proof.
  induction l as [|n l IH]; simpl.
  - intros r [].
  - unfold RisorsaProduttiva_init.
    destruct (default 1 (caps n) <? 1)%Z eqn:E.
    + exists n. split; [left; reflexivity | apply Z.ltb_lt, E].
    + apply Z.ltb_ge in E. destruct (prima_capacita_invalida caps l).
      * destruct IH as (r & Hr & Hc). exists r. split; [right; exact Hr | exact Hc].
      * intros r [<-|Hr]; [exact E | apply IH, Hr].
Qed.

(** X18.  What the constructor accepts.  [SistemaProduttivo.__init__] raises
    exactly when the capacity configured for a machine or an operator (one,
    when none is configured) is below one; otherwise every resource of the
    system it builds has its configured capacity, no time on its counters
    and no product set up, so that the books of the resources start
    balanced. *)
Theorem costruzione_e_capacita (amb : Environment) (cal : option GestoreTempo)
  (strat : gmap string Strategia) (cfg : ConfigurazioneSimulazione)
  (g : Random) (pol : PoliticaSchedulazione) :
  match SistemaProduttivo_init amb cal strat cfg g pol with
  | inl _ => exists r, (default 1 (capacita cfg r) < 1)%Z
  | inr s =>
      (forall r, (1 <= default 1 (capacita cfg r))%Z)
      /\ (forall m, macchinari s m = risorsa_di (capacita cfg) (Macchina m))
      /\ (forall t, operatori s t = risorsa_di (capacita cfg) (Addetto t))
      /\ contabilita s
  end.
Proof.
  unfold SistemaProduttivo_init.
  destruct (scorte_iniziali quantita_iniziali _ _) as [m mag].
  pose proof (prima_capacita_invalida_spec (capacita cfg)
    (map Macchina tutti_macchinari ++ map Addetto [GENERICO; SPECIALIZZATO])) as H.
  destruct (prima_capacita_invalida _ _).
  - destruct H as (r & _ & Hr). exists r. exact Hr.
  - split; [|split; [|split]]; try (intros; reflexivity).
    + intros r. apply H. destruct r as [x|x]; destruct x; simpl; tauto.
    + split; intros x; reflexivity.
Qed.

(** ** The record of an operation *)

#[global] Instance stabile_riflessiva : Reflexive stabile.
Proof. intros s. repeat split; reflexivity. Qed.

#[global] Instance stabile_transitiva : Transitive stabile.
Proof.
  intros s s' s'' (A1 & B1 & C1) (A2 & B2 & C2).
  split; [congruence|]. split; [congruence|].
  intros r. rewrite C2. apply C1.
Qed.

Lemma stabile_quadro (s s' : SistemaProduttivo) : conserva quadro s s' -> stabile s s'.
Proof.
  unfold conserva, quadro, stabile. intros E. injection E as A B C.
  rewrite A, B, C. repeat split; reflexivity.
Qed.

Lemma quadro_timeout d : garantisce (timeout d) (conserva quadro).
Proof.
  unfold timeout. destruct (Py.ltb d 0).
  - apply garantisce_solleva.
  - apply garantisce_modifica. intros s. reflexivity.
Qed.

Lemma quadro_attendi_turno_ciclo n cfg :
  garantisce (attendi_turno_ciclo n cfg) (conserva quadro).
Proof.
  induction n as [|n IH]; simpl.
  - apply garantisce_esaurito.
  - apri. scomponi ltac:(first [exact IH | apply quadro_timeout]) ltac:(reflexivity).
Qed.

Lemma quadro_avanza_tempo_ciclo giri n durata cfg :
  garantisce (avanza_tempo_ciclo giri n durata cfg) (conserva quadro).
Proof.
  revert durata. induction n as [|n IH]; intros durata; simpl.
  - destruct (Py.ltb _ _); [apply garantisce_esaurito | apply garantisce_ret; typeclasses eauto].
  - apri. unfold attendi_turno_lavorativo.
    scomponi ltac:(first [apply IH | apply quadro_attendi_turno_ciclo
                         | apply quadro_timeout]) ltac:(reflexivity).
Qed.

Ltac foglia_stabile :=
  first [ apply stabile_quadro; reflexivity
        | split; [reflexivity|]; split; [reflexivity|];
          intros ?; first [ reflexivity
                          | simpl; destruct (decide _); subst; reflexivity ] ].

Ltac noto_stabile :=
  first [ apply (garantisce_implica _ _ _ stabile_quadro), quadro_attendi_turno_ciclo
        | apply (garantisce_implica _ _ _ stabile_quadro), quadro_avanza_tempo_ciclo
        | apply (garantisce_implica _ _ _ stabile_quadro), quadro_timeout ].

Lemma stabile_rng_random : garantisce rng_random stabile.
Proof.
  intros s a s' H. unfold rng_random, bind, leggi, modifica, ret in H.
  injection H as _ <-. repeat split; reflexivity.
Qed.

Lemma stabile_rng_randint a b : garantisce (rng_randint a b) stabile.
Proof.
  intros s z s' H. unfold rng_randint, bind, leggi, modifica, ret, solleva in H.
  destruct (b <? a)%Z; [discriminate H|].
  injection H as _ <-. repeat split; reflexivity.
Qed.

Ltac apri_senza_rng :=
  unfold store_put, store_get, ordine_di, ambiente_now, aggiorna_ordine,
    aggiorna_macchina, aggiorna_operatore, richiedi_accesso, tempo_di,
    segna_completamento, deposita_se_presente, preleva_componente;
  cbv zeta.

Lemma stabile_fase_setup o m : garantisce (fase_setup o m) stabile.
Proof. unfold fase_setup. apri. scomponi noto_stabile ltac:(solve [foglia_stabile]). Qed.

Lemma stabile_fase_guasto giri m : garantisce (fase_guasto giri m) stabile.
Proof.
  unfold fase_guasto, avanza_tempo_lavorativo. apri_senza_rng.
  scomponi ltac:(first [ noto_stabile | apply stabile_rng_random
                       | apply stabile_rng_randint ])
           ltac:(solve [foglia_stabile]).
Qed.
Lemma lavorazione_senza_operatore attesa_coda giri m d v p s r s1 :
  fase_lavorazione attesa_coda giri m d None v p s = Fatto r s1 ->
  exists k,
    fst r = durata_effettiva_con (configurazione s) d (variati (rng s) k)
    /\ oggetti s1 = oggetti s.
Proof.
  unfold fase_lavorazione. cbv zeta. rewrite bind_leggi.
  unfold rng_uniform. unfold bind at 1. rewrite bind_leggi.
  unfold bind at 1. unfold modifica at 1. unfold ret at 1.
  unfold bind at 1. unfold timeout.
  destruct (Py.ltb _ 0); [intros H; discriminate H|].
  unfold modifica, bind, aggiorna_macchina, modifica, ret. intros H.
  injection H as <- <-. exists (estratti (rng s)).
  split; reflexivity.
Qed.

Lemma lavorazione_con_operatore attesa_coda giri m d tipo v p s r s1 :
  fase_lavorazione attesa_coda giri m d (Some tipo) v p s = Fatto r s1 ->
  exists k,
    fst r = durata_effettiva_con (configurazione s) d (variati (rng s) k)
    /\ oggetti s1 = oggetti s.
Proof.
  unfold fase_lavorazione. cbv zeta.
  match goal with
  | |- context [if ?b then SPECIALIZZATO else tipo] =>
      set (tipo' := if b then SPECIALIZZATO else tipo)
  end.
  unfold bind at 1. unfold richiedi_accesso, modifica at 1.
  unfold finalmente.
  match goal with |- match ?c ?st with _ => _ end = _ -> _ =>
    destruct (c st) as [r' sb| | |] eqn:Hb; try discriminate end.
  intros H. injection H as <- <-.
  apply bind_fatto in Hb. destruct Hb as (? & sc & Hc & Hb).
  unfold attendi_richiesta, modifica in Hc. injection Hc as _ <-.
  rewrite bind_leggi in Hb.
  apply bind_fatto in Hb. destruct Hb as (? & sd & Hd & Hb).
  apply quadro_attendi_turno_ciclo in Hd. unfold conserva, quadro in Hd.
  injection Hd as Hcfg Hrng Hogg.
  revert Hb. unfold rng_uniform. unfold bind at 1. rewrite bind_leggi.
  unfold bind at 1. unfold modifica at 1. unfold ret at 1.
  unfold bind at 1. unfold timeout.
  destruct (Py.ltb _ 0); [intros H; discriminate H|].
  unfold modifica, bind, aggiorna_macchina, aggiorna_operatore, modifica, ret. intros H.
  injection H as <- <-. exists (estratti (rng s)).
  cbn [fst snd configurazione rng oggetti con_ambiente annota] in Hcfg, Hrng, Hogg.
  cbn [fst snd oggetti con_macchinari con_operatori avanza_orologio annota
       con_ambiente con_rng].
  split; [rewrite Hrng; reflexivity | exact Hogg].
Qed.
Lemma registrata_dopo_stabile o m d (s s1 s' : SistemaProduttivo) :
  stabile s s1 -> lavorazione_registrata o m d s1 s' -> lavorazione_registrata o m d s s'.
Proof.
  intros (Hc & Hr & Hl) (l & k & E1 & E2 & E3 & E4 & E5).
  exists l, k. rewrite <- Hc, <- Hr, <- (Hl o). repeat split; assumption.
Qed.

Lemma registrata_e_rilascio o m d e (s s1 : SistemaProduttivo) :
  lavorazione_registrata o m d s s1 -> lavorazione_registrata o m d s (annota e s1).
Proof.
  intros (l & k & E1 & E2 & E3 & E4 & E5). exists l, k. repeat split; assumption.
Qed.

Lemma registrata_prima {A B} o m d (p : Processo A) (f : A -> Processo B) :
  garantisce p stabile ->
  (forall a, garantisce (f a) (lavorazione_registrata o m d)) ->
  garantisce (bind p f) (lavorazione_registrata o m d).
Proof.
  apply garantisce_bind_misto. intros s s' s''. apply registrata_dopo_stabile.
Qed.

Lemma registrata_coda attesa_coda giri o m d t v p :
  garantisce
    (r <- fase_lavorazione attesa_coda giri m d t v p ;;
     fase_registrazione o m (fst r) (snd r))
    (lavorazione_registrata o m d).
Proof.
  intros s a s' H. apply bind_fatto in H. destruct H as (r & s1 & H1 & H2).
  assert (exists k,
    fst r = durata_effettiva_con (configurazione s) d (variati (rng s) k)
    /\ oggetti s1 = oggetti s)
    as (k & Hd & Ho).
  { destruct t as [tipo|].
    - eapply lavorazione_con_operatore, H1.
    - eapply lavorazione_senza_operatore, H1. }
  unfold fase_registrazione, ambiente_now, ordine_di, aggiorna_macchina, aggiorna_ordine,
    bind, leggi, modifica in H2.
  injection H2 as _ <-.
  eexists. exists k.
  cbn [oggetti con_oggetti macchinari con_macchinari ambiente env_now].
  destruct (decide (o = o)) as [_|N]; [|congruence].
  cbn [log_lavorazioni aggiungi_lavorazione traccia_fase oggetti con_oggetti].
  destruct (decide (o = o)) as [_|N]; [|congruence].
  cbn [log_lavorazioni aggiungi_lavorazione traccia_fase].
  rewrite Ho, <- Hd.
  split; [reflexivity|]. cbn [lav_fase lav_durata lav_fine lav_inizio].
  repeat split; reflexivity.
Qed.

Lemma registrata_esegui_operazione attesa_coda giri o m d t v :
  garantisce (esegui_operazione attesa_coda giri o m d t v)
    (lavorazione_registrata o m d).
Proof.
  unfold esegui_operazione. cbv zeta.
  apply registrata_prima; [apply garantisce_leggi; typeclasses eauto | intros cfg].
  apply registrata_prima;
    [apply (garantisce_implica _ _ _ stabile_quadro), quadro_attendi_turno_ciclo | intros _].
  apply registrata_prima; [apply garantisce_leggi; typeclasses eauto | intros pol].
  apply registrata_prima; [apply garantisce_leggi; typeclasses eauto | intros ord].
  apply registrata_prima;
    [apply garantisce_modifica; intros s; apply stabile_quadro; reflexivity | intros _].
  apply garantisce_finalmente_misto
    with (R1 := lavorazione_registrata o m d)
         (R2 := fun s s' => s' = annota (EvRelease (Macchina m)) s);
    [ intros s s' s'' H ->; apply registrata_e_rilascio, H | | reflexivity ].
  apply registrata_prima;
    [apply garantisce_modifica; intros s; apply stabile_quadro; reflexivity | intros _].
  apply registrata_prima; [apply stabile_fase_setup | intros _].
  apply registrata_prima;
    [apply (garantisce_implica _ _ _ stabile_quadro), quadro_attendi_turno_ciclo | intros _].
  apply registrata_prima; [apply stabile_fase_guasto | intros _].
  apply registrata_coda.
Qed.

Lemma max_monotono (c a b : Q) : a <= b -> Py.max c a <= Py.max c b.
Proof.
  intros H. unfold Py.max.
  destruct (Py.ltb c a) eqn:Ea, (Py.ltb c b) eqn:Eb;
    try apply ltb_true_lt in Ea; try apply ltb_true_lt in Eb;
    try apply ltb_false_le in Ea; try apply ltb_false_le in Eb; lra.
Qed.

Lemma max_secondo (c a : Q) : a <= Py.max c a.
Proof.
  unfold Py.max. destruct (Py.ltb c a) eqn:E; [lra|].
  apply ltb_false_le in E. exact E.
Qed.

(** X19.  The record of an operation.  When [esegui_operazione] returns, the
    log of the order has grown by one entry, for the machine of the
    operation, that ends at the time on the clock and starts its duration
    earlier; with a base duration and a variability that are not negative
    and variates between 0 and 1, the duration is at least a thousandth of
    a minute and lies between the base duration shortened and lengthened by
    the variability (or the thousandth, if that is more). *)
Theorem lavorazione_a_registro (attesa_coda : nat -> Q) (giri : nat) (o : Rif)
  (m : TipoMacchinario) (d : Q) (t : option TipoOperatore) (v : bool)
  (s s' : SistemaProduttivo) :
  0 <= d ->
  0 <= fattore_variabilita_processo (configurazione s) ->
  (forall k, 0 <= variati (rng s) k /\ variati (rng s) k <= 1) ->
  esegui_operazione attesa_coda giri o m d t v s = Fatto tt s' ->
  exists l,
    log_lavorazioni (oggetti s' o) = log_lavorazioni (oggetti s o) ++ [l]
    /\ lav_fase l = m
    /\ lav_fine l = env_now (ambiente s')
    /\ lav_inizio l = lav_fine l - lav_durata l
    /\ (1 # 1000) <= lav_durata l
    /\ d * (1 - fattore_variabilita_processo (configurazione s)) <= lav_durata l
    /\ lav_durata l
       <= Py.max (1 # 1000) (d * (1 + fattore_variabilita_processo (configurazione s))).
Proof.
  intros Hd Hv Hu H.
  destruct (registrata_esegui_operazione attesa_coda giri o m d t v s tt s' H)
    as (l & k & E1 & E2 & E3 & E4 & E5).
  exists l. repeat (split; [assumption|]).
  rewrite E3. unfold durata_effettiva_con. cbv zeta.
  destruct (Hu k) as [Hu0 Hu1].
  set (var := fattore_variabilita_processo (configurazione s)) in *.
  set (u := variati (rng s) k) in *.
  assert (H0 : 0 <= var * u) by (apply Qmult_le_0_compat; assumption).
  assert (H1 : var * u <= var) by nra.
  assert (H2 : 0 <= d * (var * u)) by (apply Qmult_le_0_compat; assumption).
  assert (H3 : d * (var * u) <= d * var) by nra.
  split; [apply max_soglia|]. split.
  - eapply Qle_trans; [|apply max_secondo]. lra.
  - apply max_monotono. lra.
Qed.

Lemma lavorazione_a_registro_witness :
  0 <= 21 # 2
  /\ 0 <= fattore_variabilita_processo (configurazione taglio_spt)
  /\ (forall k, 0 <= variati (rng taglio_spt) k /\ variati (rng taglio_spt) k <= 1)
  /\ esegui_operazione senza_attesa 10 O TRONCATRICE (21 # 2) (Some GENERICO) false
       taglio_spt
     = Fatto tt (stato_finale esito_taglio_spt)
  /\ exists l,
       log_lavorazioni (oggetti (stato_finale esito_taglio_spt) O)
       = log_lavorazioni (oggetti taglio_spt O) ++ [l]
       /\ lav_fase l = TRONCATRICE
       /\ lav_fine l = env_now (ambiente (stato_finale esito_taglio_spt))
       /\ lav_inizio l = lav_fine l - lav_durata l
       /\ (1 # 1000) <= lav_durata l
       /\ (21 # 2) * (1 - fattore_variabilita_processo (configurazione taglio_spt))
          <= lav_durata l
       /\ lav_durata l
          <= Py.max (1 # 1000)
               ((21 # 2) * (1 + fattore_variabilita_processo (configurazione taglio_spt))).
Proof.
  assert (Hd : 0 <= 21 # 2) by (vm_compute; intros E; discriminate E).
  assert (Hv : 0 <= fattore_variabilita_processo (configurazione taglio_spt))
    by (vm_compute; intros E; discriminate E).
  assert (Hu : forall k, 0 <= variati (rng taglio_spt) k /\ variati (rng taglio_spt) k <= 1)
    by (intros k; split; vm_compute; intros E; discriminate E).
  assert (H : esegui_operazione senza_attesa 10 O TRONCATRICE (21 # 2) (Some GENERICO)
                false taglio_spt
              = Fatto tt (stato_finale esito_taglio_spt))
    by (vm_compute; reflexivity).
  exact (conj Hd (conj Hv (conj Hu (conj H
    (lavorazione_a_registro senza_attesa 10 O TRONCATRICE (21 # 2) (Some GENERICO) false
       taglio_spt (stato_finale esito_taglio_spt) Hd Hv Hu H))))).
Defined.

(** ** The stock monitor *)

(** What the creation of orders leaves alone. *)
Lemma genera_riordini_spec (p : TipoProdotto) (indici : list nat) (s : SistemaProduttivo) :
  exists s',
    genera_riordini p indici s = Fatto (seq (oggetti_creati s) (length indici)) s'
    /\ oggetti_creati s' = (oggetti_creati s + length indici)%nat
    /\ map (oggetti s') (seq (oggetti_creati s) (length indici))
       = map (ordine_di_riordino p (env_now (ambiente s))) indici
    /\ (forall r, (r < oggetti_creati s)%nat -> oggetti s' r = oggetti s r)
    /\ ambiente s' = ambiente s
    /\ configurazione s' = configurazione s
    /\ depositi s' = depositi s.
Proof.
  revert s. induction indici as [|i resto IH]; intros s.
  - exists s. simpl. rewrite Nat.add_0_r. repeat split; reflexivity.
  - set (s1 := snd (registra_ordine
                      (ordine_di_riordino p (env_now (ambiente s)) i) s)).
    assert (Hcrea : crea_riordino p i s = Fatto (oggetti_creati s) s1) by reflexivity.
    destruct (IH s1) as (s' & Hg & Hn & Hm & Ho & Ha & Hc & Hd).
    exists s'. simpl genera_riordini. unfold bind at 1. rewrite Hcrea.
    unfold bind at 1. rewrite Hg. unfold ret.
    change (oggetti_creati s1) with (S (oggetti_creati s)) in *.
    change (ambiente s1) with (ambiente s) in *.
    change (configurazione s1) with (configurazione s) in *.
    change (depositi s1) with (depositi s) in *.
    split; [reflexivity|]. split; [simpl; lia|].
    split; [|split; [|split; [exact Ha | split; [exact Hc | exact Hd]]]].
    + simpl. f_equal; [|exact Hm].
      rewrite Ho by lia. unfold s1. simpl.
      destruct (decide _) as [_|N]; [reflexivity | congruence].
    + intros r Hr. rewrite Ho by lia. unfold s1. simpl.
      destruct (decide _) as [E|_]; [lia | reflexivity].
Qed.

Lemma controlla_scorta_spec (p : TipoProdotto) (s0 s : SistemaProduttivo) :
  configurazione s = configurazione s0 -> depositi s = depositi s0 ->
  exists s',
    controlla_scorta (default ∅ (livelli_scorta_minima (configurazione s0)))
      (default ∅ (lotto_riordino_standard (configurazione s0))) p s
    = Fatto (seq (oggetti_creati s) (riordino_dovuto s0 p)) s'
    /\ oggetti_creati s' = (oggetti_creati s + riordino_dovuto s0 p)%nat
    /\ map (oggetti s') (seq (oggetti_creati s) (riordino_dovuto s0 p))
       = map (ordine_di_riordino p (env_now (ambiente s)))
           (seq 0 (riordino_dovuto s0 p))
    /\ (forall r, (r < oggetti_creati s)%nat -> oggetti s' r = oggetti s r)
    /\ ambiente s' = ambiente s
    /\ configurazione s' = configurazione s
    /\ depositi s' = depositi s.
Proof.
  intros Hc Hd. unfold controlla_scorta, riordino_dovuto. rewrite bind_leggi.
  assert (Hb : buffer_scorte s p = buffer_scorte s0 p).
  { unfold depositi in Hd. injection Hd as -> _. reflexivity. }
  rewrite Hb.
  assert (Hnulla : exists s',
    ret [] s = Fatto (seq (oggetti_creati s) 0) s'
    /\ oggetti_creati s' = (oggetti_creati s + 0)%nat
    /\ map (oggetti s') (seq (oggetti_creati s) 0)
       = map (ordine_di_riordino p (env_now (ambiente s))) (seq 0 0)
    /\ (forall r, (r < oggetti_creati s)%nat -> oggetti s' r = oggetti s r)
    /\ ambiente s' = ambiente s
    /\ configurazione s' = configurazione s
    /\ depositi s' = depositi s).
  { exists s. rewrite Nat.add_0_r. repeat split; reflexivity. }
  destruct (buffer_scorte s0 p) as [items|]; [|exact Hnulla].
  destruct (_ !! valore_prodotto p) as [rop|]; [|exact Hnulla].
  cbv zeta. destruct (_ <? rop)%Z; [|exact Hnulla].
  match goal with |- context [genera_riordini p ?idx s] =>
    destruct (genera_riordini_spec p idx s) as (s' & Hg & Hn & Hm & Ho & Hrest) end.
  rewrite length_seq in Hg, Hn, Hm.
  exists s'. repeat split; try assumption; apply Hrest.
Qed.

Lemma controlla_scorte_spec (prodotti : list TipoProdotto) (s0 s : SistemaProduttivo) :
  configurazione s = configurazione s0 -> depositi s = depositi s0 ->
  exists s',
    controlla_scorte (default ∅ (livelli_scorta_minima (configurazione s0)))
      (default ∅ (lotto_riordino_standard (configurazione s0))) prodotti s
    = Fatto (seq (oggetti_creati s)
               (length (concat (map (fun p => seq 0 (riordino_dovuto s0 p)) prodotti)))) s'
    /\ map (oggetti s')
         (seq (oggetti_creati s)
            (length (concat (map (fun p => seq 0 (riordino_dovuto s0 p)) prodotti))))
       = concat (map (fun p => map (ordine_di_riordino p (env_now (ambiente s)))
                                 (seq 0 (riordino_dovuto s0 p)))
                   prodotti)
    /\ (forall r, (r < oggetti_creati s)%nat -> oggetti s' r = oggetti s r)
    /\ ambiente s' = ambiente s
    /\ configurazione s' = configurazione s
    /\ depositi s' = depositi s.
Proof.
  revert s. induction prodotti as [|p resto IH]; intros s Hc Hd.
  - exists s. repeat split; reflexivity.
  - simpl controlla_scorte.
    destruct (controlla_scorta_spec p s0 s Hc Hd)
      as (s1 & Hg1 & Hn1 & Hm1 & Ho1 & Ha1 & Hc1 & Hd1).
    destruct (IH s1 (eq_trans Hc1 Hc) (eq_trans Hd1 Hd))
      as (s' & Hg & Hm & Ho & Ha & Hc' & Hd').
    exists s'. unfold bind at 1. rewrite Hg1. unfold bind at 1. rewrite Hg. unfold ret.
    simpl map. simpl concat. rewrite length_app, length_seq, seq_app, Hn1.
    split; [reflexivity|]. split; [|split; [|split; [|split]]].
    + rewrite map_app. f_equal.
      * rewrite <- Hm1. apply map_ext_in. intros r Hr. apply in_seq in Hr.
        apply Ho. lia.
      * rewrite <- Hn1. etransitivity; [exact Hm | rewrite Ha1; reflexivity].
    + intros r Hr. rewrite Ho by lia. apply Ho1, Hr.
    + congruence.
    + congruence.
    + congruence.
Qed.

Lemma lunghezza_riordini (s : SistemaProduttivo) (prodotti : list TipoProdotto) :
  length (riordini_attesi s prodotti)
  = length (concat (map (fun p => seq 0 (riordino_dovuto s p)) prodotti)).
Proof.
  unfold riordini_attesi. induction prodotti as [|p l IH]; [reflexivity|].
  simpl. rewrite !length_app, length_map, IH. reflexivity.
Qed.

(** X20.  What a sweep of the stock monitor orders.  A sweep is an hour's
    wait followed by a check that yields nothing.  The check reads the
    stock as it is when the wait is over, whatever the other processes have
    put in it or taken from it in that hour: for each product in turn whose
    stock buffer then holds less than its reorder level, it creates a full
    lot of replenishment orders (the lot set for the product, ten when none
    is set), created at that time and due two days later; a product without
    a reorder level, or with stock at the level, gets none, and orders
    already on their way are not taken into account.  The check leaves the
    orders already in memory, the stores, the clock and the trace as it
    finds them. *)
Theorem riordino_sotto_scorta (s0 : SistemaProduttivo) :
  monitor_scorte_giro s0 = bind (timeout 60) (fun _ => monitor_scorte_controllo) s0
  /\ forall s : SistemaProduttivo,
       exists l s',
         monitor_scorte_controllo s = Fatto l s'
         /\ l = seq (oggetti_creati s) (length (riordini_attesi s tutti_prodotti))
         /\ map (oggetti s') l = riordini_attesi s tutti_prodotti
         /\ (forall r, (r < oggetti_creati s)%nat -> oggetti s' r = oggetti s r)
         /\ ambiente s' = ambiente s
         /\ depositi s' = depositi s.
Proof.
  split; [reflexivity|]. intros s.
  unfold monitor_scorte_controllo. rewrite bind_leggi. cbv zeta.
  destruct (controlla_scorte_spec tutti_prodotti s s eq_refl eq_refl)
    as (s' & Hg & Hm & Ho & Ha & _ & Hd).
  assert (El : length (riordini_attesi s tutti_prodotti)
               = length (concat (map (fun p => seq 0 (riordino_dovuto s p))
                                   tutti_prodotti)))
    by apply lunghezza_riordini.
  eexists. exists s'. split; [exact Hg|]. split; [rewrite El; reflexivity|].
  split; [exact Hm|]. split; [exact Ho|]. split; [exact Ha | exact Hd].
Qed.

(** ** The stochastic configuration *)

Lemma estrae_resa {A} (a : A) (P : A -> Prop) : P a -> estrae (resa a) P.
Proof. intros Ha g Hg. exists a, g. repeat split; [apply Hg.. | exact Ha]. Qed.

Lemma estrae_lega {A B} (m : Estratto A) (k : A -> Estratto B)
  (P : A -> Prop) (R : B -> Prop) :
  estrae m P -> (forall a, P a -> estrae (k a) R) -> estrae (lega m k) R.
Proof.
  intros Hm Hk g Hg. destruct (Hm g Hg) as (a & g1 & E1 & Hg1 & Ha).
  destruct (Hk a Ha g1 Hg1) as (b & g2 & E2 & Hg2 & Hb).
  exists b, g2. unfold lega. rewrite E1. repeat split; [exact E2 | apply Hg2.. | exact Hb].
Qed.

Lemma estrae_uniform (a b : Q) : estrae (uniform a b) (fun _ => True).
Proof.
  intros g Hg. eexists. eexists. split; [reflexivity|]. split; [exact Hg | exact I].
Qed.

Lemma estrae_randint (a b : Z) :
  (a <= b)%Z -> estrae (randint a b) (fun z => (a <= z <= b)%Z).
Proof.
  intros Hab g Hg. unfold randint.
  assert ((b <? a)%Z = false) as -> by (apply Z.ltb_ge; exact Hab).
  eexists. eexists. split; [reflexivity|]. split; [exact Hg|].
  destruct (Hg (estratti g)) as [H0 H1].
  change (fst (estrai g)) with (variati g (estratti g)).
  set (u := variati g (estratti g)) in *.
  assert (Hk : 0 < inject_Z (b - a + 1)).
  { change (inject_Z 0 < inject_Z (b - a + 1)). rewrite <- Zlt_Qlt. lia. }
  assert (Hlo : 0 <= u * inject_Z (b - a + 1)) by (apply Qmult_le_0_compat; lra).
  assert (Hhi : u * inject_Z (b - a + 1) < inject_Z (b - a + 1)) by nra.
  apply Qfloor_resp_le in Hlo. change (Qfloor 0) with 0%Z in Hlo.
  assert (Qfloor (u * inject_Z (b - a + 1)) < b - a + 1)%Z.
  { rewrite Zlt_Qlt. eapply Qle_lt_trans; [apply Qfloor_le | exact Hhi]. }
  lia.
Qed.

Lemma estrae_costi (l : list TipoMacchinario) :
  estrae (costi_macchinari l) (fun _ => True).
Proof.
  induction l as [|m l IH]; simpl.
  - apply estrae_resa. exact I.
  - eapply estrae_lega; [apply estrae_uniform | intros c _].
    eapply estrae_lega; [exact IH | intros tab _]. apply estrae_resa. exact I.
Qed.

Lemma estrae_riga (l : list TipoProdotto) :
  estrae (riga_tempi l)
    (fun riga => forall p, In p l ->
       exists t, riga !! valore_prodotto p = Some (inject_Z t) /\ (10 <= t <= 40)%Z).
Proof.
  induction l as [|p0 l IH]; simpl.
  - apply estrae_resa. intros p [].
  - eapply estrae_lega; [apply estrae_randint; lia | intros t Ht].
    eapply estrae_lega; [exact IH | intros riga Hr]. apply estrae_resa.
    intros p Hp.
    destruct (decide (valore_prodotto p0 = valore_prodotto p)) as [E|N].
    + exists t. rewrite E, lookup_insert_eq. split; [reflexivity | exact Ht].
    + rewrite lookup_insert_ne by exact N. apply Hr.
      destruct Hp as [->|Hp]; [congruence | exact Hp].
Qed.

Lemma estrae_tabella (l : list TipoMacchinario) :
  estrae (tabella_tempi l)
    (fun tab => forall m, In m l ->
       exists riga, tab m = Some riga
         /\ forall p, exists t,
              riga !! valore_prodotto p = Some (inject_Z t) /\ (10 <= t <= 40)%Z).
Proof.
  induction l as [|m0 l IH]; cbn [tabella_tempi].
  - apply estrae_resa. intros m [].
  - eapply estrae_lega; [apply (estrae_riga tutti_prodotti) | intros riga Hr].
    eapply estrae_lega; [exact IH | intros tab Ht]. apply estrae_resa.
    intros m Hm. destruct (decide (m = m0)) as [->|N].
    + exists riga. split; [reflexivity|]. intros p. apply Hr.
      destruct p; simpl; tauto.
    + apply Ht. destruct Hm as [->|Hm]; [congruence | exact Hm].
Qed.

Lemma estrae_capacita (l : list TipoMacchinario) :
  estrae (capacita_macchinari l)
    (fun tab => forall m, In m l -> exists c, tab m = Some c /\ (2 <= c <= 4)%Z).
Proof.
  induction l as [|m0 l IH]; simpl.
  - apply estrae_resa. intros m [].
  - eapply estrae_lega; [apply estrae_randint; lia | intros c Hc].
    eapply estrae_lega; [exact IH | intros tab Ht]. apply estrae_resa.
    intros m Hm. destruct (decide (m = m0)) as [->|N].
    + exists c. split; [reflexivity | exact Hc].
    + apply Ht. destruct Hm as [->|Hm]; [congruence | exact Hm].
Qed.

Lemma tutti_i_macchinari (m : TipoMacchinario) : In m tutti_macchinari.
Proof. destruct m; simpl; tauto. Qed.

(** What every stochastic configuration satisfies. *)
Lemma estrae_configurazione :
  estrae genera_configurazione_stocastica
    (fun r =>
       (forall x, (2 <= default 1 (capacita (fst r) x))%Z)
       /\ (forall m p, exists t,
             cerca_tempo (tempi_lavorazione (fst r)) m (valore_prodotto p)
             = Some (inject_Z t) /\ (10 <= t <= 40)%Z)
       /\ (forall id_prodotto, limiti_positivi id_prodotto (fst r))
       /\ distinta_base (fst r) = Some distinta_base_base).
Proof.
  unfold genera_configurazione_stocastica.
  eapply estrae_lega; [apply estrae_costi | intros costo_macchine _].
  eapply estrae_lega; [apply estrae_uniform | intros cg _].
  eapply estrae_lega; [apply estrae_uniform | intros cs _]. cbv zeta.
  eapply estrae_lega; [apply estrae_tabella | intros tempi Ht].
  eapply estrae_lega; [apply estrae_capacita | intros capm Hc].
  eapply estrae_lega; [apply estrae_randint; lia | intros capg Hg].
  eapply estrae_lega; [apply estrae_randint; lia | intros caps Hs].
  eapply estrae_lega; [apply estrae_randint; lia | intros l1 H1].
  eapply estrae_lega; [apply estrae_randint; lia | intros l2 H2].
  eapply estrae_lega; [apply estrae_randint; lia | intros l3 H3].
  eapply estrae_lega; [apply estrae_randint; lia | intros l4 H4].
  eapply estrae_lega; [apply estrae_randint; lia | intros lt Hlt].
  intros g Hsano. cbv beta in Ht, Hc, Hg, Hs, H1, H2, H3, H4, Hlt. unfold post_init.
  cbn [probabilita_rifacimento].
  change (Py.leb 0 (2 # 100) && Py.leb (2 # 100) 1) with true. cbv iota.
  eexists. exists g. split; [reflexivity|]. split; [exact Hsano|].
  cbn [fst capacita tempi_lavorazione distinta_base].
  split; [|split; [|split; [|reflexivity]]].
  - intros [m|[|]]; cbn [default].
    + destruct (Hc m (tutti_i_macchinari m)) as (c & -> & Hcm). simpl. lia.
    + simpl. lia.
    + simpl. lia.
  - intros m p. destruct (Ht m (tutti_i_macchinari m)) as (riga & E & Hr).
    unfold cerca_tempo. rewrite E. apply Hr.
  - intros id_prodotto. split.
    + intros tabella l Htab Hl.
      cbn [limiti_produzione_giornaliera] in Htab. injection Htab as <-.
      repeat (apply lookup_insert_Some in Hl; destruct Hl as [[_ <-]|[_ Hl]]; [lia|]).
      apply lookup_singleton_Some in Hl. destruct Hl as [_ <-]. lia.
    + intros l Hl. cbn [limite_produzione_totale_giornaliera] in Hl.
      injection Hl as <-. lia.
Qed.

(** X21.  Every stochastic configuration is fit to run.  With variates in
    [0, 1), [genera_configurazione_stocastica] raises nothing and returns a
    configuration that the constructor of the production system accepts
    (every capacity is two at least), in which every machine has a
    processing time, of 10 to 40 minutes, for every product (no routing can
    miss one), whose daily caps admit at least one unit (so that the gate of
    the cap opens), and whose bill of materials is the standard one. *)
Theorem configurazione_stocastica_valida (g : Random) :
  sano g ->
  exists cfg ge g',
    genera_configurazione_stocastica g = inr (cfg, ge, g')
    /\ (forall amb cal strat pol,
          exists s, SistemaProduttivo_init amb cal strat cfg g' pol = inr s)
    /\ (forall m p, exists t,
          cerca_tempo (tempi_lavorazione cfg) m (valore_prodotto p)
          = Some (inject_Z t) /\ (10 <= t <= 40)%Z)
    /\ (forall id_prodotto, limiti_positivi id_prodotto cfg)
    /\ distinta_base cfg = Some distinta_base_base.
Proof.
  intros Hg.
  destruct (estrae_configurazione g Hg) as ([cfg ge] & g' & E & _ & Hc & Ht & Hl & Hd).
  exists cfg, ge, g'. split; [exact E|]. split; [|auto].
  intros amb cal strat pol. unfold SistemaProduttivo_init.
  destruct (scorte_iniziali quantita_iniziali _ _) as [mem mag].
  pose proof (prima_capacita_invalida_spec (capacita cfg)
    (map Macchina tutti_macchinari ++ map Addetto [GENERICO; SPECIALIZZATO])) as H.
  destruct (prima_capacita_invalida _ _).
  - destruct H as (r & _ & Hr). specialize (Hc r). simpl in Hc. lia.
  - eexists. reflexivity.
Qed.

Lemma configurazione_stocastica_valida_witness :
  sano (rng_costante (1 # 2))
  /\ exists cfg ge g',
       genera_configurazione_stocastica (rng_costante (1 # 2)) = inr (cfg, ge, g')
       /\ (forall amb cal strat pol,
             exists s, SistemaProduttivo_init amb cal strat cfg g' pol = inr s)
       /\ (forall m p, exists t,
             cerca_tempo (tempi_lavorazione cfg) m (valore_prodotto p)
             = Some (inject_Z t) /\ (10 <= t <= 40)%Z)
       /\ (forall id_prodotto, limiti_positivi id_prodotto cfg)
       /\ distinta_base cfg = Some distinta_base_base.
Proof.
  assert (Hg : sano (rng_costante (1 # 2)))
    by (intros n; split; vm_compute; [intros E; discriminate E | reflexivity]).
  exact (conj Hg (configurazione_stocastica_valida (rng_costante (1 # 2)) Hg)).
Defined.

(** ** The demand generator *)

(** X22.  The demand generator creates no order.  While the target of
    completed assemblies is not reached, a turn of
    [genera_domanda_stocastica] waits the interval it has drawn and then
    raises: the number for the order's identifier is drawn with
    [randint(1000, 999)], an empty range.  The exception leaves the
    generator with the clock advanced by the interval and no order created;
    the loop reaches no second turn. *)
Theorem domanda_stocastica_senza_ordini (n : nat) (quantita_target : option Z)
  (completati_rd01 : nat -> Z) (k : nat) (id_prodotto : string)
  (intervallo_min intervallo_max : Q) (s : SistemaProduttivo) :
  obiettivo_raggiunto quantita_target (completati_rd01 k) = false ->
  0 <= intervallo_min ->
  intervallo_min <= intervallo_max ->
  0 <= variati (rng s) (estratti (rng s)) /\ variati (rng s) (estratti (rng s)) <= 1 ->
  exists s',
    genera_domanda_stocastica (S n) quantita_target completati_rd01 k id_prodotto
      intervallo_min intervallo_max s
    = Sollevata (ValueError "empty range for randrange()") s'
    /\ oggetti_creati s' = oggetti_creati s
    /\ oggetti s' = oggetti s
    /\ env_now (ambiente s) + intervallo_min <= env_now (ambiente s')
    /\ env_now (ambiente s') <= env_now (ambiente s) + intervallo_max.
Proof.
  intros Ho Hmin Hmax [Hu0 Hu1].
  cbn [genera_domanda_stocastica]. unfold genera_domanda_giro. rewrite Ho.
  set (u := variati (rng s) (estratti (rng s))) in *.
  set (attesa := intervallo_min + (intervallo_max - intervallo_min) * u).
  assert (Ha : intervallo_min <= attesa /\ attesa <= intervallo_max) by (unfold attesa; nra).
  unfold rng_uniform at 1. unfold bind at 1. unfold bind at 1. rewrite bind_leggi.
  unfold bind at 1. unfold modifica at 1. unfold ret at 1.
  unfold bind at 1.
  change (fst (estrai (rng s))) with u. fold attesa.
  rewrite timeout_riuscito by lra.
  unfold ambiente_now. rewrite bind_leggi.
  unfold rng_randint. cbn [Z.ltb Z.compare Pos.compare Pos.compare_cont].
  unfold bind at 1. unfold solleva.
  eexists. split; [reflexivity|].
  cbn [oggetti_creati oggetti ambiente env_now avanza_orologio annota con_ambiente con_rng].
  repeat split; lra.
Qed.

Lemma domanda_stocastica_senza_ordini_witness :
  obiettivo_raggiunto None 0 = false
  /\ 0 <= 5
  /\ 5 <= 15
  /\ (0 <= variati (rng flangia_lunedi) (estratti (rng flangia_lunedi))
      /\ variati (rng flangia_lunedi) (estratti (rng flangia_lunedi)) <= 1)
  /\ exists s',
       genera_domanda_stocastica 10 None (fun _ => 0%Z) 0 "FL-01" 5 15 flangia_lunedi
       = Sollevata (ValueError "empty range for randrange()") s'
       /\ oggetti_creati s' = oggetti_creati flangia_lunedi
       /\ oggetti s' = oggetti flangia_lunedi
       /\ env_now (ambiente flangia_lunedi) + 5 <= env_now (ambiente s')
       /\ env_now (ambiente s') <= env_now (ambiente flangia_lunedi) + 15.
Proof.
  assert (Ho : obiettivo_raggiunto None ((fun _ : nat => 0%Z) O) = false) by reflexivity.
  assert (Hmin : 0 <= 5) by (vm_compute; intros E; discriminate E).
  assert (Hmax : 5 <= 15) by (vm_compute; intros E; discriminate E).
  assert (Hu : 0 <= variati (rng flangia_lunedi) (estratti (rng flangia_lunedi))
               /\ variati (rng flangia_lunedi) (estratti (rng flangia_lunedi)) <= 1)
    by (split; vm_compute; intros E; discriminate E).
  exact (conj Ho (conj Hmin (conj Hmax (conj Hu
    (domanda_stocastica_senza_ordini 9 None (fun _ => 0%Z) 0 "FL-01" 5 15 flangia_lunedi
       Ho Hmin Hmax Hu))))).
Defined.
